(** * TurboNodeIO: the native file-I/O addon [file_io.cc]

    A shallow embedding of the three N-API entry points of the addon
    ([SimdChecksum], [FastReadFile] with its finalizer [UnmapCallback]
    and [GetFileStats]) together with the properties the specification
    states about them.

    Conventions.
    - The target is a 64-bit little-endian machine: [size_t] and
      [uint64_t] are [Z] taken modulo [2^64], [int64_t] is [Z] wrapped
      into [-2^63, 2^63).
    - The preprocessor switches of the source are fields of a [Host]
      record ([_WIN32], [__x86_64__]), so both branches of each [#if]
      are present in the embedding.
    - Operating-system calls act on an explicit [World]; what the
      operating system alone decides (whether an [open] is denied, where
      a mapping is placed) is a field of [Host]. *)

From Stdlib Require Import ZArith Lia Bool List Ascii String Strings.Byte.
From stdpp Require Import base option gmap.
Import ListNotations.

Set Warnings "-register-all".

Local Open Scope Z_scope.

(** ** Machine integers *)

Definition UINT64_MOD : Z := 2 ^ 64.
Definition INT64_MAX : Z := 2 ^ 63 - 1.
Definition INT64_MIN : Z := - 2 ^ 63.

(** Conversion to [uint64_t] / [size_t]: reduction modulo [2^64]. *)
Definition to_uint64 (z : Z) : Z := z mod UINT64_MOD.

(** Conversion to [int64_t]: the two's complement reading of the low
    64 bits. *)
Definition to_int64 (z : Z) : Z :=
  (z + 2 ^ 63) mod UINT64_MOD - 2 ^ 63.

Definition uint64_add (a b : Z) : Z := to_uint64 (a + b).
Definition uint64_mul (a b : Z) : Z := to_uint64 (a * b).

Definition byte_val (b : byte) : Z := Z.of_N (Byte.to_N b).

(** [bytes[i]] for a [const uint8_t*]; the loops below only read inside
    the buffer. *)
Definition byte_at (bytes : list byte) (i : nat) : Z :=
  byte_val (nth i bytes x00).

(** ** 256-bit vectors ([__m256i]) as four 64-bit lanes *)

Record m256i : Type := Build_m256i {
  lane0 : Z;
  lane1 : Z;
  lane2 : Z;
  lane3 : Z
}.

Definition _mm256_setzero_si256 : m256i := Build_m256i 0 0 0 0.

(** [_mm256_add_epi64]: four independent 64-bit additions. *)
Definition _mm256_add_epi64 (a b : m256i) : m256i :=
  Build_m256i (uint64_add (lane0 a) (lane0 b))
              (uint64_add (lane1 a) (lane1 b))
              (uint64_add (lane2 a) (lane2 b))
              (uint64_add (lane3 a) (lane3 b)).

(** An unaligned 64-bit load at [bytes + i] on a little-endian machine:
    byte [k] of the word supplies bits [8k .. 8k+7]. *)
Definition load_u64 (bytes : list byte) (i : nat) : Z :=
  Z.lor (byte_at bytes i)
 (Z.lor (Z.shiftl (byte_at bytes (i + 1)) 8)
 (Z.lor (Z.shiftl (byte_at bytes (i + 2)) 16)
 (Z.lor (Z.shiftl (byte_at bytes (i + 3)) 24)
 (Z.lor (Z.shiftl (byte_at bytes (i + 4)) 32)
 (Z.lor (Z.shiftl (byte_at bytes (i + 5)) 40)
 (Z.lor (Z.shiftl (byte_at bytes (i + 6)) 48)
        (Z.shiftl (byte_at bytes (i + 7)) 56))))))).

(** [_mm256_loadu_si256((const __m256i* )(bytes + i))]: 32 bytes, lane
    [j] holding the bytes at [i + 8j .. i + 8j + 7]. *)
Definition _mm256_loadu_si256 (bytes : list byte) (i : nat) : m256i :=
  Build_m256i (load_u64 bytes i) (load_u64 bytes (i + 8))
              (load_u64 bytes (i + 16)) (load_u64 bytes (i + 24)).

(** ** SimdChecksum (file_io.cc:211-264) *)

(** The chunk loop, lines 231-234:
    [for (; i + 32 <= length; i += 32) acc = add(acc, load(bytes + i))].
    [fuel] bounds the number of iterations; [List.length bytes] is
    always enough ([chunk_loop_spec]). *)
Fixpoint chunk_loop (fuel : nat) (bytes : list byte) (i : nat) (acc : m256i)
  : nat * m256i :=
  match fuel with
  | O => (i, acc)
  | S fuel' =>
      if (i + 32 <=? List.length bytes)%nat
      then chunk_loop fuel' bytes (i + 32)%nat
             (_mm256_add_epi64 acc (_mm256_loadu_si256 bytes i))
      else (i, acc)
  end.

(** The byte loop, lines 247-249 and 252-254:
    [for (; i < length; i++) hash = hash * 31 + bytes[i]].
    [List.length bytes] is enough fuel ([byte_loop_spec]). *)
Fixpoint byte_loop (fuel : nat) (bytes : list byte) (i : nat) (hash : Z)
  : nat * Z :=
  match fuel with
  | O => (i, hash)
  | S fuel' =>
      if (i <? List.length bytes)%nat
      then byte_loop fuel' bytes (S i)
             (uint64_add (uint64_mul hash 31) (byte_at bytes i))
      else (i, hash)
  end.

(** Lines 227-244: the state [(i, hash)] when the vector phase is over. *)
Definition vector_phase (bytes : list byte) : nat * Z :=
  let length := List.length bytes in
  if (32 <=? length)%nat then
    let '(i, acc) := chunk_loop length bytes 0%nat _mm256_setzero_si256 in
    (i, Z.lxor (Z.lxor (Z.lxor (lane0 acc) (lane1 acc)) (lane2 acc)) (lane3 acc))
  else (0%nat, 0).

(** Lines 222-255: the 64-bit hash. [x86_64] is the condition of the
    [#if] at line 225. *)
Definition checksum_hash (x86_64 : bool) (bytes : list byte) : Z :=
  let length := List.length bytes in
  if x86_64 then
    let '(i, hash) := vector_phase bytes in
    snd (byte_loop length bytes i hash)
  else
    snd (byte_loop length bytes 0%nat 0).

(** Number of iterations the byte loop of the x86-64 branch performs. *)
Definition remainder_iterations (bytes : list byte) : nat :=
  let '(i, hash) := vector_phase bytes in
  (fst (byte_loop (List.length bytes) bytes i hash) - i)%nat.

(** *** [snprintf(hex, sizeof(hex), "%016llx", hash)] *)

Definition hex_digit (d : Z) : ascii :=
  if d <? 10 then ascii_of_nat (Z.to_nat (48 + d))
  else ascii_of_nat (Z.to_nat (87 + d)).

(** The digits of [%llx], least significant first, without padding. *)
Fixpoint hex_digits_rev (fuel : nat) (v : Z) : list ascii :=
  match fuel with
  | O => []
  | S fuel' =>
      if v <? 16 then [hex_digit v]
      else hex_digit (v mod 16) :: hex_digits_rev fuel' (v / 16)
  end.

(** [%llx] of an [unsigned long long]. *)
Definition fmt_llx (v : Z) : list ascii :=
  rev (hex_digits_rev 16 (to_uint64 v)).

(** The [0] flag with field width [width]. *)
Definition zero_pad (width : nat) (digits : list ascii) : list ascii :=
  repeat "0"%char (width - List.length digits) ++ digits.

(** [snprintf(buf, size, "%016llx", v)]: at most [size - 1] characters
    are stored before the terminating NUL. *)
Definition snprintf_016llx (size : nat) (v : Z) : list ascii :=
  firstn (size - 1) (zero_pad 16 (fmt_llx v)).

(** Lines 258-262: the string that
    [napi_create_string_utf8(env, hex, 16, &result)] is asked to build. *)
Definition checksum_hex (x86_64 : bool) (bytes : list byte) : string :=
  string_of_list_ascii
    (firstn 16 (snprintf_016llx 17 (checksum_hash x86_64 bytes))).


(** ** The environment: file system, descriptors, address space, heap

    Modelled from the spec: the operating-system and C-library calls
    ([open], [close], [stat], [mmap], [munmap], [CreateFileMapping],
    [MapViewOfFile], [UnmapViewOfFile], [malloc], [free]), which the
    addon calls and does not define. Sections 3 and 4.1 and the glossary
    say what is used of them: a mapping associates a range of a file
    with a range of addresses, reads of which yield the file's bytes;
    mapping offsets have to be aligned to the granularity; the mapping
    outlives the descriptor; unmapping takes the original base address
    (and length). Whatever else the platform decides is a field of
    [Host]. *)

Record File : Type := Build_File {
  f_bytes : list byte;   (* content *)
  f_mtime : Z            (* modification time, seconds since the epoch *)
}.

(** A live mapping: [m_len] bytes at address [m_addr], backed by the
    file [m_path] from file offset [m_off] on. *)
Record Mapping : Type := Build_Mapping {
  m_addr : Z;
  m_len : Z;
  m_path : string;
  m_off : Z
}.

(** [struct MmapInfo] (file_io.cc:74-77). *)
Record MmapInfo : Type := Build_MmapInfo {
  mapped_addr : Z;
  mapped_len : Z
}.

(** Calls that leave the process, with what they returned. *)
Inductive Event : Type :=
| EvOpen (path : string) (ret : Z)
| EvClose (fd : Z)
| EvStat (path : string) (ok : bool)
| EvQueryGranularity
| EvMmap (len fd off : Z) (ret : option Z)
| EvMunmap (addr len : Z)
| EvGetOsfHandle (fd : Z) (ret : option Z)
| EvCreateFileMapping (file_handle : Z) (ret : option Z)
| EvMapViewOfFile (mapping_handle off_high off_low len : Z) (ret : option Z)
| EvCloseHandle (handle : Z)
| EvUnmapViewOfFile (addr : Z)
| EvMalloc (ptr : Z)
| EvFree (ptr : Z).

Record World : Type := Build_World {
  fs : gmap string File;             (* files by path *)
  fds : gmap Z string;               (* open descriptors *)
  mapping_objects : gmap Z string;   (* Windows file-mapping handles *)
  maps : list Mapping;               (* address space, newest first *)
  heap : gmap Z MmapInfo;            (* live [malloc]ed [MmapInfo]s *)
  next_ptr : positive;               (* allocator state *)
  napi_pending : list (option string);
    (* statuses of the coming N-API calls: [None] is [napi_ok],
       [Some msg] a failure whose last-error message is [msg];
       when the list is exhausted every call succeeds *)
  trace : list Event                 (* oldest first *)
}.

(** What the platform decides. *)
Record Host : Type := Build_Host {
  host_win32 : bool;        (* [_WIN32] *)
  host_x86_64 : bool;       (* [__x86_64__ || _M_X64 || _M_AMD64] *)
  host_granularity : Z;     (* [sysconf(_SC_PAGESIZE)],
                               [si.dwAllocationGranularity] *)
  host_open : string -> Z;  (* descriptor handed out for an existing file,
                               negative when the open is refused *)
  host_stat_denied : string -> bool;
  host_create_mapping : string -> option Z;
                            (* handle of a new file-mapping object *)
  host_place : Z -> Z -> string -> option Z
                            (* [host_place len off path]: address at which
                               the region is mapped, or refusal *)
}.

Definition log (e : Event) (w : World) : World :=
  Build_World (fs w) (fds w) (mapping_objects w) (maps w) (heap w)
              (next_ptr w) (napi_pending w) (trace w ++ [e]).

Definition set_fds (f : gmap Z string) (w : World) : World :=
  Build_World (fs w) f (mapping_objects w) (maps w) (heap w)
              (next_ptr w) (napi_pending w) (trace w).

Definition set_mapping_objects (o : gmap Z string) (w : World) : World :=
  Build_World (fs w) (fds w) o (maps w) (heap w)
              (next_ptr w) (napi_pending w) (trace w).

Definition set_maps (m : list Mapping) (w : World) : World :=
  Build_World (fs w) (fds w) (mapping_objects w) m (heap w)
              (next_ptr w) (napi_pending w) (trace w).

Definition set_heap (hp : gmap Z MmapInfo) (n : positive) (w : World) : World :=
  Build_World (fs w) (fds w) (mapping_objects w) (maps w) hp
              n (napi_pending w) (trace w).

Definition set_napi_pending (p : list (option string)) (w : World) : World :=
  Build_World (fs w) (fds w) (mapping_objects w) (maps w) (heap w)
              (next_ptr w) p (trace w).

(** The events a run from [w] to [w'] added. *)
Definition new_events (w w' : World) : list Event :=
  skipn (List.length (trace w)) (trace w').

(** *** Operating-system calls *)

(** [open(path, O_RDONLY | O_BINARY)]. *)
Definition sys_open (h : Host) (path : string) (w : World) : Z * World :=
  let fd := match fs w !! path with
            | Some _ => if host_open h path <? 0 then -1 else host_open h path
            | None => -1
            end in
  (fd, log (EvOpen path fd)
           (if fd <? 0 then w else set_fds (<[fd := path]> (fds w)) w)).

(** [close(fd)]. *)
Definition sys_close (fd : Z) (w : World) : unit * World :=
  (tt, log (EvClose fd) (set_fds (delete fd (fds w)) w)).

(** [struct stat], the two fields the addon reads; both are 64-bit
    signed ([off_t], [time_t]). *)
Record stat_t : Type := Build_stat_t {
  st_size : Z;
  st_mtime : Z
}.

(** [stat_func(path, &st)]: [None] stands for a negative return. *)
Definition sys_stat (h : Host) (path : string) (w : World)
  : option stat_t * World :=
  let r := match fs w !! path with
           | Some f =>
               if host_stat_denied h path then None
               else Some (Build_stat_t
                            (to_int64 (Z.of_nat (List.length (f_bytes f))))
                            (to_int64 (f_mtime f)))
           | None => None
           end in
  (r, log (EvStat path (match r with Some _ => true | None => false end)) w).

(** [mmap(NULL, len, PROT_READ, MAP_PRIVATE, fd, off)]: [None] stands
    for [MAP_FAILED]. A bad descriptor, a zero length and a negative or
    unaligned offset are rejected; otherwise the host places the region
    or refuses. *)
Definition sys_mmap (h : Host) (len fd off : Z) (w : World)
  : option Z * World :=
  let r := match fds w !! fd with
           | None => None
           | Some path =>
               if (len =? 0) || (off <? 0)
                  || negb (off mod to_uint64 (host_granularity h) =? 0)
               then None
               else option_map (fun a => (a, path)) (host_place h len off path)
           end in
  match r with
  | None => (None, log (EvMmap len fd off None) w)
  | Some (a, path) =>
      (Some a, log (EvMmap len fd off (Some a))
                   (set_maps (Build_Mapping a len path off :: maps w) w))
  end.

(** [munmap(addr, len)]: the mappings lying inside [addr, addr + len)
    go away. The return value is not looked at by the caller. *)
Definition sys_munmap (addr len : Z) (w : World) : unit * World :=
  let inside m := (addr <=? m_addr m) && (m_addr m + m_len m <=? addr + len) in
  (tt, log (EvMunmap addr len)
           (set_maps (List.filter (fun m => negb (inside m)) (maps w)) w)).

(** [_get_osfhandle(fd)]: [None] stands for [INVALID_HANDLE_VALUE]. The
    handle of a descriptor is represented by the descriptor's number. *)
Definition sys_get_osfhandle (fd : Z) (w : World) : option Z * World :=
  let r := match fds w !! fd with Some _ => Some fd | None => None end in
  (r, log (EvGetOsfHandle fd r) w).

(** [CreateFileMapping(fileHandle, NULL, PAGE_READONLY, 0, 0, NULL)]:
    a mapping object for the whole file; [None] stands for [NULL]. *)
Definition sys_CreateFileMapping (h : Host) (file_handle : Z) (w : World)
  : option Z * World :=
  let r := match fds w !! file_handle with
           | None => None
           | Some path =>
               option_map (fun mh => (mh, path)) (host_create_mapping h path)
           end in
  match r with
  | None => (None, log (EvCreateFileMapping file_handle None) w)
  | Some (mh, path) =>
      (Some mh, log (EvCreateFileMapping file_handle (Some mh))
                    (set_mapping_objects (<[mh := path]> (mapping_objects w)) w))
  end.

(** [MapViewOfFile(mappingHandle, FILE_MAP_READ, offHigh, offLow, len)]:
    [None] stands for [NULL]. The file offset is [offHigh * 2^32 + offLow]
    and has to be a multiple of the allocation granularity. *)
Definition sys_MapViewOfFile (h : Host) (mapping_handle off_high off_low len : Z)
    (w : World) : option Z * World :=
  let off := off_high * 2 ^ 32 + off_low in
  let r := match mapping_objects w !! mapping_handle with
           | None => None
           | Some path =>
               if negb (off mod to_uint64 (host_granularity h) =? 0) then None
               else option_map (fun a => (a, path)) (host_place h len off path)
           end in
  match r with
  | None =>
      (None, log (EvMapViewOfFile mapping_handle off_high off_low len None) w)
  | Some (a, path) =>
      (Some a, log (EvMapViewOfFile mapping_handle off_high off_low len (Some a))
                   (set_maps (Build_Mapping a len path off :: maps w) w))
  end.

(** [CloseHandle(handle)]. *)
Definition sys_CloseHandle (handle : Z) (w : World) : unit * World :=
  (tt, log (EvCloseHandle handle)
           (set_mapping_objects (delete handle (mapping_objects w)) w)).

(** [UnmapViewOfFile(addr)]: the view that starts at [addr] goes away. *)
Definition sys_UnmapViewOfFile (addr : Z) (w : World) : unit * World :=
  (tt, log (EvUnmapViewOfFile addr)
           (set_maps (List.filter (fun m => negb (m_addr m =? addr)) (maps w)) w)).

(** [malloc(sizeof(MmapInfo))]. The source does not test the result, and
    the allocator of the model always has room: it hands out a fresh
    non-null pointer. The record's fields are written by [store_info]. *)
Definition sys_malloc (w : World) : Z * World :=
  (Z.pos (next_ptr w),
   log (EvMalloc (Z.pos (next_ptr w)))
       (set_heap (heap w) (Pos.succ (next_ptr w)) w)).

Definition store_info (ptr : Z) (info : MmapInfo) (w : World) : unit * World :=
  (tt, set_heap (<[ptr := info]> (heap w)) (next_ptr w) w).

(** [free(ptr)]. *)
Definition sys_free (ptr : Z) (w : World) : unit * World :=
  (tt, log (EvFree ptr) (set_heap (delete ptr (heap w)) (next_ptr w) w)).

(** *** Reading memory *)

(** The byte at address [p]: the newest mapping that covers [p] decides,
    and the byte is the file's; there is none past the end of the file. *)
Definition load_byte (w : World) (p : Z) : option byte :=
  match find (fun m => (m_addr m <=? p) && (p <? m_addr m + m_len m)) (maps w) with
  | None => None
  | Some m =>
      match fs w !! m_path m with
      | None => None
      | Some f =>
          let pos := m_off m + (p - m_addr m) in
          if pos <? 0 then None else nth_error (f_bytes f) (Z.to_nat pos)
      end
  end.

(** The [n] bytes at [p, p + n), when all of them are readable. *)
Fixpoint load_bytes (w : World) (p : Z) (n : nat) : option (list byte) :=
  match n with
  | O => Some []
  | S n' =>
      match load_byte w p, load_bytes w (p + 1) n' with
      | Some b, Some bs => Some (b :: bs)
      | _, _ => None
      end
  end.

(** ** The N-API boundary *)

(** The only finalizer the addon registers. *)
Inductive napi_finalize : Type :=
| UnmapCallback_fn.

(** JavaScript values the addon creates. An external buffer holds no
    bytes of its own: it is the address range [data, data + length) with
    a finalizer and the hint passed to it. *)
Inductive napi_value : Type :=
| JsBuffer (size : Z)
| JsExternalBuffer (data length : Z) (finalize_cb : napi_finalize)
                   (finalize_hint : Z)
| JsString (s : string)
| JsInt64 (v : Z)
| JsObject (props : list (string * napi_value)).

(** The result of an entry point: a value, or [NULL] with a pending
    JavaScript exception carrying [msg]. *)
Inductive Outcome (A : Type) : Type :=
| Returned (a : A)
| Thrown (msg : string).
Arguments Returned {A} a.
Arguments Thrown {A} msg.

Definition M (A : Type) : Type := World -> Outcome A * World.

Definition ret {A : Type} (a : A) : M A := fun w => (Returned a, w).

Definition bind {A B : Type} (c : M A) (k : A -> M B) : M B :=
  fun w => match c w with
           | (Returned a, w') => k a w'
           | (Thrown msg, w') => (Thrown msg, w')
           end.

(** A call that cannot throw. *)
Definition lift {A : Type} (c : World -> A * World) : M A :=
  fun w => let '(a, w') := c w in (Returned a, w').

(** [napi_throw_error(env, NULL, msg); return NULL;] *)
Definition napi_throw_error {A : Type} (msg : string) : M A :=
  fun w => (Thrown msg, w).

Notation "'let*' x ':=' c 'in' k" := (bind c (fun x => k))
  (at level 10, x name, c at level 100, k at level 200).

(** [NAPI_CALL(env, call)] (file_io.cc:52-62) around a call that yields
    [v] when its status is [napi_ok]: on any other status the macro
    throws the last error message and returns [NULL]. *)
Definition NAPI_CALL {A : Type} (v : A) : M A :=
  fun w => match napi_pending w with
           | [] => (Returned v, w)
           | None :: rest => (Returned v, set_napi_pending rest w)
           | Some msg :: rest => (Thrown msg, set_napi_pending rest w)
           end.

Definition napi_create_buffer (size : Z) : M napi_value :=
  NAPI_CALL (JsBuffer size).

Definition napi_create_string_utf8 (str : list ascii) (length : nat)
  : M napi_value :=
  NAPI_CALL (JsString (string_of_list_ascii (firstn length str))).

(** The JavaScript number made from an [int64_t]; its rounding to a
    double beyond [2^53] is not part of the model. *)
Definition napi_create_int64 (v : Z) : M napi_value :=
  NAPI_CALL (JsInt64 v).

Definition napi_create_object : M napi_value :=
  NAPI_CALL (JsObject []).

Definition set_prop (name : string) (v : napi_value)
    (props : list (string * napi_value)) : list (string * napi_value) :=
  List.filter (fun kv => negb (String.eqb (fst kv) name)) props ++ [(name, v)].

(** [napi_set_named_property(env, object, name, value)]; the updated
    object is returned in place of the mutation. *)
Definition napi_set_named_property (object : napi_value) (name : string)
    (value : napi_value) : M napi_value :=
  match object with
  | JsObject props => NAPI_CALL (JsObject (set_prop name value props))
  | _ => napi_throw_error "An object was expected"
  end.

(** ** FastReadFile and UnmapCallback (file_io.cc:74-202) *)

(** [UnmapCallback(env, data, hint)], lines 79-89. [None]: [hint] is a
    dangling pointer, the read of [info->mapped_addr] is undefined. *)
Definition UnmapCallback (h : Host) (data hint : Z) (w : World) : option World :=
  if hint =? 0 then Some w
  else
    match heap w !! hint with
    | None => None
    | Some info =>
        let w1 := if host_win32 h
                  then snd (sys_UnmapViewOfFile (mapped_addr info) w)
                  else snd (sys_munmap (mapped_addr info) (mapped_len info) w) in
        Some (snd (sys_free hint w1))
    end.

(** What the runtime does when a value is collected. *)
Definition run_finalizer (h : Host) (v : napi_value) (w : World) : option World :=
  match v with
  | JsExternalBuffer data _ UnmapCallback_fn hint => UnmapCallback h data hint w
  | _ => Some w
  end.

(** The runtime calling a finalizer it was given. [UnmapCallback] is
    not defined on a dangling hint; [FastReadFile] hands over the record
    it has just stored, so that case does not arise there. *)
Definition call_finalizer (h : Host) (finalize_cb : napi_finalize)
    (data finalize_hint : Z) (w : World) : World :=
  match finalize_cb with
  | UnmapCallback_fn =>
      match UnmapCallback h data finalize_hint w with
      | Some w' => w'
      | None => w
      end
  end.

(** [napi_create_external_buffer(env, length, data, finalize_cb,
    finalize_hint, &result)]. Whether the runtime makes the buffer is
    the status at hand: it refuses a [length] above its maximum, which
    depends on its version. A runtime that does not make the buffer
    calls the finalizer itself, inside the call, before it reports the
    failure; on success the finalizer runs when the buffer is collected.
    (A status reported before the constructor starts, as on a runtime
    that allows no external buffers, is not part of the model.) *)
Definition napi_create_external_buffer (h : Host) (length data : Z)
    (finalize_cb : napi_finalize) (finalize_hint : Z) : M napi_value :=
  fun w =>
    match NAPI_CALL (JsExternalBuffer data length finalize_cb finalize_hint) w
    with
    | (Returned v, w') => (Returned v, w')
    | (Thrown msg, w') =>
        (Thrown msg, call_finalizer h finalize_cb data finalize_hint w')
    end.

(** [GetAllocationGranularity()], lines 91-99; the result is a [size_t]. *)
Definition GetAllocationGranularity (h : Host) (w : World) : Z * World :=
  (to_uint64 (host_granularity h), log EvQueryGranularity w).

(** Lines 146-148. [offset] and [length] are [int64_t], [granularity]
    and [padding] are [size_t]: the division and the product of line 146
    and the sum of line 148 are unsigned. *)
Definition aligned_offset_of (granularity offset : Z) : Z :=
  to_int64 (uint64_mul (to_uint64 offset / granularity) granularity).

Definition padding_of (granularity offset : Z) : Z :=
  to_uint64 (to_int64 (offset - aligned_offset_of granularity offset)).

Definition map_length_of (granularity offset length : Z) : Z :=
  uint64_add (to_uint64 length) (padding_of granularity offset).

(** Lines 153-177, the Windows branch: it throws when the handle or the
    mapping object cannot be had, and otherwise yields what
    [MapViewOfFile] returned. *)
Definition map_win32 (h : Host) (fd aligned_offset map_length : Z)
  : M (option Z) :=
  let* fileHandle := lift (sys_get_osfhandle fd) in
  match fileHandle with
  | None =>
      let* _ := lift (sys_close fd) in
      napi_throw_error "Failed to get file handle"
  | Some fileHandle =>
      let* mappingHandle := lift (sys_CreateFileMapping h fileHandle) in
      match mappingHandle with
      | None =>
          let* _ := lift (sys_close fd) in
          napi_throw_error "Failed to create file mapping"
      | Some mappingHandle =>
          let offsetHigh := Z.shiftr aligned_offset 32 mod 2 ^ 32 in
          let offsetLow := Z.land aligned_offset 4294967295 mod 2 ^ 32 in
          let* mapped_addr :=
            lift (sys_MapViewOfFile h mappingHandle offsetHigh offsetLow
                                    map_length) in
          let* _ := lift (sys_CloseHandle mappingHandle) in
          ret mapped_addr
      end
  end.

(** Line 179, the POSIX branch. *)
Definition map_posix (h : Host) (fd aligned_offset map_length : Z)
  : M (option Z) :=
  lift (sys_mmap h map_length fd aligned_offset).

(** [FastReadFile], from line 128 on: [path], [offset] and [length] are
    the decoded arguments. *)
Definition FastReadFile (h : Host) (path : string) (offset length : Z)
  : M napi_value :=
  let* fd := lift (sys_open h path) in
  if fd <? 0 then napi_throw_error "Failed to open file"
  else if length =? 0 then
    let* _ := lift (sys_close fd) in
    napi_create_buffer 0
  else
    let* granularity := lift (GetAllocationGranularity h) in
    let aligned_offset := aligned_offset_of granularity offset in
    let padding := padding_of granularity offset in
    let map_length := map_length_of granularity offset length in
    let* mapped_addr :=
      (if host_win32 h then map_win32 h fd aligned_offset map_length
       else map_posix h fd aligned_offset map_length) in
    let* _ := lift (sys_close fd) in
    match mapped_addr with
    | None => napi_throw_error "Failed to map file"
    | Some mapped_addr =>
        let* map_info := lift sys_malloc in
        let* _ := lift (store_info map_info
                          (Build_MmapInfo mapped_addr map_length)) in
        let data := mapped_addr + padding in
        napi_create_external_buffer h (to_uint64 length) data
                                    UnmapCallback_fn map_info
    end.

(** ** SimdChecksum, the entry point: [bytes] is the decoded buffer. *)
Definition SimdChecksum (h : Host) (bytes : list byte) : M napi_value :=
  let hash := checksum_hash (host_x86_64 h) bytes in
  let hex := snprintf_016llx 17 hash in
  napi_create_string_utf8 hex 16.

(** ** GetFileStats (file_io.cc:272-306): [path] is the decoded argument. *)
Definition GetFileStats (h : Host) (path : string) : M napi_value :=
  let* st := lift (sys_stat h path) in
  match st with
  | None => napi_throw_error "Failed to stat file"
  | Some st =>
      let* result := napi_create_object in
      let* size := napi_create_int64 (st_size st) in
      let* result := napi_set_named_property result "size" size in
      let* mtime := napi_create_int64 (to_int64 (st_mtime st)) in
      let* result := napi_set_named_property result "mtime" mtime in
      ret result
  end.


(** ** Reference definitions, written from the specification

    These follow the words of the specification (sections 4.2 and 7),
    not the code; the theorems below compare the embedding with them. *)

(** The failure taxonomy of section 7. *)
Inductive ErrorKind : Type :=
| InvalidArgument
| FileOpenError
| MappingError
| StatError.

(** The kind of failure each message thrown by the addon reports. No
    message of the addon reports [InvalidArgument]. *)
Definition error_kind (msg : string) : option ErrorKind :=
  if String.eqb msg "Failed to open file" then Some FileOpenError
  else if String.eqb msg "Failed to get file handle" then Some MappingError
  else if String.eqb msg "Failed to create file mapping" then Some MappingError
  else if String.eqb msg "Failed to map file" then Some MappingError
  else if String.eqb msg "Failed to stat file" then Some StatError
  else None.

(** Little-endian value of a byte string. *)
Definition spec_le_word (bs : list byte) : Z :=
  fold_right (fun b acc => byte_val b + 256 * acc) 0 bs.

(** The full 32-byte chunks of a buffer, in order. *)
Definition spec_chunks (b : list byte) : list (list byte) :=
  map (fun k => firstn 32 (skipn (32 * k) b)) (seq 0 (List.length b / 32)).

(** Lane [j] of a chunk: its bytes [8j .. 8j+7]. *)
Definition spec_lane (j : nat) (chunk : list byte) : Z :=
  spec_le_word (firstn 8 (skipn (8 * j) chunk)).

(** One chunk added lane by lane, each lane wrapping on its own. *)
Definition spec_add_chunk (acc : Z * Z * Z * Z) (chunk : list byte)
  : Z * Z * Z * Z :=
  let '(a0, a1, a2, a3) := acc in
  ((a0 + spec_lane 0 chunk) mod 2 ^ 64,
   (a1 + spec_lane 1 chunk) mod 2 ^ 64,
   (a2 + spec_lane 2 chunk) mod 2 ^ 64,
   (a3 + spec_lane 3 chunk) mod 2 ^ 64).

(** The accumulator after all full chunks. *)
Definition spec_accumulate (b : list byte) : Z * Z * Z * Z :=
  fold_left spec_add_chunk (spec_chunks b) (0, 0, 0, 0).

(** The four lanes folded by exclusive-or. *)
Definition spec_xor_fold (acc : Z * Z * Z * Z) : Z :=
  let '(a0, a1, a2, a3) := acc in
  Z.lxor (Z.lxor (Z.lxor a0 a1) a2) a3.

(** [hash = hash * 31 + byte] over [bs], from [h0], modulo [2^64]. *)
Definition spec_scalar_fold (h0 : Z) (bs : list byte) : Z :=
  fold_left (fun hash b => (hash * 31 + byte_val b) mod 2 ^ 64) bs h0.

(** The bytes after the last full chunk. *)
Definition spec_remainder (b : list byte) : list byte :=
  skipn (32 * (List.length b / 32)) b.

(** The reference hash, with and without 256-bit vector support. *)
Definition spec_hash (vector : bool) (b : list byte) : Z :=
  if vector
  then spec_scalar_fold (spec_xor_fold (spec_accumulate b)) (spec_remainder b)
  else spec_scalar_fold 0 b.

Definition spec_hex_char (d : Z) : ascii :=
  nth (Z.to_nat d) (list_ascii_of_string "0123456789abcdef") "0"%char.

(** Sixteen hexadecimal digits, most significant first. *)
Definition spec_hex16 (v : Z) : string :=
  string_of_list_ascii
    (map (fun k => spec_hex_char ((v / 16 ^ (15 - Z.of_nat k)) mod 16))
         (seq 0 16)).

Definition spec_fingerprint (vector : bool) (b : list byte) : string :=
  spec_hex16 (spec_hash vector b).

Definition is_lower_hex (c : ascii) : bool :=
  existsb (Ascii.eqb c) (list_ascii_of_string "0123456789abcdef").

(** *** Observations on traces *)

(** A mapping call of the operating system that reported failure. *)
Definition mapping_call_failed (e : Event) : bool :=
  match e with
  | EvMmap _ _ _ None => true
  | EvGetOsfHandle _ None => true
  | EvCreateFileMapping _ None => true
  | EvMapViewOfFile _ _ _ _ None => true
  | _ => false
  end.

(** The file offset and the length a mapping call asks for. *)
Definition mapping_request (e : Event) : option (Z * Z) :=
  match e with
  | EvMmap len _ off _ => Some (off, len)
  | EvMapViewOfFile _ off_high off_low len _ =>
      Some (off_high * 2 ^ 32 + off_low, len)
  | _ => None
  end.

(** A call into the mapping subsystem, successful or not. *)
Definition is_mapping_call (e : Event) : bool :=
  match e with
  | EvMmap _ _ _ _ | EvMunmap _ _ | EvCreateFileMapping _ _
  | EvMapViewOfFile _ _ _ _ _ | EvUnmapViewOfFile _ => true
  | _ => false
  end.

(** ** Sample environments *)

(** A file of 5003 bytes: 5000 times [A], then [B], [C], [D]. *)
Definition sample_file : File :=
  Build_File (repeat x41 5000 ++ [x42; x43; x44]) 1700000000.

(** A fresh process that sees one file. *)
Definition sample_world : World :=
  Build_World (<["data.bin"%string := sample_file]> ∅) ∅ ∅ [] ∅ 1%positive [] [].

(** The same process when the runtime refuses the next buffer it is
    asked for, as it does for a length above its maximum; the exception
    is named by its code. *)
Definition refusing_world : World :=
  set_napi_pending [Some "ERR_BUFFER_TOO_LARGE"%string] sample_world.

(** A POSIX host with 4096-byte pages, as Linux on x86-64: it grants
    every open with descriptor 3 and maps at address 1048576 every
    region that fits the 2^47 bytes of the user address space, also one
    that reaches past the end of the file. *)
Definition posix_host : Host :=
  Build_Host false true 4096 (fun _ => 3) (fun _ => false) (fun _ => None)
             (fun len _ _ => if len <=? 2 ^ 47 then Some 1048576 else None).

(** A Windows host with an allocation granularity of 65536, which
    refuses a view that reaches past the 5003 bytes of the sample file. *)
Definition win32_host : Host :=
  Build_Host true true 65536 (fun _ => 3) (fun _ => false) (fun _ => Some 260)
             (fun len off _ => if off + len <=? 5003 then Some 1048576 else None).

(** The POSIX host without 256-bit vector support. *)
Definition scalar_host : Host :=
  Build_Host false false 4096 (fun _ => 3) (fun _ => false) (fun _ => None)
             (fun len _ _ => if len <=? 2 ^ 47 then Some 1048576 else None).

(** ** Auxiliary definitions of the proofs *)

(** The lanes of a vector as a tuple. *)
Definition lanes_of (acc : m256i) : Z * Z * Z * Z :=
  (lane0 acc, lane1 acc, lane2 acc, lane3 acc).

Definition lanes_in_range (acc : Z * Z * Z * Z) : Prop :=
  let '(a0, a1, a2, a3) := acc in
  0 <= a0 < 2 ^ 64 /\ 0 <= a1 < 2 ^ 64 /\ 0 <= a2 < 2 ^ 64 /\ 0 <= a3 < 2 ^ 64.

(** The [k] low hexadecimal digits of [v], least significant first. *)
Fixpoint digits_fixed_rev (k : nat) (v : Z) : list ascii :=
  match k with
  | O => []
  | S k' => hex_digit (v mod 16) :: digits_fixed_rev k' (v / 16)
  end.

(** The file offset [MapViewOfFile] is given for [aligned_offset]
    (file_io.cc:171-175). *)
Definition win32_offset (aligned_offset : Z) : Z :=
  (Z.shiftr aligned_offset 32 mod 2 ^ 32) * 2 ^ 32
  + Z.land aligned_offset 4294967295 mod 2 ^ 32.

(** The file offset the mapping call of the platform is given. *)
Definition requested_offset (h : Host) (aligned_offset : Z) : Z :=
  if host_win32 h then win32_offset aligned_offset else aligned_offset.

(** The call by which [UnmapCallback] gives back the region of [len]
    bytes at [a] (file_io.cc:82-86). *)
Definition unmap_event (h : Host) (a len : Z) : Event :=
  if host_win32 h then EvUnmapViewOfFile a else EvMunmap a len.

(** Whether unmapping the region of [len] bytes at [a] leaves the
    mapping [m] in place: [munmap] takes the mappings inside
    [a, a + len), [UnmapViewOfFile] the views that start at [a]. *)
Definition survives_unmap (h : Host) (a len : Z) (m : Mapping) : bool :=
  if host_win32 h then negb (m_addr m =? a)
  else negb ((a <=? m_addr m) && (m_addr m + m_len m <=? a + len)).

(** The event [e], if it is a mapping call, asks for [len] bytes at
    file offset [off]. *)
Definition request_is (off len : Z) (e : Event) : Prop :=
  forall o l, mapping_request e = Some (o, l) -> o = off /\ l = len.

(** What the mapping calls of the platform come to for the file [path]
    held open: the address of the new region, or [None] when one of
    them fails. *)
Definition mapping_granted (h : Host) (path : string) (aligned_offset map_length : Z)
  : option Z :=
  let g := to_uint64 (host_granularity h) in
  if host_win32 h then
    match host_create_mapping h path with
    | None => None
    | Some _ =>
        if negb (win32_offset aligned_offset mod g =? 0) then None
        else host_place h map_length (win32_offset aligned_offset) path
    end
  else
    if (map_length =? 0) || (aligned_offset <? 0)
       || negb (aligned_offset mod g =? 0)
    then None
    else host_place h map_length aligned_offset path.

(** From [w] to [w'] the calls [evs] were made and the regions
    [mapped] were added; heap, allocator, files and pending N-API
    statuses are as before. *)
Definition os_effect (w w' : World) (evs : list Event) (mapped : list Mapping)
  : Prop :=
  trace w' = trace w ++ evs /\
  maps w' = mapped ++ maps w /\
  heap w' = heap w /\
  next_ptr w' = next_ptr w /\
  napi_pending w' = napi_pending w /\
  fs w' = fs w.

(** The next N-API call reports [napi_ok]. *)
Definition napi_next_ok (w : World) : Prop :=
  hd None (napi_pending w) = None.

(** The next [n] N-API calls report [napi_ok]. *)
Definition napi_all_ok (n : nat) (w : World) : Prop :=
  forallb (fun s => match s with None => true | Some _ => false end)
          (firstn n (napi_pending w)) = true.

(** ** Further definitions: the checksum as arithmetic *)

(** The polynomial [b0 * 31^(n-1) + b1 * 31^(n-2) + ... + b(n-1)] of a
    byte string [b0 ... b(n-1)]. *)
Fixpoint poly31 (bs : list byte) : Z :=
  match bs with
  | [] => 0
  | b :: rest => byte_val b * 31 ^ Z.of_nat (List.length rest) + poly31 rest
  end.

(** The value of a lowercase hexadecimal digit (0 for other characters). *)
Definition hex_digit_value (c : ascii) : Z :=
  let n := Z.of_nat (nat_of_ascii c) in
  if (48 <=? n) && (n <=? 57) then n - 48
  else if (97 <=? n) && (n <=? 102) then n - 87
  else 0.

(** The number a string of hexadecimal digits denotes, most significant
    digit first. *)
Definition hex_value (s : string) : Z :=
  fold_left (fun acc c => acc * 16 + hex_digit_value c)
            (list_ascii_of_string s) 0.

(** ** Further definitions: the entry points as registered

    [FastReadFile] and [GetFileStats] as the N-API callbacks they are
    (file_io.cc:110-130 and 272-291): the arguments arrive as JavaScript
    values and are decoded before the work starts. A JavaScript string
    is represented by its UTF-8 bytes, a missing argument ([undefined])
    by [None]. *)

(** The C string a [char] buffer holds: the bytes before the first NUL. *)
Fixpoint c_str (s : string) : string :=
  match s with
  | EmptyString => EmptyString
  | String c rest =>
      if Ascii.eqb c Ascii.zero then EmptyString else String c (c_str rest)
  end.

(** [napi_get_cb_info(env, info, &argc, args, NULL, NULL)]: [args] is
    filled with the first [argc] arguments of the call, with [undefined]
    where the call has fewer. *)
Definition napi_get_cb_info (argc : nat) (info : list napi_value)
  : M (list (option napi_value)) :=
  NAPI_CALL (map (nth_error info) (seq 0 argc)).

(** [args[i]]. *)
Definition arg (args : list (option napi_value)) (i : nat)
  : option napi_value :=
  nth i args None.

(** [napi_get_value_string_utf8(env, value, NULL, 0, &result)]: the
    length of the string in bytes; [napi_string_expected] for a value
    that is not a string. *)
Definition napi_get_value_string_utf8_length (value : option napi_value)
  : M nat :=
  match value with
  | Some (JsString s) => NAPI_CALL (String.length s)
  | _ => napi_throw_error "A string was expected"
  end.

(** [napi_get_value_string_utf8(env, value, buf, bufsize, &result)]:
    the bytes written to [buf] before the terminating NUL, at most
    [bufsize - 1] of them. *)
Definition napi_get_value_string_utf8 (value : option napi_value)
    (bufsize : nat) : M string :=
  match value with
  | Some (JsString s) => NAPI_CALL (substring 0 (bufsize - 1) s)
  | _ => napi_throw_error "A string was expected"
  end.

(** [napi_get_value_int64(env, value, &result)] for a number that is
    an integer of the [int64_t] range (fractions, NaN and numbers beyond
    that range are not part of the model); [napi_number_expected] for a
    value that is not a number. *)
Definition napi_get_value_int64 (value : option napi_value) : M Z :=
  match value with
  | Some (JsInt64 v) => NAPI_CALL v
  | _ => napi_throw_error "A number was expected"
  end.

(** [FastReadFile] from line 132 on: [fd] is what [open] returned. *)
Definition FastReadFile_opened (h : Host) (fd offset length : Z)
  : M napi_value :=
  if fd <? 0 then napi_throw_error "Failed to open file"
  else if length =? 0 then
    let* _ := lift (sys_close fd) in
    napi_create_buffer 0
  else
    let* granularity := lift (GetAllocationGranularity h) in
    let aligned_offset := aligned_offset_of granularity offset in
    let padding := padding_of granularity offset in
    let map_length := map_length_of granularity offset length in
    let* mapped_addr :=
      (if host_win32 h then map_win32 h fd aligned_offset map_length
       else map_posix h fd aligned_offset map_length) in
    let* _ := lift (sys_close fd) in
    match mapped_addr with
    | None => napi_throw_error "Failed to map file"
    | Some mapped_addr =>
        let* map_info := lift sys_malloc in
        let* _ := lift (store_info map_info
                          (Build_MmapInfo mapped_addr map_length)) in
        let data := mapped_addr + padding in
        napi_create_external_buffer h (to_uint64 length) data
                                    UnmapCallback_fn map_info
    end.

(** [FastReadFile(env, info)], lines 110-202, called with the arguments
    [info]. [path] is the buffer of line 119, [path_chars] what line 120
    writes into it. *)
Definition FastReadFile_callback (h : Host) (info : list napi_value)
  : M napi_value :=
  let* args := napi_get_cb_info 3 info in
  let* path_length := napi_get_value_string_utf8_length (arg args 0) in
  let* path := lift sys_malloc in
  let* path_chars :=
    napi_get_value_string_utf8 (arg args 0) (path_length + 1) in
  let* offset := napi_get_value_int64 (arg args 1) in
  let* length := napi_get_value_int64 (arg args 2) in
  let* fd := lift (sys_open h (c_str path_chars)) in
  let* _ := lift (sys_free path) in
  FastReadFile_opened h fd offset length.

(** [GetFileStats(env, info)], lines 272-306. *)
Definition GetFileStats_callback (h : Host) (info : list napi_value)
  : M napi_value :=
  let* args := napi_get_cb_info 1 info in
  let* path_length := napi_get_value_string_utf8_length (arg args 0) in
  let* path := lift sys_malloc in
  let* path_chars :=
    napi_get_value_string_utf8 (arg args 0) (path_length + 1) in
  let* st := lift (sys_stat h (c_str path_chars)) in
  match st with
  | None =>
      let* _ := lift (sys_free path) in
      napi_throw_error "Failed to stat file"
  | Some st =>
      let* _ := lift (sys_free path) in
      let* result := napi_create_object in
      let* size := napi_create_int64 (st_size st) in
      let* result := napi_set_named_property result "size" size in
      let* mtime := napi_create_int64 (to_int64 (st_mtime st)) in
      let* result := napi_set_named_property result "mtime" mtime in
      ret result
  end.

(** The world once [n] N-API calls have reported [napi_ok] and the
    buffer of the path has been allocated. *)
Definition arguments_decoded (n : nat) (w : World) : World :=
  snd (sys_malloc (set_napi_pending (skipn n (napi_pending w)) w)).

(** Whether an argument decodes as a number, as a string. *)
Definition is_number (v : option napi_value) : bool :=
  match v with
  | Some (JsInt64 _) => true
  | _ => false
  end.

Definition is_string (v : option napi_value) : bool :=
  match v with
  | Some (JsString _) => true
  | _ => false
  end.

(** * Properties *)

(** ** Machine arithmetic *)

Lemma to_uint64_range (z : Z) : 0 <= to_uint64 z < 2 ^ 64.
Proof. unfold to_uint64, UINT64_MOD. apply Z.mod_pos_bound. lia. Qed.

Lemma to_uint64_small (z : Z) : 0 <= z < 2 ^ 64 -> to_uint64 z = z.
Proof. intros H. unfold to_uint64, UINT64_MOD. apply Z.mod_small. exact H. Qed.

Lemma to_int64_small (z : Z) : - 2 ^ 63 <= z < 2 ^ 63 -> to_int64 z = z.
Proof.
  intros H. unfold to_int64, UINT64_MOD.
  rewrite Z.mod_small by lia. lia.
Qed.

Lemma byte_val_range (b : byte) : 0 <= byte_val b < 256.
Proof.
  unfold byte_val. pose proof (Byte.to_N_bounded b) as H. lia.
Qed.

Lemma byte_at_range (bytes : list byte) (i : nat) : 0 <= byte_at bytes i < 256.
Proof. apply byte_val_range. Qed.

(** Bits that do not overlap add up. *)
Lemma lor_add_high (x z n : Z) :
  0 <= n -> 0 <= x < 2 ^ n -> Z.lor x (z * 2 ^ n) = x + z * 2 ^ n.
Proof.
  intros Hn Hx.
  assert (Hland : Z.land x (z * 2 ^ n) = 0).
  { apply Z.bits_inj'. intros k Hk.
    rewrite Z.land_spec, Z.bits_0.
    destruct (Z.ltb_spec k n) as [Hlt | Hge].
    - rewrite Z.mul_pow2_bits_low by lia. apply andb_false_r.
    - destruct (Z.eq_dec x 0) as [-> | Hx0].
      + rewrite Z.bits_0. reflexivity.
      + rewrite (Z.bits_above_log2 x k); [reflexivity | lia |].
        apply Z.lt_le_trans with n; [| exact Hge].
        apply Z.log2_lt_pow2; lia. }
  rewrite <- Z.lxor_lor by exact Hland.
  symmetry. apply Z.add_nocarry_lxor. exact Hland.
Qed.

(** ** The vector load reads little-endian words *)

Lemma byte_at_skipn (bytes : list byte) (i k : nat) :
  byte_at bytes (i + k) = byte_at (skipn i bytes) k.
Proof. unfold byte_at. rewrite nth_skipn. reflexivity. Qed.

Lemma load_u64_skipn (bytes : list byte) (i : nat) :
  load_u64 bytes i = load_u64 (skipn i bytes) 0.
Proof.
  unfold load_u64. rewrite !byte_at_skipn. simpl.
  rewrite <- (Nat.add_0_r i) at 1. rewrite byte_at_skipn. reflexivity.
Qed.

Lemma load_u64_word (b0 b1 b2 b3 b4 b5 b6 b7 : byte) (rest : list byte) :
  load_u64 (b0 :: b1 :: b2 :: b3 :: b4 :: b5 :: b6 :: b7 :: rest) 0 =
  spec_le_word [b0; b1; b2; b3; b4; b5; b6; b7].
Proof.
  unfold load_u64, byte_at, spec_le_word. simpl nth. simpl fold_right.
  pose proof (byte_val_range b0). pose proof (byte_val_range b1).
  pose proof (byte_val_range b2). pose proof (byte_val_range b3).
  pose proof (byte_val_range b4). pose proof (byte_val_range b5).
  pose proof (byte_val_range b6). pose proof (byte_val_range b7).
  rewrite !Z.shiftl_mul_pow2 by lia.
  rewrite (lor_add_high (byte_val b6 * 2 ^ 48) (byte_val b7) 56) by lia.
  replace (byte_val b6 * 2 ^ 48 + byte_val b7 * 2 ^ 56)
    with ((byte_val b6 + byte_val b7 * 256) * 2 ^ 48) by lia.
  rewrite (lor_add_high (byte_val b5 * 2 ^ 40) _ 48) by lia.
  replace (byte_val b5 * 2 ^ 40 + (byte_val b6 + byte_val b7 * 256) * 2 ^ 48)
    with ((byte_val b5 + 256 * (byte_val b6 + byte_val b7 * 256)) * 2 ^ 40) by lia.
  rewrite (lor_add_high (byte_val b4 * 2 ^ 32) _ 40) by lia.
  match goal with |- context [byte_val b4 * 2 ^ 32 + ?z * 2 ^ 40] =>
    replace (byte_val b4 * 2 ^ 32 + z * 2 ^ 40)
      with ((byte_val b4 + 256 * z) * 2 ^ 32) by lia end.
  rewrite (lor_add_high (byte_val b3 * 2 ^ 24) _ 32) by lia.
  match goal with |- context [byte_val b3 * 2 ^ 24 + ?z * 2 ^ 32] =>
    replace (byte_val b3 * 2 ^ 24 + z * 2 ^ 32)
      with ((byte_val b3 + 256 * z) * 2 ^ 24) by lia end.
  rewrite (lor_add_high (byte_val b2 * 2 ^ 16) _ 24) by lia.
  match goal with |- context [byte_val b2 * 2 ^ 16 + ?z * 2 ^ 24] =>
    replace (byte_val b2 * 2 ^ 16 + z * 2 ^ 24)
      with ((byte_val b2 + 256 * z) * 2 ^ 16) by lia end.
  rewrite (lor_add_high (byte_val b1 * 2 ^ 8) _ 16) by lia.
  match goal with |- context [byte_val b1 * 2 ^ 8 + ?z * 2 ^ 16] =>
    replace (byte_val b1 * 2 ^ 8 + z * 2 ^ 16)
      with ((byte_val b1 + 256 * z) * 2 ^ 8) by lia end.
  rewrite (lor_add_high (byte_val b0) _ 8) by lia.
  lia.
Qed.

(** The word loaded at [bytes + i] is the little-endian value of the
    eight bytes found there. *)
Lemma load_u64_le (bytes : list byte) (i : nat) :
  (i + 8 <= List.length bytes)%nat ->
  load_u64 bytes i = spec_le_word (firstn 8 (skipn i bytes)).
Proof.
  intros Hlen. rewrite load_u64_skipn.
  assert (Hl : (8 <= List.length (skipn i bytes))%nat)
    by (rewrite length_skipn; lia).
  destruct (skipn i bytes) as [|b0 [|b1 [|b2 [|b3 [|b4 [|b5 [|b6 [|b7 rest]]]]]]]];
    simpl in Hl; try lia.
  rewrite load_u64_word. reflexivity.
Qed.

Lemma spec_le_word_range (bs : list byte) :
  0 <= spec_le_word bs < 256 ^ Z.of_nat (List.length bs).
Proof.
  induction bs as [|b bs IH].
  - simpl. lia.
  - cbn [spec_le_word fold_right List.length].
    fold (spec_le_word bs).
    rewrite Nat2Z.inj_succ, Z.pow_succ_r by lia.
    pose proof (byte_val_range b). lia.
Qed.

Lemma load_u64_range (bytes : list byte) (i : nat) :
  (i + 8 <= List.length bytes)%nat -> 0 <= load_u64 bytes i < 2 ^ 64.
Proof.
  intros Hlen. rewrite load_u64_le by exact Hlen.
  pose proof (spec_le_word_range (firstn 8 (skipn i bytes))) as H.
  rewrite length_firstn, length_skipn in H.
  replace (Nat.min 8 (List.length bytes - i)) with 8%nat in H by lia.
  change (256 ^ Z.of_nat 8) with (2 ^ 64) in H. exact H.
Qed.

(** ** The two loops of SimdChecksum *)

Lemma chunk_lane (bytes : list byte) (i j : nat) :
  (j < 4)%nat ->
  firstn 8 (skipn (8 * j) (firstn 32 (skipn i bytes))) =
  firstn 8 (skipn (i + 8 * j) bytes).
Proof.
  intros Hj. rewrite skipn_firstn_comm, firstn_firstn, skipn_skipn.
  replace (Nat.min 8 (32 - 8 * j)) with 8%nat by lia.
  f_equal. f_equal. lia.
Qed.

(** One iteration of the chunk loop adds one chunk of the reference. *)
Lemma chunk_step (bytes : list byte) (i : nat) (acc : m256i) :
  (i + 32 <= List.length bytes)%nat ->
  lanes_of (_mm256_add_epi64 acc (_mm256_loadu_si256 bytes i)) =
  spec_add_chunk (lanes_of acc) (firstn 32 (skipn i bytes)).
Proof.
  intros Hlen. unfold lanes_of, spec_add_chunk, spec_lane.
  cbn [_mm256_add_epi64 _mm256_loadu_si256 lane0 lane1 lane2 lane3].
  rewrite !chunk_lane by lia.
  unfold uint64_add, to_uint64, UINT64_MOD.
  rewrite !load_u64_le by lia.
  replace (i + 8 * 0)%nat with i by lia.
  replace (i + 8 * 1)%nat with (i + 8)%nat by lia.
  replace (i + 8 * 2)%nat with (i + 16)%nat by lia.
  replace (i + 8 * 3)%nat with (i + 24)%nat by lia.
  reflexivity.
Qed.

(** With enough fuel the chunk loop leaves through its test, after
    [n] iterations when [n] full chunks lie ahead of [i], and its
    accumulator is the reference's. *)
Lemma chunk_loop_spec (bytes : list byte) (n : nat) :
  forall (fuel i : nat) (acc : m256i),
    (n <= fuel)%nat ->
    (i + 32 * n <= List.length bytes)%nat ->
    (List.length bytes < i + 32 * (n + 1))%nat ->
    fst (chunk_loop fuel bytes i acc) = (i + 32 * n)%nat /\
    lanes_of (snd (chunk_loop fuel bytes i acc)) =
    fold_left spec_add_chunk
      (map (fun k => firstn 32 (skipn (i + 32 * k) bytes)) (seq 0 n))
      (lanes_of acc).
Proof.
  induction n as [|n IH]; intros fuel i acc Hfuel Hlo Hhi.
  - destruct fuel as [|fuel]; simpl.
    + split; [lia | reflexivity].
    + destruct (Nat.leb_spec (i + 32) (List.length bytes)) as [Hle | Hgt].
      * lia.
      * simpl. split; [lia | reflexivity].
  - destruct fuel as [|fuel]; [lia |].
    cbn [chunk_loop].
    destruct (Nat.leb_spec (i + 32) (List.length bytes)) as [Hle | Hgt]; [| lia].
    destruct (IH fuel (i + 32)%nat
                 (_mm256_add_epi64 acc (_mm256_loadu_si256 bytes i)))
      as [Hi Hacc]; try lia.
    split; [rewrite Hi; lia |].
    rewrite Hacc. rewrite chunk_step by exact Hle.
    cbn [seq map fold_left].
    replace (i + 32 * 0)%nat with i by lia.
    rewrite <- seq_shift, map_map.
    f_equal. apply map_ext. intros k. f_equal. f_equal. lia.
Qed.

Lemma skipn_cons_nth (bytes : list byte) :
  forall i : nat,
    (i < List.length bytes)%nat ->
    skipn i bytes = nth i bytes x00 :: skipn (S i) bytes.
Proof.
  induction bytes as [|b bytes IH]; intros i Hi; simpl in Hi.
  - lia.
  - destruct i as [|i]; [reflexivity |].
    simpl. apply IH. lia.
Qed.

(** With enough fuel the byte loop runs to the end of the buffer and
    folds the bytes from [i] on. *)
Lemma byte_loop_spec (bytes : list byte) :
  forall (fuel i : nat) (hash : Z),
    (i <= List.length bytes)%nat ->
    (List.length bytes - i <= fuel)%nat ->
    byte_loop fuel bytes i hash =
    (List.length bytes, spec_scalar_fold hash (skipn i bytes)).
Proof.
  induction fuel as [|fuel IH]; intros i hash Hi Hfuel.
  - assert (i = List.length bytes) as -> by lia.
    rewrite skipn_all. reflexivity.
  - cbn [byte_loop].
    destruct (Nat.ltb_spec i (List.length bytes)) as [Hlt | Hge].
    + rewrite IH by lia.
      rewrite (skipn_cons_nth bytes i Hlt).
      unfold spec_scalar_fold at 2. cbn [fold_left].
      unfold uint64_add, uint64_mul, to_uint64, UINT64_MOD, byte_at.
      rewrite Z.add_mod_idemp_l by lia. reflexivity.
    + assert (i = List.length bytes) as -> by lia.
      rewrite skipn_all. reflexivity.
Qed.

Lemma lanes_of_inj (a b : m256i) : lanes_of a = lanes_of b -> a = b.
Proof.
  destruct a, b. unfold lanes_of. cbn [lane0 lane1 lane2 lane3].
  intros H. injection H as -> -> -> ->. reflexivity.
Qed.

(** Fuel beyond the length of the buffer changes nothing, and the chunk
    loop stops because its test fails, not because the fuel is used up. *)
Lemma chunk_loop_fuel (bytes : list byte) (fuel : nat) (acc : m256i) :
  (List.length bytes <= fuel)%nat ->
  chunk_loop fuel bytes 0 acc = chunk_loop (List.length bytes) bytes 0 acc /\
  (List.length bytes < fst (chunk_loop fuel bytes 0 acc) + 32)%nat.
Proof.
  intros Hfuel.
  pose proof (Nat.div_mod_eq (List.length bytes) 32) as Hdm.
  pose proof (Nat.mod_upper_bound (List.length bytes) 32) as Hmod.
  destruct (chunk_loop_spec bytes (List.length bytes / 32) fuel 0%nat acc)
    as [Hi Hacc]; try lia.
  destruct (chunk_loop_spec bytes (List.length bytes / 32)
              (List.length bytes) 0%nat acc) as [Hi' Hacc']; try lia.
  split; [| rewrite Hi; lia].
  rewrite (surjective_pairing (chunk_loop fuel bytes 0 acc)).
  rewrite (surjective_pairing (chunk_loop (List.length bytes) bytes 0 acc)).
  f_equal; [congruence |].
  apply lanes_of_inj. congruence.
Qed.

(** The state after the vector phase: the index stands at the last
    chunk boundary and [hash] is the folded accumulator. *)
Lemma vector_phase_spec (bytes : list byte) :
  vector_phase bytes =
  ((32 * (List.length bytes / 32))%nat, spec_xor_fold (spec_accumulate bytes)).
Proof.
  unfold vector_phase, spec_accumulate, spec_chunks.
  pose proof (Nat.div_mod_eq (List.length bytes) 32) as Hdm.
  pose proof (Nat.mod_upper_bound (List.length bytes) 32) as Hmod.
  destruct (Nat.leb_spec 32 (List.length bytes)) as [Hle | Hlt].
  - destruct (chunk_loop_spec bytes (List.length bytes / 32)
                (List.length bytes) 0%nat _mm256_setzero_si256)
      as [Hi Hacc]; try lia.
    destruct (chunk_loop (List.length bytes) bytes 0 _mm256_setzero_si256)
      as [i acc] eqn:E.
    cbn [fst snd] in Hi, Hacc. subst i.
    f_equal.
    transitivity (spec_xor_fold (lanes_of acc)); [reflexivity |].
    f_equal. exact Hacc.
  - assert (Hz : (List.length bytes / 32 = 0)%nat) by (apply Nat.div_small; lia).
    rewrite Hz. reflexivity.
Qed.

(** The hash of the code is the reference hash. *)
Lemma checksum_hash_spec (x86_64 : bool) (bytes : list byte) :
  checksum_hash x86_64 bytes = spec_hash x86_64 bytes.
Proof.
  unfold checksum_hash, spec_hash, spec_remainder.
  destruct x86_64.
  - rewrite vector_phase_spec.
    pose proof (Nat.div_mod_eq (List.length bytes) 32) as Hdm.
    rewrite byte_loop_spec by lia. reflexivity.
  - rewrite byte_loop_spec by lia. reflexivity.
Qed.

Lemma spec_scalar_fold_range (bs : list byte) :
  forall h0 : Z, 0 <= h0 < 2 ^ 64 -> 0 <= spec_scalar_fold h0 bs < 2 ^ 64.
Proof.
  induction bs as [|b bs IH]; intros h0 Hh0; simpl.
  - exact Hh0.
  - apply IH. apply Z.mod_pos_bound. lia.
Qed.

(** ** The rendering of [%016llx] *)

Lemma digits_fixed_rev_0 (k : nat) :
  digits_fixed_rev k 0 = repeat "0"%char k.
Proof. induction k as [|k IH]; [reflexivity |]. simpl. rewrite <- IH. reflexivity. Qed.

Lemma length_digits_fixed_rev (k : nat) :
  forall v : Z, List.length (digits_fixed_rev k v) = k.
Proof. induction k as [|k IH]; intros v; simpl; [| rewrite IH]; reflexivity. Qed.

(** The digits of [%llx], padded with zeros, are the fixed-width digits. *)
Lemma hex_digits_rev_fixed (k : nat) :
  forall (fuel : nat) (v : Z),
    (k < fuel)%nat ->
    0 <= v < 16 ^ Z.of_nat (S k) ->
    (List.length (hex_digits_rev fuel v) <= S k)%nat /\
    hex_digits_rev fuel v
      ++ repeat "0"%char (S k - List.length (hex_digits_rev fuel v))
    = digits_fixed_rev (S k) v.
Proof.
  induction k as [|k IH]; intros fuel v Hfuel Hv;
    (destruct fuel as [|fuel]; [lia |]); cbn [hex_digits_rev].
  - change (16 ^ Z.of_nat 1) with 16 in Hv.
    destruct (Z.ltb_spec v 16) as [_ | Hge]; [| lia].
    cbn. rewrite Z.mod_small by lia. split; [lia | reflexivity].
  - destruct (Z.ltb_spec v 16) as [Hlt | Hge].
    + cbn [List.length app digits_fixed_rev].
      rewrite Z.mod_small by lia. rewrite Z.div_small by lia.
      rewrite digits_fixed_rev_0. split; [lia |].
      replace (S (S k) - 1)%nat with (S k) by lia. reflexivity.
    + assert (Hq : 0 <= v / 16 < 16 ^ Z.of_nat (S k)).
      { split; [apply Z.div_pos; lia |].
        apply Z.div_lt_upper_bound; [lia |].
        rewrite <- Z.pow_succ_r by lia. rewrite <- Nat2Z.inj_succ. lia. }
      destruct (IH fuel (v / 16)) as [Hlen Heq]; [lia | exact Hq |].
      cbn [List.length app]. split; [lia |].
      replace (S (S k) - S (List.length (hex_digits_rev fuel (v / 16))))%nat
        with (S k - List.length (hex_digits_rev fuel (v / 16)))%nat by lia.
      rewrite Heq. reflexivity.
Qed.

Lemma rev_repeat_char (c : ascii) (n : nat) : rev (repeat c n) = repeat c n.
Proof.
  induction n as [|n IH]; [reflexivity |].
  simpl. rewrite IH. rewrite <- repeat_cons. reflexivity.
Qed.

(** For a 64-bit value [snprintf] stores the sixteen fixed-width digits,
    most significant first; nothing is cut off. *)
Lemma snprintf_016llx_fixed (v : Z) :
  0 <= v < 2 ^ 64 ->
  snprintf_016llx 17 v = rev (digits_fixed_rev 16 v).
Proof.
  intros Hv. unfold snprintf_016llx, zero_pad, fmt_llx.
  rewrite to_uint64_small by exact Hv.
  destruct (hex_digits_rev_fixed 15 16 v) as [Hlen Heq].
  { apply Nat.lt_succ_diag_r. }
  { exact Hv. }
  rewrite <- Heq. rewrite rev_app_distr, rev_repeat_char, length_rev.
  apply firstn_all2.
  rewrite length_app, repeat_length, length_rev. lia.
Qed.

Lemma hex_digit_spec (d : Z) : 0 <= d < 16 -> hex_digit d = spec_hex_char d.
Proof.
  intros Hd.
  assert (H : d = 0 \/ d = 1 \/ d = 2 \/ d = 3 \/ d = 4 \/ d = 5 \/ d = 6
              \/ d = 7 \/ d = 8 \/ d = 9 \/ d = 10 \/ d = 11 \/ d = 12
              \/ d = 13 \/ d = 14 \/ d = 15) by lia.
  repeat (destruct H as [-> | H]; [reflexivity |]).
  subst d. reflexivity.
Qed.

Lemma hex_digit_lower (d : Z) : 0 <= d < 16 -> is_lower_hex (hex_digit d) = true.
Proof.
  intros Hd.
  assert (H : d = 0 \/ d = 1 \/ d = 2 \/ d = 3 \/ d = 4 \/ d = 5 \/ d = 6
              \/ d = 7 \/ d = 8 \/ d = 9 \/ d = 10 \/ d = 11 \/ d = 12
              \/ d = 13 \/ d = 14 \/ d = 15) by lia.
  repeat (destruct H as [-> | H]; [reflexivity |]).
  subst d. reflexivity.
Qed.

Lemma digits_fixed_rev_lower (k : nat) :
  forall v : Z, forallb is_lower_hex (digits_fixed_rev k v) = true.
Proof.
  induction k as [|k IH]; intros v; [reflexivity |].
  cbn [digits_fixed_rev forallb].
  rewrite hex_digit_lower by (apply Z.mod_pos_bound; lia).
  apply IH.
Qed.

(** The fixed-width digits are the digits the reference names by
    position. *)
Lemma digits_fixed_spec (v : Z) :
  string_of_list_ascii (rev (digits_fixed_rev 16 v)) = spec_hex16 v.
Proof.
  unfold spec_hex16. f_equal.
  cbn [digits_fixed_rev rev app seq map].
  repeat rewrite Z.div_div by lia.
  repeat (f_equal; [rewrite hex_digit_spec by (apply Z.mod_pos_bound; lia);
                    reflexivity |]).
  f_equal. rewrite hex_digit_spec by (apply Z.mod_pos_bound; lia).
  change (16 ^ (15 - Z.of_nat 15)) with 1. rewrite Z.div_1_r. reflexivity.
Qed.

(** ** The hash is a 64-bit value *)

Lemma lxor_range (a b : Z) :
  0 <= a < 2 ^ 64 -> 0 <= b < 2 ^ 64 -> 0 <= Z.lxor a b < 2 ^ 64.
Proof.
  intros Ha Hb.
  assert (Hnn : 0 <= Z.lxor a b) by (apply Z.lxor_nonneg; lia).
  split; [exact Hnn |].
  destruct (Z.eq_dec (Z.lxor a b) 0) as [-> | Hne]; [lia |].
  apply Z.log2_lt_pow2; [lia |].
  pose proof (Z.log2_lxor a b ltac:(lia) ltac:(lia)) as Hlog.
  assert (Hla : Z.log2 a < 64).
  { destruct (Z.eq_dec a 0) as [-> | Hane]; [reflexivity |].
    apply Z.log2_lt_pow2; lia. }
  assert (Hlb : Z.log2 b < 64).
  { destruct (Z.eq_dec b 0) as [-> | Hbne]; [reflexivity |].
    apply Z.log2_lt_pow2; lia. }
  lia.
Qed.

Lemma spec_accumulate_range (chunks : list (list byte)) :
  forall acc : Z * Z * Z * Z,
    lanes_in_range acc ->
    lanes_in_range (fold_left spec_add_chunk chunks acc).
Proof.
  induction chunks as [|c chunks IH]; intros acc Hacc; [exact Hacc |].
  cbn [fold_left]. apply IH.
  destruct acc as [[[a0 a1] a2] a3]. unfold spec_add_chunk, lanes_in_range.
  repeat split; apply Z.mod_pos_bound; lia.
Qed.

Lemma spec_hash_range (vector : bool) (b : list byte) :
  0 <= spec_hash vector b < 2 ^ 64.
Proof.
  unfold spec_hash. destruct vector.
  - apply spec_scalar_fold_range.
    pose proof (spec_accumulate_range (spec_chunks b) (0, 0, 0, 0)) as H.
    fold (spec_accumulate b) in H.
    destruct (spec_accumulate b) as [[[a0 a1] a2] a3].
    unfold lanes_in_range in H.
    destruct H as (H0 & H1 & H2 & H3); [lia |].
    unfold spec_xor_fold. repeat apply lxor_range; assumption.
  - apply spec_scalar_fold_range. lia.
Qed.

(** What the code renders is the reference fingerprint. *)
Lemma checksum_hex_spec (x86_64 : bool) (bytes : list byte) :
  checksum_hex x86_64 bytes = spec_fingerprint x86_64 bytes.
Proof.
  unfold checksum_hex, spec_fingerprint.
  rewrite checksum_hash_spec.
  rewrite snprintf_016llx_fixed by apply spec_hash_range.
  rewrite firstn_all2
    by (rewrite length_rev, length_digits_fixed_rev; apply Nat.le_refl).
  apply digits_fixed_spec.
Qed.

Lemma checksum_hex_length (x86_64 : bool) (bytes : list byte) :
  String.length (checksum_hex x86_64 bytes) = 16%nat.
Proof.
  unfold checksum_hex.
  rewrite snprintf_016llx_fixed
    by (rewrite checksum_hash_spec; apply spec_hash_range).
  rewrite firstn_all2
    by (rewrite length_rev, length_digits_fixed_rev; apply Nat.le_refl).
  generalize (checksum_hash x86_64 bytes). intros v. reflexivity.
Qed.

Lemma forallb_rev_true {A : Type} (p : A -> bool) (l : list A) :
  forallb p l = true -> forallb p (rev l) = true.
Proof.
  rewrite !forallb_forall. intros H x Hx. apply H. apply in_rev. exact Hx.
Qed.

Lemma checksum_hex_lower (x86_64 : bool) (bytes : list byte) :
  forallb is_lower_hex (list_ascii_of_string (checksum_hex x86_64 bytes)) = true.
Proof.
  unfold checksum_hex.
  rewrite snprintf_016llx_fixed
    by (rewrite checksum_hash_spec; apply spec_hash_range).
  rewrite firstn_all2
    by (rewrite length_rev, length_digits_fixed_rev; apply Nat.le_refl).
  rewrite list_ascii_of_string_of_list_ascii.
  apply forallb_rev_true. apply digits_fixed_rev_lower.
Qed.

(** The entry point hands [checksum_hex] to the string constructor. *)
Lemma SimdChecksum_run (h : Host) (bytes : list byte) (w : World) :
  napi_next_ok w ->
  fst (SimdChecksum h bytes w) =
  Returned (JsString (checksum_hex (host_x86_64 h) bytes)).
Proof.
  intros Hok. unfold SimdChecksum, napi_create_string_utf8, NAPI_CALL, checksum_hex.
  unfold napi_next_ok in Hok.
  destruct (napi_pending w) as [|[msg|] rest]; simpl in Hok;
    try discriminate; reflexivity.
Qed.

(** Below one chunk the vector phase does nothing. *)
Lemma vector_phase_short (bytes : list byte) :
  (List.length bytes < 32)%nat -> vector_phase bytes = (0%nat, 0).
Proof.
  intros Hlen. unfold vector_phase.
  destruct (Nat.leb_spec 32 (List.length bytes)) as [Hle | _]; [lia | reflexivity].
Qed.

(** ** Fingerprint theorems *)

(** C4. For every buffer the fingerprint returned by [SimdChecksum] is
    the hexadecimal rendering of the reference hash of the
    specification: with vector support the full 32-byte chunks are added
    lane by lane into a zeroed accumulator, the lanes are folded by
    exclusive-or and the remaining bytes are folded by
    [hash * 31 + byte]; without it every byte is folded from zero. The
    rendering has exactly sixteen lowercase hexadecimal characters, and
    the empty buffer gives sixteen zeros. The N-API string constructor
    is supposed to report [napi_ok]. *)
Theorem SimdChecksum_reference (h : Host) (bytes : list byte) (w : World) :
  napi_next_ok w ->
  fst (SimdChecksum h bytes w) =
    Returned (JsString (spec_fingerprint (host_x86_64 h) bytes)) /\
  String.length (spec_fingerprint (host_x86_64 h) bytes) = 16%nat /\
  forallb is_lower_hex
    (list_ascii_of_string (spec_fingerprint (host_x86_64 h) bytes)) = true /\
  spec_fingerprint (host_x86_64 h) [] = "0000000000000000"%string.
Proof.
  intros Hok.
  rewrite <- !checksum_hex_spec.
  split; [apply SimdChecksum_run; exact Hok |].
  split; [apply checksum_hex_length |].
  split; [apply checksum_hex_lower |].
  destruct (host_x86_64 h); reflexivity.
Qed.

(** C5, as amended. For buffers shorter than one 32-byte chunk the
    fingerprint does not depend on vector support: both builds fold
    every byte from zero. *)
Theorem SimdChecksum_short_portable (h1 h2 : Host) (bytes : list byte) (w : World) :
  (List.length bytes < 32)%nat ->
  SimdChecksum h1 bytes w = SimdChecksum h2 bytes w.
Proof.
  intros Hlen.
  assert (Hhash : forall x y, checksum_hash x bytes = checksum_hash y bytes).
  { assert (Hv : checksum_hash true bytes = checksum_hash false bytes).
    { unfold checksum_hash. rewrite vector_phase_short by exact Hlen.
      reflexivity. }
    intros [|] [|]; congruence. }
  unfold SimdChecksum.
  rewrite (Hhash (host_x86_64 h1) (host_x86_64 h2)). reflexivity.
Qed.

(** C10. On a build with vector support each lane loaded from the
    buffer is the little-endian value of its eight bytes; hence for a
    buffer of exactly 32 bytes the accumulator holds the four
    little-endian words, the vector phase ends at index 32 with their
    exclusive-or, the byte loop runs zero times, and the fingerprint is
    the rendering of that exclusive-or. *)
Theorem checksum_one_chunk (bytes : list byte) :
  List.length bytes = 32%nat ->
  let word j := spec_le_word (firstn 8 (skipn (8 * j) bytes)) in
  let folded := Z.lxor (Z.lxor (Z.lxor (word 0%nat) (word 1%nat)) (word 2%nat))
                      (word 3%nat) in
  lanes_of (_mm256_loadu_si256 bytes 0)
    = (word 0%nat, word 1%nat, word 2%nat, word 3%nat) /\
  lanes_of (snd (chunk_loop 32 bytes 0 _mm256_setzero_si256))
    = (word 0%nat, word 1%nat, word 2%nat, word 3%nat) /\
  vector_phase bytes = (32%nat, folded) /\
  remainder_iterations bytes = 0%nat /\
  checksum_hash true bytes = folded /\
  checksum_hex true bytes = spec_hex16 folded.
Proof.
  intros Hlen word folded.
  assert (Hload : lanes_of (_mm256_loadu_si256 bytes 0)
                  = (word 0%nat, word 1%nat, word 2%nat, word 3%nat)).
  { unfold lanes_of, _mm256_loadu_si256. cbn [lane0 lane1 lane2 lane3].
    rewrite (load_u64_le bytes 0), (load_u64_le bytes (0 + 8)),
      (load_u64_le bytes (0 + 16)), (load_u64_le bytes (0 + 24)) by lia.
    reflexivity. }
  assert (Hword : forall j, (j < 4)%nat -> 0 <= word j < 2 ^ 64).
  { intros j Hj. unfold word.
    rewrite <- (load_u64_le bytes (8 * j)) by lia. apply load_u64_range. lia. }
  assert (Hacc : lanes_of (snd (chunk_loop 32 bytes 0 _mm256_setzero_si256))
                 = (word 0%nat, word 1%nat, word 2%nat, word 3%nat)).
  { cbn [chunk_loop]. rewrite Hlen. cbn [Nat.add Nat.leb snd].
    unfold lanes_of in *.
    cbn [_mm256_add_epi64 _mm256_loadu_si256 lane0 lane1 lane2 lane3
         _mm256_setzero_si256 Nat.add] in Hload |- *.
    injection Hload as H0 H1 H2 H3.
    unfold uint64_add. rewrite !Z.add_0_l.
    rewrite H0, H1, H2, H3.
    rewrite !to_uint64_small by (apply Hword; lia). reflexivity. }
  assert (Hphase : vector_phase bytes = (32%nat, folded)).
  { unfold vector_phase. rewrite Hlen. cbn [Nat.leb].
    destruct (chunk_loop 32 bytes 0 _mm256_setzero_si256) as [i acc] eqn:E.
    assert (Hi : i = 32%nat).
    { destruct (chunk_loop_spec bytes 1 32 0%nat _mm256_setzero_si256)
        as [Hfst _]; try lia.
      rewrite E in Hfst. exact Hfst. }
    cbn [snd] in Hacc. unfold lanes_of in Hacc.
    injection Hacc as H0 H1 H2 H3.
    rewrite Hi, H0, H1, H2, H3. reflexivity. }
  assert (Hhash : checksum_hash true bytes = folded).
  { unfold checksum_hash. rewrite Hphase.
    rewrite byte_loop_spec by lia.
    rewrite Hlen. cbn [snd]. rewrite <- Hlen at 1. rewrite skipn_all.
    reflexivity. }
  repeat split; try assumption.
  - unfold remainder_iterations. rewrite Hphase.
    rewrite byte_loop_spec by lia. cbn [fst]. lia.
  - rewrite checksum_hex_spec. unfold spec_fingerprint.
    rewrite <- checksum_hash_spec, Hhash. reflexivity.
Qed.

(** ** Runs of the entry points *)

Lemma new_events_app (w w' : World) (evs : list Event) :
  trace w' = trace w ++ evs -> new_events w w' = evs.
Proof.
  intros H. unfold new_events. rewrite H.
  rewrite skipn_app, skipn_all, Nat.sub_diag. reflexivity.
Qed.

(** [open] hands out a descriptor exactly when the file exists and the
    host grants it. *)
Lemma sys_open_fd (h : Host) (path : string) (w : World) :
  0 <= fst (sys_open h path w) ->
  fst (sys_open h path w) = host_open h path /\
  0 <= host_open h path /\
  is_Some (fs w !! path).
Proof.
  unfold sys_open. cbn [fst].
  destruct (fs w !! path) as [f|]; [| lia].
  destruct (Z.ltb_spec (host_open h path) 0) as [Hlt | Hge]; [lia |].
  intros _. repeat split; [exact Hge | eexists; reflexivity].
Qed.

Lemma NAPI_CALL_run {A : Type} (v : A) (w : World) :
  trace (snd (NAPI_CALL v w)) = trace w /\
  maps (snd (NAPI_CALL v w)) = maps w /\
  heap (snd (NAPI_CALL v w)) = heap w /\
  fds (snd (NAPI_CALL v w)) = fds w /\
  fs (snd (NAPI_CALL v w)) = fs w /\
  (napi_next_ok w -> fst (NAPI_CALL v w) = Returned v) /\
  (forall v', fst (NAPI_CALL v w) = Returned v' -> v' = v).
Proof.
  unfold napi_next_ok, NAPI_CALL.
  destruct (napi_pending w) as [|[msg|] rest]; cbn;
    repeat split; try discriminate; congruence.
Qed.

Ltac wsimpl :=
  cbn [trace maps heap fds fs napi_pending next_ptr mapping_objects
       log set_fds set_maps set_heap set_mapping_objects set_napi_pending
       fst snd sys_close sys_CloseHandle sys_malloc store_info sys_free
       GetAllocationGranularity] in *.

Lemma bind_lift {A B : Type} (c : World -> A * World) (k : A -> M B) (w : World) :
  bind (lift c) k w = k (fst (c w)) (snd (c w)).
Proof. unfold bind, lift. destruct (c w). reflexivity. Qed.

Lemma sys_open_ok (h : Host) (path : string) (w : World) :
  0 <= fst (sys_open h path w) ->
  sys_open h path w =
  (host_open h path,
   log (EvOpen path (host_open h path))
       (set_fds (<[host_open h path := path]> (fds w)) w)).
Proof.
  unfold sys_open. cbn [fst].
  destruct (fs w !! path) as [f|]; [| lia].
  destruct (Z.ltb_spec (host_open h path) 0) as [Hlt | Hge]; [lia |].
  intros _. destruct (Z.ltb_spec (host_open h path) 0); [lia | reflexivity].
Qed.

Lemma sys_open_failed (h : Host) (path : string) (w : World) :
  fst (sys_open h path w) < 0 ->
  sys_open h path w = (-1, log (EvOpen path (-1)) w).
Proof.
  unfold sys_open. cbn [fst].
  destruct (fs w !! path) as [f|]; [| reflexivity].
  destruct (Z.ltb_spec (host_open h path) 0) as [Hlt | Hge]; [reflexivity |].
  lia.
Qed.

(** [mmap] either fails and changes nothing, or the host has placed the
    region and the address space has one more mapping. *)
Lemma sys_mmap_cases (h : Host) (len fd off : Z) (w : World) :
  sys_mmap h len fd off w = (None, log (EvMmap len fd off None) w) \/
  exists a path,
    fds w !! fd = Some path /\
    host_place h len off path = Some a /\
    sys_mmap h len fd off w =
    (Some a, log (EvMmap len fd off (Some a))
                 (set_maps (Build_Mapping a len path off :: maps w) w)).
Proof.
  unfold sys_mmap.
  destruct (fds w !! fd) as [path|] eqn:Hfd; [| left; reflexivity].
  destruct ((len =? 0) || (off <? 0)
            || negb (off mod to_uint64 (host_granularity h) =? 0));
    [left; reflexivity |].
  destruct (host_place h len off path) as [a|] eqn:Hplace;
    [| left; reflexivity].
  right. exists a, path. repeat split; assumption || reflexivity.
Qed.

Lemma sys_CreateFileMapping_cases (h : Host) (file_handle : Z) (w : World) :
  sys_CreateFileMapping h file_handle w =
    (None, log (EvCreateFileMapping file_handle None) w) \/
  exists mh path,
    fds w !! file_handle = Some path /\
    host_create_mapping h path = Some mh /\
    sys_CreateFileMapping h file_handle w =
    (Some mh, log (EvCreateFileMapping file_handle (Some mh))
                  (set_mapping_objects (<[mh := path]> (mapping_objects w)) w)).
Proof.
  unfold sys_CreateFileMapping.
  destruct (fds w !! file_handle) as [path|] eqn:Hfd; [| left; reflexivity].
  destruct (host_create_mapping h path) as [mh|] eqn:Hmh;
    [| left; reflexivity].
  right. exists mh, path. repeat split; assumption || reflexivity.
Qed.

Lemma sys_MapViewOfFile_cases (h : Host) (mh off_high off_low len : Z) (w : World) :
  sys_MapViewOfFile h mh off_high off_low len w =
    (None, log (EvMapViewOfFile mh off_high off_low len None) w) \/
  exists a path,
    mapping_objects w !! mh = Some path /\
    host_place h len (off_high * 2 ^ 32 + off_low) path = Some a /\
    sys_MapViewOfFile h mh off_high off_low len w =
    (Some a, log (EvMapViewOfFile mh off_high off_low len (Some a))
                 (set_maps (Build_Mapping a len path (off_high * 2 ^ 32 + off_low)
                            :: maps w) w)).
Proof.
  unfold sys_MapViewOfFile.
  destruct (mapping_objects w !! mh) as [path|] eqn:Hmh; [| left; reflexivity].
  destruct (negb ((off_high * 2 ^ 32 + off_low)
                  mod to_uint64 (host_granularity h) =? 0));
    [left; reflexivity |].
  destruct (host_place h len (off_high * 2 ^ 32 + off_low) path) as [a|] eqn:Hplace;
    [| left; reflexivity].
  right. exists a, path. repeat split; assumption || reflexivity.
Qed.

Lemma bind_unfold {A B : Type} (c : M A) (k : A -> M B) (w : World) :
  bind c k w = match c w with
               | (Returned a, w') => k a w'
               | (Thrown msg, w') => (Thrown msg, w')
               end.
Proof. reflexivity. Qed.

Lemma request_is_other (off len : Z) (e : Event) :
  mapping_request e = None -> request_is off len e.
Proof. intros H o l Ho. rewrite H in Ho. discriminate. Qed.

(** The mapping step of the POSIX branch. *)
Lemma map_posix_run (h : Host) (fd ao ml : Z) (w : World) (path : string) :
  host_win32 h = false ->
  fds w !! fd = Some path ->
  exists evs w1,
    map_posix h fd ao ml w = (Returned (mapping_granted h path ao ml), w1) /\
    fds w1 = fds w /\
    Forall (request_is (requested_offset h ao) ml) evs /\
    match mapping_granted h path ao ml with
    | Some a =>
        existsb mapping_call_failed evs = false /\
        os_effect w w1 evs [Build_Mapping a ml path (requested_offset h ao)]
    | None =>
        existsb mapping_call_failed evs = true /\ os_effect w w1 evs []
    end.
Proof.
  intros Hwin Hfd.
  unfold map_posix, lift, sys_mmap, mapping_granted, requested_offset.
  rewrite Hwin, Hfd.
  assert (Hreq : forall r, Forall (request_is ao ml) [EvMmap ml fd ao r]).
  { intros r. constructor; [| constructor].
    intros o l Hol. cbn in Hol. injection Hol as <- <-. split; reflexivity. }
  destruct ((ml =? 0) || (ao <? 0)
            || negb (ao mod to_uint64 (host_granularity h) =? 0)).
  - exists [EvMmap ml fd ao None]. eexists. split; [reflexivity |].
    wsimpl. repeat split; auto.
  - destruct (host_place h ml ao path) as [a|]; cbn [option_map].
    + exists [EvMmap ml fd ao (Some a)]. eexists. split; [reflexivity |].
      wsimpl. repeat split; auto.
    + exists [EvMmap ml fd ao None]. eexists. split; [reflexivity |].
      wsimpl. repeat split; auto.
Qed.

(** The mapping step of the Windows branch: it throws, after closing
    the descriptor, when no mapping object can be had. *)
Lemma map_win32_run (h : Host) (fd ao ml : Z) (w : World) (path : string) :
  host_win32 h = true ->
  fds w !! fd = Some path ->
  exists evs w1,
    Forall (request_is (requested_offset h ao) ml) evs /\
    match host_create_mapping h path with
    | None =>
        map_win32 h fd ao ml w = (Thrown "Failed to create file mapping", w1) /\
        mapping_granted h path ao ml = None /\
        existsb mapping_call_failed evs = true /\
        fds w1 = delete fd (fds w) /\
        os_effect w w1 (evs ++ [EvClose fd]) []
    | Some _ =>
        map_win32 h fd ao ml w = (Returned (mapping_granted h path ao ml), w1) /\
        fds w1 = fds w /\
        match mapping_granted h path ao ml with
        | Some a =>
            existsb mapping_call_failed evs = false /\
            os_effect w w1 evs [Build_Mapping a ml path (requested_offset h ao)]
        | None =>
            existsb mapping_call_failed evs = true /\ os_effect w w1 evs []
        end
    end.
Proof.
  intros Hwin Hfd.
  unfold map_win32, mapping_granted, requested_offset. rewrite Hwin.
  rewrite bind_lift. unfold sys_get_osfhandle. rewrite Hfd. wsimpl.
  rewrite bind_lift. unfold sys_CreateFileMapping. wsimpl. rewrite Hfd.
  destruct (host_create_mapping h path) as [mh|]; cbn [option_map fst snd].
  - rewrite bind_lift. unfold sys_MapViewOfFile. wsimpl.
    rewrite lookup_insert_eq.
    set (hi := Z.shiftr ao 32 mod 2 ^ 32).
    set (lo := Z.land ao 4294967295 mod 2 ^ 32).
    change (win32_offset ao) with (hi * 2 ^ 32 + lo).
    assert (Hreq : forall r e1 e2,
               mapping_request e1 = None -> mapping_request e2 = None ->
               Forall (request_is (hi * 2 ^ 32 + lo) ml)
                      [EvGetOsfHandle fd (Some fd); e1;
                       EvMapViewOfFile mh hi lo ml r; e2]).
    { intros r e1 e2 H1 H2.
      constructor; [apply request_is_other; reflexivity |].
      constructor; [apply request_is_other; exact H1 |].
      constructor; [| constructor; [apply request_is_other; exact H2 | constructor]].
      intros o l Hol. cbn in Hol. injection Hol as <- <-. split; reflexivity. }
    destruct (negb ((hi * 2 ^ 32 + lo) mod to_uint64 (host_granularity h) =? 0)).
    + exists [EvGetOsfHandle fd (Some fd); EvCreateFileMapping fd (Some mh);
              EvMapViewOfFile mh hi lo ml None; EvCloseHandle mh].
      eexists. split; [apply Hreq; reflexivity |].
      cbn [fst snd]. rewrite bind_lift. wsimpl.
      split; [reflexivity |]. unfold os_effect. wsimpl.
      rewrite <- !app_assoc. repeat split; auto.
    + destruct (host_place h ml (hi * 2 ^ 32 + lo) path) as [a|];
        cbn [option_map fst snd].
      * exists [EvGetOsfHandle fd (Some fd); EvCreateFileMapping fd (Some mh);
                EvMapViewOfFile mh hi lo ml (Some a); EvCloseHandle mh].
        eexists. split; [apply Hreq; reflexivity |].
        rewrite bind_lift. wsimpl.
        split; [reflexivity |]. unfold os_effect. wsimpl.
        rewrite <- !app_assoc. repeat split; auto.
      * exists [EvGetOsfHandle fd (Some fd); EvCreateFileMapping fd (Some mh);
                EvMapViewOfFile mh hi lo ml None; EvCloseHandle mh].
        eexists. split; [apply Hreq; reflexivity |].
        rewrite bind_lift. wsimpl.
        split; [reflexivity |]. unfold os_effect. wsimpl.
        rewrite <- !app_assoc. repeat split; auto.
  - exists [EvGetOsfHandle fd (Some fd); EvCreateFileMapping fd None].
    eexists. split.
    { constructor; [apply request_is_other; reflexivity |].
      constructor; [apply request_is_other; reflexivity | constructor]. }
    rewrite bind_lift. wsimpl. unfold napi_throw_error.
    split; [reflexivity |]. unfold os_effect. wsimpl.
    rewrite <- !app_assoc. repeat split; auto.
Qed.

(** The region itself does not survive its unmapping. *)
Lemma region_unmapped (h : Host) (a len : Z) (path : string) (off : Z) :
  survives_unmap h a len (Build_Mapping a len path off) = false.
Proof.
  unfold survives_unmap. cbn [m_addr m_len].
  rewrite Z.eqb_refl, !Z.leb_refl. destruct (host_win32 h); reflexivity.
Qed.

(** Lines 193-201, once the region is mapped at [a]: the record is
    allocated and filled, and either the runtime makes the external
    buffer, or it refuses and has run the finalizer, which unmaps the
    region and frees the record. *)
Lemma create_view_run (h : Host) (a ml data len : Z) (w0 : World) :
  let hint := Z.pos (next_ptr w0) in
  let view := JsExternalBuffer data len UnmapCallback_fn hint in
  let run :=
    bind (lift sys_malloc) (fun map_info =>
    bind (lift (store_info map_info (Build_MmapInfo a ml))) (fun _ =>
    napi_create_external_buffer h len data UnmapCallback_fn map_info)) w0 in
  fs (snd run) = fs w0 /\
  fds (snd run) = fds w0 /\
  (napi_next_ok w0 -> fst run = Returned view) /\
  ((fst run = Returned view /\
    trace (snd run) = trace w0 ++ [EvMalloc hint] /\
    maps (snd run) = maps w0 /\
    heap (snd run) = <[hint := Build_MmapInfo a ml]> (heap w0))
   \/
   (exists msg : string,
      fst run = Thrown msg /\
      hd None (napi_pending w0) = Some msg /\
      trace (snd run)
      = trace w0 ++ [EvMalloc hint; unmap_event h a ml; EvFree hint] /\
      maps (snd run) = List.filter (survives_unmap h a ml) (maps w0) /\
      heap (snd run) = delete hint (heap w0))).
Proof.
  cbv zeta. rewrite !bind_lift.
  unfold napi_create_external_buffer, NAPI_CALL, call_finalizer, UnmapCallback,
    napi_next_ok, unmap_event, survives_unmap.
  wsimpl. cbn [Z.eqb].
  destruct (napi_pending w0) as [|[msg|] rest]; wsimpl.
  - repeat split; try reflexivity. left. repeat split; reflexivity.
  - rewrite lookup_insert_eq. cbn [mapped_addr mapped_len].
    split; [destruct (host_win32 h); reflexivity |].
    split; [destruct (host_win32 h); reflexivity |].
    split; [intros Hc; discriminate Hc |].
    right. exists msg. split; [destruct (host_win32 h); reflexivity |].
    split; [reflexivity |].
    destruct (host_win32 h); unfold sys_UnmapViewOfFile, sys_munmap; wsimpl;
      rewrite delete_insert_eq, <- !app_assoc; repeat split; reflexivity.
  - repeat split; try reflexivity. left. repeat split; reflexivity.
Qed.

(** Lines 182-201 after a successful mapping step that led from [w]
    to [w3]: the descriptor is closed, then [create_view_run]. *)
Lemma FastReadFile_mapped_tail (h : Host) (w w3 : World) (path : string)
    (fd a ml data len off : Z) (evs : list Event) :
  trace w3 = trace w ++ EvOpen path fd :: EvQueryGranularity :: evs ->
  maps w3 = Build_Mapping a ml path off :: maps w ->
  heap w3 = heap w ->
  next_ptr w3 = next_ptr w ->
  napi_pending w3 = napi_pending w ->
  fs w3 = fs w ->
  let hint := Z.pos (next_ptr w) in
  let view := JsExternalBuffer data len UnmapCallback_fn hint in
  let run :=
    bind (lift (sys_close fd)) (fun _ =>
    bind (lift sys_malloc) (fun map_info =>
    bind (lift (store_info map_info (Build_MmapInfo a ml))) (fun _ =>
    napi_create_external_buffer h len data UnmapCallback_fn map_info))) w3 in
  fs (snd run) = fs w /\
  fds (snd run) !! fd = None /\
  (napi_next_ok w -> fst run = Returned view) /\
  ((fst run = Returned view /\
    new_events w (snd run) = EvOpen path fd :: EvQueryGranularity
                               :: evs ++ [EvClose fd; EvMalloc hint] /\
    maps (snd run) = Build_Mapping a ml path off :: maps w /\
    heap (snd run) = <[hint := Build_MmapInfo a ml]> (heap w))
   \/
   (exists msg : string,
      fst run = Thrown msg /\
      hd None (napi_pending w) = Some msg /\
      new_events w (snd run) = EvOpen path fd :: EvQueryGranularity
                                 :: evs ++ [EvClose fd; EvMalloc hint;
                                            unmap_event h a ml; EvFree hint] /\
      maps (snd run) = List.filter (survives_unmap h a ml) (maps w) /\
      heap (snd run) = delete hint (heap w))).
Proof.
  intros Ht Hm Hh Hn Hp Hs. cbv zeta. rewrite bind_lift. cbv beta.
  pose proof (create_view_run h a ml data len (snd (sys_close fd w3))) as C.
  cbv zeta in C.
  match type of C with
  | fs (snd ?run) = _ /\ _ => set (run0 := run) in *
  end.
  assert (E : next_ptr (snd (sys_close fd w3)) = next_ptr w) by exact Hn.
  rewrite E in C. clear E.
  assert (E : napi_next_ok (snd (sys_close fd w3)) = napi_next_ok w)
    by (unfold napi_next_ok; cbn [sys_close snd log set_fds napi_pending];
        rewrite Hp; reflexivity).
  rewrite E in C. clear E.
  assert (E : napi_pending (snd (sys_close fd w3)) = napi_pending w) by exact Hp.
  rewrite E in C. clear E.
  assert (E : fs (snd (sys_close fd w3)) = fs w) by exact Hs.
  rewrite E in C. clear E.
  assert (E : heap (snd (sys_close fd w3)) = heap w) by exact Hh.
  rewrite E in C. clear E.
  assert (E : fds (snd (sys_close fd w3)) = delete fd (fds w3)) by reflexivity.
  rewrite E in C. clear E.
  assert (E : maps (snd (sys_close fd w3)) = Build_Mapping a ml path off :: maps w)
    by exact Hm.
  rewrite E in C. clear E.
  assert (E : trace (snd (sys_close fd w3))
              = trace w ++ EvOpen path fd :: EvQueryGranularity
                  :: evs ++ [EvClose fd]).
  { cbn [sys_close snd log set_fds trace]. rewrite Ht.
    rewrite <- app_assoc. reflexivity. }
  rewrite E in C. clear E.
  destruct C as (Cfs & Cfds & Cok & Ccases).
  split; [exact Cfs |].
  split; [rewrite Cfds; apply lookup_delete_eq |].
  split; [exact Cok |].
  destruct Ccases as [(Cr & Ctr & Cmaps & Cheap)
                     | (msg & Cr & Cpend & Ctr & Cmaps & Cheap)].
  - left. split; [exact Cr |].
    split; [| split; assumption].
    apply new_events_app. rewrite Ctr.
    repeat first [rewrite <- app_assoc | progress cbn [app]]. reflexivity.
  - right. exists msg. split; [exact Cr |]. split; [exact Cpend |].
    split; [| split; [| exact Cheap]].
    + apply new_events_app. rewrite Ctr.
      repeat first [rewrite <- app_assoc | progress cbn [app]]. reflexivity.
    + rewrite Cmaps. cbn [List.filter]. rewrite region_unmapped. reflexivity.
Qed.

(** Every run of [FastReadFile]: the open fails; or the length is zero;
    or the mapping fails; or the region is mapped, and then the view is
    returned or the runtime refuses it and releases the region. *)
Lemma FastReadFile_runs (h : Host) (w : World) (path : string) (offset length : Z) :
  let fd := fst (sys_open h path w) in
  let g := to_uint64 (host_granularity h) in
  let ao := aligned_offset_of g offset in
  let pad := padding_of g offset in
  let ml := map_length_of g offset length in
  let r := fst (FastReadFile h path offset length w) in
  let w' := snd (FastReadFile h path offset length w) in
  (fd < 0 /\
   r = Thrown "Failed to open file" /\
   new_events w w' = [EvOpen path fd] /\
   maps w' = maps w /\ heap w' = heap w)
  \/
  (0 <= fd /\ length = 0 /\
   new_events w w' = [EvOpen path fd; EvClose fd] /\
   maps w' = maps w /\ heap w' = heap w /\ fds w' !! fd = None /\
   (napi_next_ok w -> r = Returned (JsBuffer 0)) /\
   (forall v, r = Returned v -> v = JsBuffer 0))
  \/
  (0 <= fd /\ length <> 0 /\
   mapping_granted h path ao ml = None /\
   exists msg evs,
     r = Thrown msg /\
     error_kind msg = Some MappingError /\
     new_events w w' = EvOpen path fd :: EvQueryGranularity :: evs ++ [EvClose fd] /\
     existsb mapping_call_failed evs = true /\
     Forall (request_is (requested_offset h ao) ml) evs /\
     maps w' = maps w /\ heap w' = heap w /\ fds w' !! fd = None)
  \/
  (0 <= fd /\ length <> 0 /\
   exists a evs,
     let hint := Z.pos (next_ptr w) in
     let view := JsExternalBuffer (a + pad) (to_uint64 length)
                                  UnmapCallback_fn hint in
     mapping_granted h path ao ml = Some a /\
     existsb mapping_call_failed evs = false /\
     Forall (request_is (requested_offset h ao) ml) evs /\
     fs w' = fs w /\
     fds w' !! fd = None /\
     (napi_next_ok w -> r = Returned view) /\
     ((r = Returned view /\
       new_events w w' = EvOpen path fd :: EvQueryGranularity
                           :: evs ++ [EvClose fd; EvMalloc hint] /\
       maps w' = Build_Mapping a ml path (requested_offset h ao) :: maps w /\
       heap w' = <[hint := Build_MmapInfo a ml]> (heap w))
      \/
      (exists msg : string,
         r = Thrown msg /\
         hd None (napi_pending w) = Some msg /\
         new_events w w' = EvOpen path fd :: EvQueryGranularity
                             :: evs ++ [EvClose fd; EvMalloc hint;
                                        unmap_event h a ml; EvFree hint] /\
         maps w' = List.filter (survives_unmap h a ml) (maps w) /\
         heap w' = delete hint (heap w)))).
Proof.
  intros fd g ao pad ml r w'.
  destruct (Z.ltb_spec fd 0) as [Hneg | Hpos].
  - left. subst r w'. unfold FastReadFile. rewrite bind_lift.
    fold fd. destruct (Z.ltb_spec fd 0) as [_ | Hge]; [| lia].
    unfold napi_throw_error. cbn [fst snd].
    subst fd. rewrite sys_open_failed in * by exact Hneg. cbn [fst snd].
    repeat split; try reflexivity; try lia.
    apply new_events_app. reflexivity.
  - right.
    assert (Hfd : fd = host_open h path)
      by (subst fd; rewrite sys_open_ok by exact Hpos; reflexivity).
    assert (E : FastReadFile h path offset length w =
                (if length =? 0
                 then bind (lift (sys_close fd)) (fun _ => napi_create_buffer 0)
                 else
                   bind (lift (GetAllocationGranularity h)) (fun granularity =>
                   let aligned_offset := aligned_offset_of granularity offset in
                   let padding := padding_of granularity offset in
                   let map_length := map_length_of granularity offset length in
                   bind (if host_win32 h
                         then map_win32 h fd aligned_offset map_length
                         else map_posix h fd aligned_offset map_length)
                     (fun mapped_addr =>
                   bind (lift (sys_close fd)) (fun _ =>
                   match mapped_addr with
                   | None => napi_throw_error "Failed to map file"
                   | Some mapped_addr =>
                       bind (lift sys_malloc) (fun map_info =>
                       bind (lift (store_info map_info
                                     (Build_MmapInfo mapped_addr map_length)))
                         (fun _ =>
                       napi_create_external_buffer h (to_uint64 length)
                         (mapped_addr + padding) UnmapCallback_fn map_info))
                   end))))
                  (snd (sys_open h path w))).
    { unfold FastReadFile. rewrite bind_lift. fold fd.
      destruct (Z.ltb_spec fd 0) as [Hlt | _]; [lia | reflexivity]. }
    subst r w'. rewrite E. clear E.
    rewrite sys_open_ok by exact Hpos. cbn [snd]. rewrite <- Hfd.
    set (w1 := log (EvOpen path fd) (set_fds (<[fd := path]> (fds w)) w)).
    destruct (Z.eqb_spec length 0) as [Hz | Hnz].
    + left. rewrite bind_lift. unfold napi_create_buffer.
      destruct (NAPI_CALL_run (JsBuffer 0) (snd (sys_close fd w1)))
        as (Ht & Hm & Hh & Hf & _ & Hok & Hinv).
      rewrite Hm, Hh, Hf. subst w1. wsimpl.
      repeat split; try assumption; try reflexivity.
      * apply new_events_app. wsimpl. rewrite Ht. wsimpl.
        rewrite <- app_assoc. reflexivity.
      * apply lookup_delete_eq.
    + right. rewrite bind_lift. cbn [GetAllocationGranularity fst snd].
      fold g. cbv zeta. fold ao. fold pad. fold ml.
      set (w2 := log EvQueryGranularity w1).
      assert (Hfd2 : fds w2 !! fd = Some path).
      { subst w2 w1. wsimpl. apply lookup_insert_eq. }
      rewrite bind_unfold.
      destruct (host_win32 h) eqn:Hwin.
      * destruct (map_win32_run h fd ao ml w2 path Hwin Hfd2)
          as (evs & w3 & Hreq & Hrun).
        destruct (host_create_mapping h path) as [mh|] eqn:Hmh.
        -- destruct Hrun as (Hrun & Hfds & Hgr). rewrite Hrun.
           rewrite bind_lift.
           destruct (mapping_granted h path ao ml) as [a|] eqn:Hg.
           ++ right. split; [exact Hpos |]. split; [exact Hnz |].
              exists a, evs. cbv zeta.
              destruct Hgr as (Hnf & Ht & Hm & Hh & Hn & Hp & Hs).
              split; [reflexivity |]. split; [exact Hnf |].
              split; [exact Hreq |].
              apply (FastReadFile_mapped_tail h w w3 path fd a ml (a + pad)
                       (to_uint64 length) (requested_offset h ao) evs).
              ** rewrite Ht. subst w2 w1. wsimpl.
                 repeat first [rewrite <- app_assoc | progress cbn [app]].
                 reflexivity.
              ** rewrite Hm. reflexivity.
              ** rewrite Hh. reflexivity.
              ** rewrite Hn. reflexivity.
              ** rewrite Hp. reflexivity.
              ** rewrite Hs. reflexivity.
           ++ left. split; [exact Hpos |]. split; [exact Hnz |].
              split; [reflexivity |].
              exists "Failed to map file"%string, evs.
              destruct Hgr as (Hnf & Ht & Hm & Hh & Hn & Hp & Hs).
              unfold napi_throw_error. wsimpl.
              rewrite Hm, Hh, Hfds. subst w2 w1. wsimpl.
              repeat split; try assumption; try reflexivity.
              ** apply new_events_app. wsimpl. rewrite Ht. wsimpl.
                 rewrite <- !app_assoc. reflexivity.
              ** apply lookup_delete_eq.
        -- destruct Hrun as (Hrun & Hg & Hnf & Hfds & Ht & Hm & Hh & Hn & Hp & Hs).
           rewrite Hrun. left.
           split; [exact Hpos |]. split; [exact Hnz |]. split; [exact Hg |].
           exists "Failed to create file mapping"%string, evs.
           cbn [fst snd]. rewrite Hm, Hh, Hfds. subst w2 w1. wsimpl.
           repeat split; try assumption; try reflexivity.
           ++ apply new_events_app. wsimpl. rewrite Ht. wsimpl.
              rewrite <- !app_assoc. reflexivity.
           ++ apply lookup_delete_eq.
      * destruct (map_posix_run h fd ao ml w2 path Hwin Hfd2)
          as (evs & w3 & Hrun & Hfds & Hreq & Hgr).
        rewrite Hrun. rewrite bind_lift.
        destruct (mapping_granted h path ao ml) as [a|] eqn:Hg.
        -- right. split; [exact Hpos |]. split; [exact Hnz |].
           exists a, evs. cbv zeta.
           destruct Hgr as (Hnf & Ht & Hm & Hh & Hn & Hp & Hs).
           split; [reflexivity |]. split; [exact Hnf |].
           split; [exact Hreq |].
           apply (FastReadFile_mapped_tail h w w3 path fd a ml (a + pad)
                    (to_uint64 length) (requested_offset h ao) evs).
           ++ rewrite Ht. subst w2 w1. wsimpl.
              repeat first [rewrite <- app_assoc | progress cbn [app]].
              reflexivity.
           ++ rewrite Hm. reflexivity.
           ++ rewrite Hh. reflexivity.
           ++ rewrite Hn. reflexivity.
           ++ rewrite Hp. reflexivity.
           ++ rewrite Hs. reflexivity.
        -- left. split; [exact Hpos |]. split; [exact Hnz |].
           split; [reflexivity |].
           exists "Failed to map file"%string, evs.
           destruct Hgr as (Hnf & Ht & Hm & Hh & Hn & Hp & Hs).
           unfold napi_throw_error. wsimpl.
           rewrite Hm, Hh, Hfds. subst w2 w1. wsimpl.
           repeat split; try assumption; try reflexivity.
           ++ apply new_events_app. wsimpl. rewrite Ht. wsimpl.
              rewrite <- !app_assoc. reflexivity.
           ++ apply lookup_delete_eq.
Qed.

(** ** Alignment arithmetic *)

Lemma alignment_arith (g offset length : Z) :
  0 < g < 2 ^ 64 ->
  0 <= offset <= INT64_MAX ->
  0 <= length <= INT64_MAX ->
  aligned_offset_of g offset = offset / g * g /\
  padding_of g offset = offset - offset / g * g /\
  0 <= padding_of g offset < g /\
  map_length_of g offset length = length + padding_of g offset.
Proof.
  unfold INT64_MAX. intros Hg Hoff Hlen.
  pose proof (Z.mul_div_le offset g ltac:(lia)) as Hle.
  pose proof (Z.div_pos offset g ltac:(lia) ltac:(lia)) as Hq.
  pose proof (Z.mod_pos_bound offset g ltac:(lia)) as Hmod.
  pose proof (Z.div_mod offset g ltac:(lia)) as Hdm.
  assert (Ha : aligned_offset_of g offset = offset / g * g).
  { unfold aligned_offset_of, uint64_mul.
    rewrite (to_uint64_small offset) by lia.
    rewrite to_uint64_small by nia.
    apply to_int64_small. nia. }
  assert (Hp : padding_of g offset = offset - offset / g * g).
  { unfold padding_of. rewrite Ha.
    rewrite to_int64_small by nia. apply to_uint64_small. nia. }
  repeat split; try assumption; try (rewrite Hp; nia).
  unfold map_length_of, uint64_add. rewrite Hp.
  rewrite (to_uint64_small length) by lia.
  apply to_uint64_small. nia.
Qed.

Lemma win32_offset_id (ao : Z) : 0 <= ao < 2 ^ 63 -> win32_offset ao = ao.
Proof.
  intros Hao. unfold win32_offset.
  rewrite Z.shiftr_div_pow2 by lia.
  change 4294967295 with (Z.ones 32). rewrite Z.land_ones by lia.
  rewrite Z.mod_mod by lia.
  rewrite (Z.mod_small (ao / 2 ^ 32)).
  - pose proof (Z.div_mod ao (2 ^ 32) ltac:(lia)). lia.
  - split; [apply Z.div_pos; lia |].
    apply Z.div_lt_upper_bound; lia.
Qed.

(** When the host places the aligned region (and, on Windows, hands out
    a mapping object), the mapping calls succeed. *)
Lemma mapping_granted_some (h : Host) (path : string) (offset length a : Z) :
  let g := to_uint64 (host_granularity h) in
  0 < host_granularity h < 2 ^ 64 ->
  0 <= offset <= INT64_MAX ->
  0 < length <= INT64_MAX ->
  (host_win32 h = true -> is_Some (host_create_mapping h path)) ->
  host_place h (map_length_of g offset length) (aligned_offset_of g offset) path
    = Some a ->
  mapping_granted h path (aligned_offset_of g offset)
                  (map_length_of g offset length) = Some a /\
  requested_offset h (aligned_offset_of g offset) = aligned_offset_of g offset.
Proof.
  intros g Hg Hoff Hlen Hcm Hplace.
  assert (Hgg : g = host_granularity h)
    by (apply to_uint64_small; lia).
  destruct (alignment_arith g offset length) as (Ha & Hp & Hpr & Hml);
    try lia.
  assert (Hao : 0 <= aligned_offset_of g offset < 2 ^ 63).
  { rewrite Ha. unfold INT64_MAX in *.
    pose proof (Z.mul_div_le offset g ltac:(lia)).
    pose proof (Z.div_pos offset g ltac:(lia) ltac:(lia)). nia. }
  assert (Hmod : aligned_offset_of g offset mod g = 0).
  { rewrite Ha. apply Z.mod_mul. lia. }
  unfold mapping_granted, requested_offset. fold g.
  destruct (host_win32 h) eqn:Hwin.
  - rewrite win32_offset_id by exact Hao.
    destruct (Hcm eq_refl) as [mh Hmh]. rewrite Hmh.
    rewrite Hmod. cbn [Z.eqb negb]. split; [exact Hplace | reflexivity].
  - rewrite Hmod. cbn [Z.eqb negb].
    destruct (Z.eqb_spec (map_length_of g offset length) 0) as [Hz | _]; [lia |].
    destruct (Z.ltb_spec (aligned_offset_of g offset) 0) as [Hn | _]; [lia |].
    cbn [orb]. split; [exact Hplace | reflexivity].
Qed.

(** ** Reading through a mapping *)

Lemma skipn_cons_nth_error {A : Type} (l : list A) :
  forall i : nat,
    (i < List.length l)%nat ->
    exists x, nth_error l i = Some x /\ skipn i l = x :: skipn (S i) l.
Proof.
  induction l as [|y l IH]; intros i Hi; simpl in Hi; [lia |].
  destruct i as [|i].
  - exists y. split; reflexivity.
  - destruct (IH i) as (x & Hx & Hs); [lia |].
    exists x. split; [exact Hx | exact Hs].
Qed.

(** Addresses inside the newest mapping read the bytes of its file. *)
Lemma load_bytes_mapping (w : World) (a ml off : Z) (path : string)
    (rest : list Mapping) (f : File) :
  maps w = Build_Mapping a ml path off :: rest ->
  fs w !! path = Some f ->
  0 <= off ->
  forall (n : nat) (k : Z),
    0 <= k ->
    k + Z.of_nat n <= ml ->
    off + k + Z.of_nat n <= Z.of_nat (List.length (f_bytes f)) ->
    load_bytes w (a + k) n =
    Some (firstn n (skipn (Z.to_nat (off + k)) (f_bytes f))).
Proof.
  intros Hmaps Hfs Hoff.
  induction n as [|n IH]; intros k Hk Hml Hlen; [reflexivity |].
  cbn [load_bytes].
  assert (Hb : load_byte w (a + k) = nth_error (f_bytes f) (Z.to_nat (off + k))).
  { unfold load_byte. rewrite Hmaps. cbn [find m_addr m_len].
    destruct (Z.leb_spec a (a + k)) as [_ | Hc]; [| lia].
    destruct (Z.ltb_spec (a + k) (a + ml)) as [_ | Hc]; [| lia].
    cbn [andb m_path m_off m_addr]. rewrite Hfs.
    replace (off + (a + k - a)) with (off + k) by lia.
    destruct (Z.ltb_spec (off + k) 0) as [Hc | _]; [lia | reflexivity]. }
  destruct (skipn_cons_nth_error (f_bytes f) (Z.to_nat (off + k)))
    as (x & Hx & Hs); [lia |].
  rewrite Hb, Hx.
  replace (a + k + 1) with (a + (k + 1)) by lia.
  rewrite IH by lia.
  rewrite Hs. cbn [firstn].
  replace (Z.to_nat (off + (k + 1))) with (S (Z.to_nat (off + k))) by lia.
  reflexivity.
Qed.

(** ** Theorems on FastReadFile *)

Lemma request_is_all (h : Host) (ao ml : Z) (path : string) (fd : Z)
    (evs tail : list Event) :
  requested_offset h ao = ao ->
  Forall (request_is (requested_offset h ao) ml) evs ->
  Forall (fun e => mapping_request e = None) tail ->
  Forall (request_is ao ml)
         (EvOpen path fd :: EvQueryGranularity :: evs ++ tail).
Proof.
  intros Hro Hevs Htail. rewrite Hro in Hevs.
  constructor; [apply request_is_other; reflexivity |].
  constructor; [apply request_is_other; reflexivity |].
  apply Forall_app. split; [exact Hevs |].
  eapply List.Forall_impl; [| exact Htail].
  intros e He. apply request_is_other. exact He.
Qed.

(** C8. For a non-negative offset and a positive length the parameters
    of the mapping step obey the alignment invariants: the granularity
    is the value queried from the operating system, [aligned_offset] is
    [floor(offset / granularity) * granularity], [padding] is
    [offset - aligned_offset] and lies in [0, granularity), and
    [map_length] is [length + padding]; every mapping call the run makes
    asks for exactly [map_length] bytes at [aligned_offset], and a run
    that gets past the open queries the granularity. *)
Theorem mapping_parameters_aligned (h : Host) (w : World) (path : string)
    (offset length : Z) :
  0 < host_granularity h < 2 ^ 64 ->
  0 <= offset <= INT64_MAX ->
  0 < length <= INT64_MAX ->
  let granularity := fst (GetAllocationGranularity h w) in
  let aligned_offset := aligned_offset_of granularity offset in
  let padding := padding_of granularity offset in
  let map_length := map_length_of granularity offset length in
  let events := new_events w (snd (FastReadFile h path offset length w)) in
  granularity = host_granularity h /\
  aligned_offset = offset / granularity * granularity /\
  padding = offset - aligned_offset /\
  0 <= padding < granularity /\
  map_length = length + padding /\
  Forall (request_is aligned_offset map_length) events /\
  (0 <= fst (sys_open h path w) -> In EvQueryGranularity events).
Proof.
  intros Hg Hoff Hlen. cbn [GetAllocationGranularity fst]. cbv zeta.
  set (g := to_uint64 (host_granularity h)).
  assert (Hgg : g = host_granularity h) by (apply to_uint64_small; lia).
  destruct (alignment_arith g offset length) as (Ha & Hp & Hpr & Hml); try lia.
  split; [exact Hgg |]. split; [exact Ha |].
  split; [rewrite Ha; exact Hp |]. split; [exact Hpr |]. split; [exact Hml |].
  assert (Hao : 0 <= aligned_offset_of g offset < 2 ^ 63).
  { rewrite Ha. unfold INT64_MAX in *.
    pose proof (Z.mul_div_le offset g ltac:(lia)).
    pose proof (Z.div_pos offset g ltac:(lia) ltac:(lia)). nia. }
  assert (Hro : requested_offset h (aligned_offset_of g offset)
                = aligned_offset_of g offset).
  { unfold requested_offset. destruct (host_win32 h); [| reflexivity].
    apply win32_offset_id. exact Hao. }
  destruct (FastReadFile_runs h w path offset length)
    as [(Hfd & _ & Hev & _)
       | [(Hfd & Hz & _) | [(Hfd & _ & _ & msg & evs & _ & _ & Hev & _ & Hreq & _)
       | (Hfd & _ & a & evs & _ & _ & Hreq & _ & _ & _
          & [(_ & Hev & _) | (msg & _ & _ & Hev & _)])]]].
  - rewrite Hev. split; [| lia].
    constructor; [apply request_is_other; reflexivity | constructor].
  - lia.
  - rewrite Hev. fold g in Hreq. split.
    + apply (request_is_all h); try assumption.
      constructor; [reflexivity | constructor].
    + intros _. right. left. reflexivity.
  - rewrite Hev. fold g in Hreq. split.
    + apply (request_is_all h); try assumption.
      constructor; [reflexivity |]. constructor; [reflexivity | constructor].
    + intros _. right. left. reflexivity.
  - rewrite Hev. fold g in Hreq. split.
    + apply (request_is_all h); try assumption.
      repeat (constructor;
              [unfold unmap_event; destruct (host_win32 h); reflexivity |]).
      constructor.
    + intros _. right. left. reflexivity.
Qed.

(** C1. When the range [offset, offset + length) with [length > 0] lies
    inside the file, the open is granted and the host maps the aligned
    region at [a], [FastReadFile] returns an external buffer of exactly
    [length] bytes whose base is [a + padding], inside the mapping and
    not a copy, and the bytes read there are the file's bytes at
    [offset, offset + length). *)
Theorem FastReadFile_view (h : Host) (w : World) (path : string) (f : File)
    (offset length a : Z) :
  fs w !! path = Some f ->
  Z.of_nat (List.length (f_bytes f)) <= INT64_MAX ->
  0 <= host_open h path ->
  0 < host_granularity h < 2 ^ 64 ->
  0 <= offset ->
  0 < length ->
  offset + length <= Z.of_nat (List.length (f_bytes f)) ->
  (host_win32 h = true -> is_Some (host_create_mapping h path)) ->
  let granularity := host_granularity h in
  let aligned_offset := offset / granularity * granularity in
  let padding := offset - aligned_offset in
  host_place h (length + padding) aligned_offset path = Some a ->
  napi_next_ok w ->
  let r := FastReadFile h path offset length w in
  let content := firstn (Z.to_nat length) (skipn (Z.to_nat offset) (f_bytes f)) in
  fst r = Returned (JsExternalBuffer (a + padding) length UnmapCallback_fn
                                     (Z.pos (next_ptr w))) /\
  maps (snd r) = Build_Mapping a (length + padding) path aligned_offset :: maps w /\
  load_bytes (snd r) (a + padding) (Z.to_nat length) = Some content /\
  Z.of_nat (List.length content) = length.
Proof.
  intros Hfs Hsize Hopen Hg Hoff Hlen Hin Hcm granularity aligned_offset padding
         Hplace Hok r content.
  set (g := to_uint64 (host_granularity h)).
  assert (Hgg : g = granularity) by (apply to_uint64_small; lia).
  unfold INT64_MAX in Hsize.
  destruct (alignment_arith g offset length) as (Ha & Hp & Hpr & Hml);
    try (unfold INT64_MAX; lia).
  rewrite Hgg in Ha, Hp, Hpr, Hml.
  fold aligned_offset in Ha, Hp. fold padding in Hp. rewrite Hp in Hml, Hpr.
  destruct (mapping_granted_some h path offset length a) as [Hgr Hro];
    try (unfold INT64_MAX; lia); try assumption.
  { fold g. rewrite Hgg, Ha, Hml. exact Hplace. }
  fold g in Hgr, Hro. rewrite Hgg, Ha, Hml in Hgr. rewrite Hgg, Ha in Hro.
  assert (Hfd : 0 <= fst (sys_open h path w)).
  { unfold sys_open. rewrite Hfs. cbn [fst].
    destruct (Z.ltb_spec (host_open h path) 0); lia. }
  assert (Hcontent : Z.of_nat (List.length content) = length).
  { unfold content. rewrite length_firstn, length_skipn. lia. }
  destruct (FastReadFile_runs h w path offset length)
    as [(Hc & _) | [(_ & Hz & _) | [(_ & _ & Hno & _)
       | (_ & _ & a' & evs & Hgr' & _ & _ & Hfs' & _ & Hret & Hcases)]]].
  - lia.
  - lia.
  - fold g in Hno. rewrite Hgg, Ha, Hml in Hno. congruence.
  - cbv zeta in Hgr', Hret, Hcases. specialize (Hret Hok).
    destruct Hcases as [(_ & _ & Hmaps & _) | (msg & Hthrown & _)];
      [| rewrite Hret in Hthrown; discriminate Hthrown].
    fold g in Hgr', Hmaps, Hret.
    rewrite Hgg in Hgr', Hmaps, Hret.
    rewrite Ha, Hml in Hgr'. rewrite Ha, Hml, Hro in Hmaps. rewrite Hp in Hret.
    assert (a' = a) by congruence. subst a'.
    rewrite to_uint64_small in Hret by lia.
    fold r in Hmaps, Hfs', Hret.
    split; [exact Hret |]. split; [exact Hmaps |].
    split; [| exact Hcontent].
    unfold content.
    pose proof (Z.mul_div_le offset granularity ltac:(lia)) as Hle.
    pose proof (Z.div_pos offset granularity ltac:(lia) ltac:(lia)) as Hq.
    assert (Hao : 0 <= aligned_offset) by (unfold aligned_offset; nia).
    assert (Hsum : aligned_offset + padding = offset) by (unfold padding; lia).
    rewrite (load_bytes_mapping (snd r) a (length + padding) aligned_offset path
               (maps w) f Hmaps); try lia.
    + rewrite Hsum. reflexivity.
    + rewrite Hfs'. exact Hfs.
Qed.

(** C2. Whenever [FastReadFile] returns a view over a mapping, the
    finalizer attached to the view is [UnmapCallback] and its hint
    points to a heap record holding the true base [mapped_addr] and the
    true length [map_length] of the mapping, while the view itself
    starts [padding] bytes later and has the requested length. Run on
    that view, the callback unmaps the region at [mapped_addr] (with
    [map_length] on POSIX) and frees the record in the same invocation,
    leaving every other mapping alone. *)
Theorem release_callback_true_region (h : Host) (w w' : World) (path : string)
    (offset length data len hint : Z) (fin : napi_finalize) :
  FastReadFile h path offset length w
    = (Returned (JsExternalBuffer data len fin hint), w') ->
  let granularity := to_uint64 (host_granularity h) in
  let map_length := map_length_of granularity offset length in
  let padding := padding_of granularity offset in
  exists (mapped_addr : Z) (region : Mapping),
    maps w' = region :: maps w /\
    m_addr region = mapped_addr /\
    m_len region = map_length /\
    data = mapped_addr + padding /\
    len = to_uint64 length /\
    fin = UnmapCallback_fn /\
    heap w' !! hint = Some (Build_MmapInfo mapped_addr map_length) /\
    exists w'' : World,
      run_finalizer h (JsExternalBuffer data len fin hint) w' = Some w'' /\
      new_events w' w'' =
        [if host_win32 h then EvUnmapViewOfFile mapped_addr
         else EvMunmap mapped_addr map_length;
         EvFree hint] /\
      heap w'' !! hint = None /\
      ~ In region (maps w'') /\
      (forall m, In m (maps w'') -> In m (maps w')).
Proof.
  intros Hrun granularity map_length padding.
  destruct (FastReadFile_runs h w path offset length)
    as [(_ & Hr & _) | [(_ & _ & _ & _ & _ & _ & _ & Hinv)
       | [(_ & _ & _ & msg & evs & Hr & _)
       | (_ & _ & a & evs & _ & _ & _ & _ & _ & _
          & [(Hinv & _ & Hmaps & Hheap) | (msg & Hr & _)])]]];
    rewrite Hrun in *; cbn [fst snd] in *; try discriminate.
  - specialize (Hinv _ eq_refl). discriminate.
  - injection Hinv as Hdata Hlen Hfin Hhint.
    fold granularity in Hmaps, Hheap, Hdata.
    fold map_length in Hmaps, Hheap. fold padding in Hdata.
    exists a, (Build_Mapping a map_length path
                 (requested_offset h (aligned_offset_of granularity offset))).
    split; [exact Hmaps |]. split; [reflexivity |]. split; [reflexivity |].
    split; [exact Hdata |]. split; [exact Hlen |]. split; [exact Hfin |].
    subst hint fin.
    split; [rewrite Hheap; apply lookup_insert_eq |].
    cbn [run_finalizer]. unfold UnmapCallback. cbn [Z.eqb].
    rewrite Hheap, lookup_insert_eq. cbn [mapped_addr mapped_len].
    eexists. split; [reflexivity |].
    destruct (host_win32 h).
    + unfold sys_UnmapViewOfFile. wsimpl.
      split; [apply new_events_app; wsimpl; rewrite <- app_assoc; reflexivity |].
      split; [apply lookup_delete_eq |].
      rewrite Hmaps. split.
      * intros Hin. apply filter_In in Hin. destruct Hin as [_ Hf].
        cbn [m_addr] in Hf. rewrite Z.eqb_refl in Hf. discriminate.
      * intros m Hin. apply filter_In in Hin. apply Hin.
    + unfold sys_munmap. wsimpl.
      split; [apply new_events_app; wsimpl; rewrite <- app_assoc; reflexivity |].
      split; [apply lookup_delete_eq |].
      rewrite Hmaps. split.
      * intros Hin. apply filter_In in Hin. destruct Hin as [_ Hf].
        cbn [m_addr m_len] in Hf.
        rewrite !Z.leb_refl in Hf. discriminate.
      * intros m Hin. apply filter_In in Hin. apply Hin.
Qed.

Lemma existsb_failed_tail (evs tail : list Event) :
  existsb mapping_call_failed evs = false ->
  existsb mapping_call_failed tail = false ->
  existsb mapping_call_failed (evs ++ tail) = false.
Proof. intros H1 H2. rewrite existsb_app, H1, H2. reflexivity. Qed.

(** C6, as amended. Whenever a mapping call of the operating system
    fails during [FastReadFile] (and one does fail whenever the platform
    does not grant the region), the call throws an error of kind
    [MappingError] and returns no view; the descriptor obtained by the
    open has been closed, the close being the last thing done before
    the error is surfaced, and no mapping and no bookkeeping record is
    left behind. The range is not compared with the size of the file:
    whether a region reaching past the end of the file is mapped is the
    decision of the operating system, and whenever the region is
    granted, whatever the size of the file, no mapping call fails and
    the call returns a view of the requested length. *)
Theorem mapping_failure_closes_handle (h : Host) (w : World) (path : string)
    (offset length : Z) :
  let fd := fst (sys_open h path w) in
  let granularity := to_uint64 (host_granularity h) in
  let aligned_offset := aligned_offset_of granularity offset in
  let padding := padding_of granularity offset in
  let map_length := map_length_of granularity offset length in
  let r := fst (FastReadFile h path offset length w) in
  let w' := snd (FastReadFile h path offset length w) in
  (0 <= fd -> length <> 0 ->
   mapping_granted h path aligned_offset map_length = None ->
   existsb mapping_call_failed (new_events w w') = true) /\
  (existsb mapping_call_failed (new_events w w') = true ->
   exists (msg : string) (evs : list Event),
     r = Thrown msg /\
     error_kind msg = Some MappingError /\
     0 <= fd /\
     new_events w w' = EvOpen path fd :: evs ++ [EvClose fd] /\
     fds w' !! fd = None /\
     maps w' = maps w /\
     heap w' = heap w) /\
  (forall a : Z,
     0 <= fd -> length <> 0 ->
     mapping_granted h path aligned_offset map_length = Some a ->
     napi_next_ok w ->
     existsb mapping_call_failed (new_events w w') = false /\
     r = Returned (JsExternalBuffer (a + padding) (to_uint64 length)
                                    UnmapCallback_fn (Z.pos (next_ptr w)))).
Proof.
  intros fd granularity aligned_offset padding map_length r w'.
  destruct (FastReadFile_runs h w path offset length)
    as [(Hfd & _ & Hev & _) | [(_ & Hz & Hev & _)
       | [(Hfd & _ & Hno & msg & evs & Hr & Hkind & Hev & Hf & _ & Hm & Hh & Hc)
       | (_ & _ & a & evs & Hgr & Hnf & _ & _ & _ & Hret & Hcases)]]];
    try (fold w' in Hev; fold fd in Hev).
  - split; [intros Hc; fold fd in Hfd; lia |].
    split; [intros Hfail; rewrite Hev in Hfail; discriminate |].
    intros a Hc. fold fd in Hfd. lia.
  - split; [intros _ Hc; contradiction |].
    split; [intros Hfail; rewrite Hev in Hfail; discriminate |].
    intros a _ Hc. contradiction.
  - split; [| split].
    + intros _ _ _. rewrite Hev. cbn [existsb mapping_call_failed orb].
      rewrite existsb_app, Hf. reflexivity.
    + intros _. exists msg, (EvQueryGranularity :: evs).
      repeat split; assumption.
    + intros a _ _ Hgr _.
      fold granularity in Hno. fold aligned_offset map_length in Hno.
      rewrite Hno in Hgr. discriminate Hgr.
  - cbv zeta in Hgr, Hret, Hcases.
    fold granularity in Hgr, Hret, Hcases.
    fold aligned_offset map_length in Hgr, Hcases. fold padding in Hret, Hcases.
    fold r in Hret, Hcases. fold w' in Hcases. fold fd in Hcases.
    assert (Hnone : existsb mapping_call_failed (new_events w w') = false).
    { destruct Hcases as [(_ & Hev & _) | (msg & _ & _ & Hev & _)];
        rewrite Hev; cbn [existsb mapping_call_failed orb];
        (apply existsb_failed_tail; [exact Hnf |]);
        unfold unmap_event; destruct (host_win32 h); reflexivity. }
    split; [| split].
    + intros _ _ Hno. rewrite Hgr in Hno. discriminate.
    + intros Hfail. rewrite Hnone in Hfail. discriminate.
    + intros a' _ _ Hgr' Hok. rewrite Hgr in Hgr'. injection Hgr' as <-.
      split; [exact Hnone | exact (Hret Hok)].
Qed.

(** C7. For every path whose open succeeds and every offset, a call
    with length 0 closes the descriptor and returns an empty buffer
    owned by the runtime, with no finalizer; the only calls made are the
    open and the close, so the mapping subsystem is never entered and
    neither a mapping nor a bookkeeping record is created. *)
Theorem zero_length_skips_mapping (h : Host) (w : World) (path : string)
    (offset : Z) :
  0 <= fst (sys_open h path w) ->
  napi_next_ok w ->
  let fd := fst (sys_open h path w) in
  let r := fst (FastReadFile h path offset 0 w) in
  let w' := snd (FastReadFile h path offset 0 w) in
  r = Returned (JsBuffer 0) /\
  new_events w w' = [EvOpen path fd; EvClose fd] /\
  existsb is_mapping_call (new_events w w') = false /\
  fds w' !! fd = None /\
  maps w' = maps w /\
  heap w' = heap w /\
  run_finalizer h (JsBuffer 0) w' = Some w'.
Proof.
  intros Hopen Hok fd r w'.
  destruct (FastReadFile_runs h w path offset 0)
    as [(Hc & _) | [(_ & _ & Hev & Hm & Hh & Hfds & Hret & _)
       | [(_ & Hc & _) | (_ & Hc & _)]]]; try lia.
  fold w' in Hev, Hm, Hh, Hfds. fold r in Hret. fold fd in Hev, Hfds.
  split; [apply Hret; exact Hok |].
  split; [exact Hev |]. rewrite Hev.
  repeat split; assumption.
Qed.


(** ** GetFileStats *)

Lemma to_int64_range (z : Z) : INT64_MIN <= to_int64 z <= INT64_MAX.
Proof.
  unfold to_int64, INT64_MIN, INT64_MAX, UINT64_MOD.
  pose proof (Z.mod_pos_bound (z + 2 ^ 63) (2 ^ 64) ltac:(lia)). lia.
Qed.

Lemma NAPI_CALL_all_ok {A : Type} (n : nat) (v : A) (w : World) :
  napi_all_ok (S n) w ->
  exists w1, NAPI_CALL v w = (Returned v, w1) /\ napi_all_ok n w1.
Proof.
  unfold napi_all_ok, NAPI_CALL.
  destruct (napi_pending w) as [|[msg|] rest] eqn:E; cbn; intros Hok.
  - exists w. split; [reflexivity |]. rewrite E. destruct n; reflexivity.
  - discriminate.
  - eexists. split; [reflexivity |]. exact Hok.
Qed.

(** C9. When the five N-API constructors report [napi_ok]:
    for a file that exists and whose [stat] is not refused,
    [GetFileStats] returns the record [{size, mtime}] of two signed
    64-bit integers, [size] being the byte length of the file and
    [mtime] its modification time in seconds (for sizes and times that
    fit 64 bits, as [off_t] and [time_t] do); when the [stat] call
    fails, as it does for a path that does not exist, the call throws an
    error of kind [StatError] and returns nothing. *)
Theorem GetFileStats_record (h : Host) (w : World) (path : string) :
  napi_all_ok 5 w ->
  let r := fst (GetFileStats h path w) in
  (forall f : File,
      fs w !! path = Some f ->
      host_stat_denied h path = false ->
      exists size mtime : Z,
        r = Returned (JsObject [("size"%string, JsInt64 size);
                                ("mtime"%string, JsInt64 mtime)]) /\
        INT64_MIN <= size <= INT64_MAX /\
        INT64_MIN <= mtime <= INT64_MAX /\
        (Z.of_nat (List.length (f_bytes f)) <= INT64_MAX ->
         size = Z.of_nat (List.length (f_bytes f))) /\
        (INT64_MIN <= f_mtime f <= INT64_MAX -> mtime = f_mtime f)) /\
  (fst (sys_stat h path w) = None ->
   r = Thrown "Failed to stat file" /\
   error_kind "Failed to stat file" = Some StatError) /\
  (fs w !! path = None -> fst (sys_stat h path w) = None).
Proof.
  intros Hok r. subst r. unfold GetFileStats. rewrite bind_lift.
  split; [| split].
  - intros f Hfs Hden. unfold sys_stat. rewrite Hfs, Hden. cbn [fst snd st_size st_mtime].
    set (w0 := log (EvStat path true) w).
    assert (Hok0 : napi_all_ok 5 w0) by exact Hok.
    unfold napi_create_object, napi_create_int64, napi_set_named_property.
    rewrite bind_unfold.
    destruct (NAPI_CALL_all_ok 4 (JsObject []) w0 Hok0) as (w1 & E1 & Hok1).
    rewrite E1. rewrite bind_unfold.
    match goal with |- context [NAPI_CALL (JsInt64 ?v) w1] =>
      destruct (NAPI_CALL_all_ok 3 (JsInt64 v) w1 Hok1) as (w2 & E2 & Hok2) end.
    rewrite E2. rewrite bind_unfold.
    match goal with |- context [NAPI_CALL ?v w2] =>
      destruct (NAPI_CALL_all_ok 2 v w2 Hok2) as (w3 & E3 & Hok3) end.
    rewrite E3. rewrite bind_unfold.
    match goal with |- context [NAPI_CALL ?v w3] =>
      destruct (NAPI_CALL_all_ok 1 v w3 Hok3) as (w4 & E4 & Hok4) end.
    rewrite E4. rewrite bind_unfold.
    match goal with |- context [NAPI_CALL ?v w4] =>
      destruct (NAPI_CALL_all_ok 0 v w4 Hok4) as (w5 & E5 & Hok5) end.
    rewrite E5. cbn [ret fst].
    eexists _, _. split; [reflexivity |].
    split; [apply to_int64_range |]. split; [apply to_int64_range |].
    split.
    + intros Hsz. apply to_int64_small. unfold INT64_MAX in Hsz. lia.
    + intros Hmt. unfold INT64_MIN, INT64_MAX in Hmt.
      rewrite !to_int64_small; [reflexivity | lia |].
      rewrite to_int64_small; lia.
  - intros Hnone. rewrite Hnone. split; reflexivity.
  - intros Hfs. unfold sys_stat. rewrite Hfs. reflexivity.
Qed.

(** * Sample runs *)

Example checksum_hex_empty : checksum_hex true [] = "0000000000000000"%string.
Proof. reflexivity. Qed.

Example checksum_hex_abc :
  checksum_hex true [x61; x62; x63] = "0000000000017862"%string /\
  checksum_hex false [x61; x62; x63] = "0000000000017862"%string.
Proof. vm_compute. split; reflexivity. Qed.

(** 33 bytes: one chunk, then one byte folded into the chunk's hash. *)
Example checksum_hex_33 :
  vector_phase (repeat x01 32 ++ [x05]) = (32%nat, 0) /\
  remainder_iterations (repeat x01 32 ++ [x05]) = 1%nat /\
  checksum_hex true (repeat x01 32 ++ [x05]) = "0000000000000005"%string.
Proof. vm_compute. repeat split; reflexivity. Qed.

(** A read on POSIX: one page-aligned mapping of 906 bytes at file
    offset 4096, and a view 903 bytes into it. *)
Example FastReadFile_posix_run :
  fst (FastReadFile posix_host "data.bin" 4999 3 sample_world)
    = Returned (JsExternalBuffer 1049479 3 UnmapCallback_fn 1) /\
  new_events sample_world
             (snd (FastReadFile posix_host "data.bin" 4999 3 sample_world))
    = [EvOpen "data.bin" 3; EvQueryGranularity;
       EvMmap 906 3 4096 (Some 1048576); EvClose 3; EvMalloc 1].
Proof. vm_compute. split; reflexivity. Qed.

(** The same read on Windows, where the granularity is 65536. *)
Example FastReadFile_win32_run :
  fst (FastReadFile win32_host "data.bin" 4999 3 sample_world)
    = Returned (JsExternalBuffer 1053575 3 UnmapCallback_fn 1) /\
  new_events sample_world
             (snd (FastReadFile win32_host "data.bin" 4999 3 sample_world))
    = [EvOpen "data.bin" 3; EvQueryGranularity; EvGetOsfHandle 3 (Some 3);
       EvCreateFileMapping 3 (Some 260);
       EvMapViewOfFile 260 0 0 5002 (Some 1048576);
       EvCloseHandle 260; EvClose 3; EvMalloc 1].
Proof. vm_compute. split; reflexivity. Qed.

Example FastReadFile_missing_file :
  FastReadFile posix_host "absent.bin" 0 1 sample_world
    = (Thrown "Failed to open file",
       log (EvOpen "absent.bin" (-1)) sample_world).
Proof. reflexivity. Qed.

Example GetFileStats_missing_file :
  fst (GetFileStats posix_host "absent.bin" sample_world)
    = Thrown "Failed to stat file".
Proof. reflexivity. Qed.

(** * Counterexamples and instances *)

Ltac by_eval :=
  vm_compute;
  first [ reflexivity
        | discriminate
        | (intros; discriminate)
        | (split; by_eval) ].


(** C5 as stated fails: on 32 bytes of value 1 the build with vector
    support and the build without it return different fingerprints. *)
Lemma vector_and_scalar_differ :
  fst (SimdChecksum posix_host (repeat x01 32) sample_world)
    = Returned (JsString "0000000000000000") /\
  fst (SimdChecksum scalar_host (repeat x01 32) sample_world)
    = Returned (JsString "45f70e42ea984200").
Proof. vm_compute. split; reflexivity. Qed.

(** C6 as stated fails: a range that extends beyond end-of-file does
    not make the mapping call fail where the operating system maps such
    a region, as Linux does. On the sample file of 5003 bytes a read of
    10 bytes at offset 4999 makes no failing call and throws nothing:
    it returns a view of 10 bytes, the first four of which show the
    last four bytes of the file. *)
Lemma read_past_end_of_file_returns_view :
  Z.of_nat (List.length (f_bytes sample_file)) < 4999 + 10 /\
  fst (FastReadFile posix_host "data.bin" 4999 10 sample_world)
    = Returned (JsExternalBuffer 1049479 10 UnmapCallback_fn 1) /\
  new_events sample_world
             (snd (FastReadFile posix_host "data.bin" 4999 10 sample_world))
    = [EvOpen "data.bin" 3; EvQueryGranularity;
       EvMmap 913 3 4096 (Some 1048576); EvClose 3; EvMalloc 1] /\
  load_bytes (snd (FastReadFile posix_host "data.bin" 4999 10 sample_world))
             1049479 4 = Some [x41; x42; x43; x44].
Proof. vm_compute. repeat split; reflexivity. Qed.

Lemma FastReadFile_view_witness :
  fs sample_world !! "data.bin"%string = Some sample_file /\
  0 <= 4999 /\ 0 < 3 /\
  4999 + 3 <= Z.of_nat (List.length (f_bytes sample_file)) /\
  fst (FastReadFile posix_host "data.bin" 4999 3 sample_world)
    = Returned (JsExternalBuffer (1048576 + 903) 3 UnmapCallback_fn 1) /\
  load_bytes (snd (FastReadFile posix_host "data.bin" 4999 3 sample_world))
             (1048576 + 903) 3
    = Some [x41; x42; x43].
Proof.
  assert (Hfs : fs sample_world !! "data.bin"%string = Some sample_file)
    by reflexivity.
  assert (Hin : 4999 + 3 <= Z.of_nat (List.length (f_bytes sample_file)))
    by by_eval.
  pose proof (FastReadFile_view posix_host sample_world "data.bin" sample_file
                4999 3 1048576 Hfs
                ltac:(by_eval) ltac:(by_eval) ltac:(by_eval) ltac:(lia)
                ltac:(lia) Hin ltac:(by_eval) ltac:(reflexivity)
                ltac:(reflexivity)) as H.
  cbv zeta in H. destruct H as (Hret & _ & Hload & _).
  split; [exact Hfs |]. split; [lia |]. split; [lia |]. split; [exact Hin |].
  split; [exact Hret | exact Hload].
Defined.

Lemma release_callback_true_region_witness :
  FastReadFile posix_host "data.bin" 4999 3 sample_world
    = (Returned (JsExternalBuffer 1049479 3 UnmapCallback_fn 1),
       snd (FastReadFile posix_host "data.bin" 4999 3 sample_world)) /\
  exists mapped_addr : Z,
    1049479 = mapped_addr + 903 /\
    heap (snd (FastReadFile posix_host "data.bin" 4999 3 sample_world)) !! 1
      = Some (Build_MmapInfo mapped_addr 906).
Proof.
  assert (Hrun : FastReadFile posix_host "data.bin" 4999 3 sample_world
                 = (Returned (JsExternalBuffer 1049479 3 UnmapCallback_fn 1),
                    snd (FastReadFile posix_host "data.bin" 4999 3 sample_world)))
    by (vm_compute; reflexivity).
  split; [exact Hrun |].
  destruct (release_callback_true_region posix_host sample_world _ "data.bin"
              4999 3 1049479 3 1 UnmapCallback_fn Hrun)
    as (a & region & _ & _ & _ & Hdata & _ & _ & Hheap & _).
  exists a. split; [exact Hdata | exact Hheap].
Defined.


Lemma SimdChecksum_reference_witness :
  napi_next_ok sample_world /\
  fst (SimdChecksum posix_host [x61] sample_world)
    = Returned (JsString "0000000000000061").
Proof.
  assert (Hok : napi_next_ok sample_world) by reflexivity.
  split; [exact Hok |].
  exact (proj1 (SimdChecksum_reference posix_host [x61] sample_world Hok)).
Defined.

Lemma SimdChecksum_short_portable_witness :
  (List.length [x61; x62] < 32)%nat /\
  SimdChecksum posix_host [x61; x62] sample_world
    = SimdChecksum scalar_host [x61; x62] sample_world.
Proof.
  assert (Hlen : (List.length [x61; x62] < 32)%nat) by (simpl; lia).
  split; [exact Hlen |].
  apply (SimdChecksum_short_portable posix_host scalar_host [x61; x62]
           sample_world Hlen).
Defined.

Lemma checksum_one_chunk_witness :
  List.length (repeat x01 8 ++ repeat x02 8 ++ repeat x04 8 ++ repeat x08 8)
    = 32%nat /\
  remainder_iterations
    (repeat x01 8 ++ repeat x02 8 ++ repeat x04 8 ++ repeat x08 8) = 0%nat /\
  checksum_hex true
    (repeat x01 8 ++ repeat x02 8 ++ repeat x04 8 ++ repeat x08 8)
    = "0f0f0f0f0f0f0f0f"%string.
Proof.
  assert (Hlen : List.length (repeat x01 8 ++ repeat x02 8 ++ repeat x04 8
                              ++ repeat x08 8) = 32%nat) by reflexivity.
  split; [exact Hlen |].
  destruct (checksum_one_chunk _ Hlen) as (_ & _ & _ & Hiter & _ & Hhex).
  split; [exact Hiter | exact Hhex].
Defined.

Lemma mapping_failure_closes_handle_witness :
  existsb mapping_call_failed
    (new_events sample_world
       (snd (FastReadFile posix_host "data.bin" 0 (2 ^ 48) sample_world)))
  = true /\
  exists msg : string,
    fst (FastReadFile posix_host "data.bin" 0 (2 ^ 48) sample_world)
    = Thrown msg /\
    error_kind msg = Some MappingError.
Proof.
  destruct (mapping_failure_closes_handle posix_host sample_world "data.bin"
              0 (2 ^ 48)) as (Hrefused & Hclosed & _).
  assert (Hfail : existsb mapping_call_failed
            (new_events sample_world
               (snd (FastReadFile posix_host "data.bin" 0 (2 ^ 48)
                       sample_world)))
          = true) by (apply Hrefused; by_eval).
  split; [exact Hfail |].
  destruct (Hclosed Hfail) as (msg & evs & Hr & Hkind & _).
  exists msg. split; [exact Hr | exact Hkind].
Defined.

Lemma zero_length_skips_mapping_witness :
  0 <= fst (sys_open posix_host "data.bin" sample_world) /\
  napi_next_ok sample_world /\
  fst (FastReadFile posix_host "data.bin" 77 0 sample_world)
    = Returned (JsBuffer 0).
Proof.
  assert (Hopen : 0 <= fst (sys_open posix_host "data.bin" sample_world))
    by by_eval.
  assert (Hok : napi_next_ok sample_world) by reflexivity.
  split; [exact Hopen |]. split; [exact Hok |].
  exact (proj1 (zero_length_skips_mapping posix_host sample_world "data.bin"
                  77 Hopen Hok)).
Defined.

Lemma mapping_parameters_aligned_witness :
  0 < host_granularity posix_host < 2 ^ 64 /\
  0 <= 4999 <= INT64_MAX /\
  0 < 3 <= INT64_MAX /\
  aligned_offset_of 4096 4999 = 4096 /\
  padding_of 4096 4999 = 903 /\
  map_length_of 4096 4999 3 = 906.
Proof.
  assert (Hg : 0 < host_granularity posix_host < 2 ^ 64) by by_eval.
  assert (Hoff : 0 <= 4999 <= INT64_MAX) by by_eval.
  assert (Hlen : 0 < 3 <= INT64_MAX) by by_eval.
  split; [exact Hg |]. split; [exact Hoff |]. split; [exact Hlen |].
  destruct (mapping_parameters_aligned posix_host sample_world "data.bin"
              4999 3 Hg Hoff Hlen) as (_ & Ha & Hp & _ & Hml & _).
  split; [exact Ha |]. split; [exact Hp | exact Hml].
Defined.

Lemma GetFileStats_record_witness :
  napi_all_ok 5 sample_world /\
  exists size mtime : Z,
    fst (GetFileStats posix_host "data.bin" sample_world)
      = Returned (JsObject [("size"%string, JsInt64 size);
                            ("mtime"%string, JsInt64 mtime)]) /\
    size = 5003 /\ mtime = 1700000000.
Proof.
  assert (Hok : napi_all_ok 5 sample_world) by reflexivity.
  split; [exact Hok |].
  destruct (GetFileStats_record posix_host sample_world "data.bin" Hok)
    as (Hrec & _).
  destruct (Hrec sample_file eq_refl eq_refl)
    as (size & mtime & Hr & _ & _ & Hsize & Hmtime).
  exists size, mtime. split; [exact Hr |].
  split; [apply Hsize; by_eval | apply Hmtime; by_eval].
Defined.

(** * Further properties of the checksum *)

(** X1. For every buffer, the vector phase stops at the last multiple of
    32 not beyond the length, and the byte loop of the x86-64 branch
    runs exactly [length mod 32] times. *)
Theorem checksum_loop_counts (bytes : list byte) :
  fst (vector_phase bytes) = (32 * (List.length bytes / 32))%nat /\
  remainder_iterations bytes = (List.length bytes mod 32)%nat.
Proof.
  pose proof (Nat.div_mod_eq (List.length bytes) 32) as Hdm.
  split; [rewrite vector_phase_spec; reflexivity |].
  unfold remainder_iterations. rewrite vector_phase_spec.
  rewrite byte_loop_spec by lia. cbn [fst]. lia.
Qed.

Lemma spec_scalar_fold_poly (bs : list byte) :
  forall h0 : Z,
    0 <= h0 < 2 ^ 64 ->
    spec_scalar_fold h0 bs
    = (h0 * 31 ^ Z.of_nat (List.length bs) + poly31 bs) mod 2 ^ 64.
Proof.
  induction bs as [|b bs IH]; intros h0 Hh0.
  - cbn. rewrite Z.mul_1_r, Z.add_0_r, Z.mod_small by lia. reflexivity.
  - cbn [spec_scalar_fold fold_left]. fold (spec_scalar_fold
      ((h0 * 31 + byte_val b) mod 2 ^ 64) bs).
    rewrite IH by (apply Z.mod_pos_bound; lia).
    cbn [poly31 List.length]. rewrite Nat2Z.inj_succ, Z.pow_succ_r by lia.
    rewrite Z.add_mod by lia. rewrite Z.mul_mod_idemp_l by lia.
    rewrite <- Z.add_mod by lia. f_equal. ring.
Qed.

Lemma checksum_hash_scalar (x86_64 : bool) (bytes : list byte) :
  x86_64 = false \/ (List.length bytes < 32)%nat ->
  checksum_hash x86_64 bytes = spec_scalar_fold 0 bytes.
Proof.
  intros Hs. rewrite checksum_hash_spec. unfold spec_hash.
  destruct x86_64; [| reflexivity].
  destruct Hs as [Hc | Hlen]; [discriminate |].
  unfold spec_accumulate, spec_chunks, spec_remainder.
  rewrite Nat.div_small by lia. reflexivity.
Qed.

(** X2. On the scalar path (a build without vector support, or a buffer
    shorter than 32 bytes) the hash is the polynomial
    [b0 * 31^(n-1) + ... + b(n-1)] of the bytes, modulo [2^64]. *)
Theorem scalar_checksum_polynomial (x86_64 : bool) (bytes : list byte) :
  x86_64 = false \/ (List.length bytes < 32)%nat ->
  checksum_hash x86_64 bytes = poly31 bytes mod 2 ^ 64.
Proof.
  intros Hs. rewrite checksum_hash_scalar by exact Hs.
  rewrite spec_scalar_fold_poly by lia. rewrite Z.mul_0_l. reflexivity.
Qed.

Lemma spec_scalar_fold_zeros (k : nat) :
  spec_scalar_fold 0 (repeat x00 k) = 0.
Proof.
  induction k as [|k IH]; [reflexivity |].
  cbn [repeat spec_scalar_fold fold_left]. exact IH.
Qed.

(** X3. On the scalar path zero bytes in front of a buffer go
    unnoticed: the fingerprint of [k] zero bytes followed by [bytes] is
    the fingerprint of [bytes]. *)
Theorem checksum_ignores_leading_zeros (x86_64 : bool) (k : nat)
    (bytes : list byte) :
  x86_64 = false \/ (k + List.length bytes < 32)%nat ->
  checksum_hex x86_64 (repeat x00 k ++ bytes) = checksum_hex x86_64 bytes.
Proof.
  intros Hs. unfold checksum_hex.
  rewrite (checksum_hash_scalar x86_64 (repeat x00 k ++ bytes)).
  - rewrite (checksum_hash_scalar x86_64 bytes)
      by (destruct Hs; [left; assumption | right; lia]).
    unfold spec_scalar_fold at 1. rewrite fold_left_app.
    fold (spec_scalar_fold 0 (repeat x00 k)). rewrite spec_scalar_fold_zeros.
    reflexivity.
  - destruct Hs as [Hc | Hlen]; [left; exact Hc | right].
    rewrite length_app, repeat_length. exact Hlen.
Qed.

(** X4. The scalar hash of a concatenation is got from the hashes of
    the parts: [hash (b1 ++ b2) = hash b1 * 31^|b2| + hash b2] modulo
    [2^64], so a long buffer can be hashed piece by piece. *)
Theorem scalar_checksum_concat (b1 b2 : list byte) :
  checksum_hash false (b1 ++ b2)
  = (checksum_hash false b1 * 31 ^ Z.of_nat (List.length b2)
     + checksum_hash false b2) mod 2 ^ 64.
Proof.
  rewrite !checksum_hash_scalar by (left; reflexivity).
  unfold spec_scalar_fold at 1. rewrite fold_left_app.
  fold (spec_scalar_fold 0 b1).
  fold (spec_scalar_fold (spec_scalar_fold 0 b1) b2).
  rewrite (spec_scalar_fold_poly b2 (spec_scalar_fold 0 b1))
    by (apply spec_scalar_fold_range; lia).
  rewrite (spec_scalar_fold_poly b2 0) by lia.
  rewrite Z.mul_0_l, Z.add_0_l.
  rewrite Z.add_mod_idemp_r by lia. reflexivity.
Qed.
Lemma spec_chunks_concat (cs : list (list byte)) (tail : list byte) :
  Forall (fun c => List.length c = 32%nat) cs ->
  (List.length tail < 32)%nat ->
  spec_chunks (concat cs ++ tail) = cs /\
  spec_remainder (concat cs ++ tail) = tail.
Proof.
  intros Hcs Htail. induction Hcs as [|c cs Hc Hcs IH].
  - unfold spec_chunks, spec_remainder. cbn [concat app].
    rewrite Nat.div_small by exact Htail. split; reflexivity.
  - destruct IH as [IHc IHr].
    assert (Hlen : List.length (concat (c :: cs) ++ tail)
                   = (32 + List.length (concat cs ++ tail))%nat).
    { cbn [concat]. rewrite <- app_assoc, length_app, Hc. reflexivity. }
    assert (Hdiv : (List.length (concat (c :: cs) ++ tail) / 32
                    = S (List.length (concat cs ++ tail) / 32))%nat).
    { rewrite Hlen.
      replace (32 + List.length (concat cs ++ tail))%nat
        with (1 * 32 + List.length (concat cs ++ tail))%nat by lia.
      rewrite Nat.div_add_l by lia. reflexivity. }
    assert (Hskip : forall n, skipn (32 + n) (concat (c :: cs) ++ tail)
                              = skipn n (concat cs ++ tail)).
    { intros n. cbn [concat]. rewrite <- app_assoc.
      rewrite skipn_app, Hc.
      rewrite skipn_all2 by lia.
      replace (32 + n - 32)%nat with n by lia. reflexivity. }
    split.
    + unfold spec_chunks in *. rewrite Hdiv.
      cbn [seq map]. f_equal.
      * replace (32 * 0)%nat with 0%nat by lia. rewrite skipn_O.
        cbn [concat]. rewrite <- app_assoc, firstn_app, Hc.
        rewrite firstn_all2 by lia.
        replace (32 - 32)%nat with 0%nat by lia. cbn [firstn].
        apply app_nil_r.
      * rewrite <- seq_shift, map_map. rewrite <- IHc at 2.
        apply map_ext. intros k.
        replace (32 * S k)%nat with (32 + 32 * k)%nat by lia.
        rewrite Hskip. reflexivity.
    + unfold spec_remainder in *. rewrite Hdiv.
      replace (32 * S (List.length (concat cs ++ tail) / 32))%nat
        with (32 + 32 * (List.length (concat cs ++ tail) / 32))%nat by lia.
      rewrite Hskip. exact IHr.
Qed.

Lemma spec_add_chunk_comm (acc : Z * Z * Z * Z) (c1 c2 : list byte) :
  spec_add_chunk (spec_add_chunk acc c1) c2
  = spec_add_chunk (spec_add_chunk acc c2) c1.
Proof.
  assert (E : forall a x y, ((a + x) mod 2 ^ 64 + y) mod 2 ^ 64
                            = ((a + y) mod 2 ^ 64 + x) mod 2 ^ 64).
  { intros a x y. rewrite !Z.add_mod_idemp_l by lia. f_equal. lia. }
  destruct acc as [[[a0 a1] a2] a3]. unfold spec_add_chunk.
  rewrite (E a0 (spec_lane 0 c1) (spec_lane 0 c2)),
          (E a1 (spec_lane 1 c1) (spec_lane 1 c2)),
          (E a2 (spec_lane 2 c1) (spec_lane 2 c2)),
          (E a3 (spec_lane 3 c1) (spec_lane 3 c2)).
  reflexivity.
Qed.

Lemma fold_add_chunk_perm (cs cs' : list (list byte)) :
  Permutation cs cs' ->
  forall acc, fold_left spec_add_chunk cs acc = fold_left spec_add_chunk cs' acc.
Proof.
  induction 1 as [| c l l' _ IH | c1 c2 l | l l' l'' _ IH1 _ IH2]; intros acc.
  - reflexivity.
  - cbn [fold_left]. apply IH.
  - cbn [fold_left]. rewrite spec_add_chunk_comm. reflexivity.
  - rewrite IH1. apply IH2.
Qed.

(** X5. With vector support the fingerprint does not see the order of
    the full 32-byte chunks: any rearrangement of the chunks of a
    buffer, the trailing bytes staying in place, has the same
    fingerprint. *)
Theorem checksum_blind_to_chunk_order (cs cs' : list (list byte))
    (tail : list byte) :
  Permutation cs cs' ->
  Forall (fun c => List.length c = 32%nat) cs ->
  (List.length tail < 32)%nat ->
  checksum_hex true (concat cs ++ tail) = checksum_hex true (concat cs' ++ tail).
Proof.
  intros Hperm Hcs Htail.
  assert (Hcs' : Forall (fun c => List.length c = 32%nat) cs').
  { exact (Permutation_Forall Hperm Hcs). }
  destruct (spec_chunks_concat cs tail Hcs Htail) as [Hc Hr].
  destruct (spec_chunks_concat cs' tail Hcs' Htail) as [Hc' Hr'].
  rewrite !checksum_hex_spec. unfold spec_fingerprint, spec_hash, spec_accumulate.
  rewrite Hc, Hr, Hc', Hr'.
  rewrite (fold_add_chunk_perm cs cs' Hperm). reflexivity.
Qed.

Lemma hex_digit_value_digit (d : Z) :
  0 <= d < 16 -> hex_digit_value (hex_digit d) = d.
Proof.
  intros Hd.
  assert (H : d = 0 \/ d = 1 \/ d = 2 \/ d = 3 \/ d = 4 \/ d = 5 \/ d = 6
              \/ d = 7 \/ d = 8 \/ d = 9 \/ d = 10 \/ d = 11 \/ d = 12
              \/ d = 13 \/ d = 14 \/ d = 15) by lia.
  repeat (destruct H as [-> | H]; [reflexivity |]).
  subst d. reflexivity.
Qed.

Lemma digits_fixed_rev_value (k : nat) :
  forall v : Z,
    0 <= v ->
    fold_right (fun c acc => acc * 16 + hex_digit_value c) 0
               (digits_fixed_rev k v)
    = v mod 16 ^ Z.of_nat k.
Proof.
  induction k as [|k IH]; intros v Hv.
  - cbn. rewrite Z.mod_1_r. reflexivity.
  - cbn [digits_fixed_rev fold_right].
    rewrite IH by (apply Z.div_pos; lia).
    rewrite hex_digit_value_digit by (apply Z.mod_pos_bound; lia).
    rewrite Nat2Z.inj_succ, Z.pow_succ_r by lia.
    rewrite Z.rem_mul_r by lia. lia.
Qed.

(** X6. The fingerprint string can be read back: the sixteen digits
    denote the 64-bit hash, so two buffers have the same fingerprint
    only if they have the same hash. *)
Theorem fingerprint_reads_back (x86_64 : bool) (bytes : list byte) :
  hex_value (checksum_hex x86_64 bytes) = checksum_hash x86_64 bytes /\
  forall bytes' : list byte,
    checksum_hex x86_64 bytes = checksum_hex x86_64 bytes' ->
    checksum_hash x86_64 bytes = checksum_hash x86_64 bytes'.
Proof.
  assert (Hval : forall b, hex_value (checksum_hex x86_64 b)
                           = checksum_hash x86_64 b).
  { intros b.
    pose proof (spec_hash_range x86_64 b) as Hr.
    rewrite <- checksum_hash_spec in Hr.
    unfold hex_value, checksum_hex.
    rewrite snprintf_016llx_fixed by exact Hr.
    rewrite firstn_all2
      by (rewrite length_rev, length_digits_fixed_rev; apply Nat.le_refl).
    rewrite list_ascii_of_string_of_list_ascii.
    rewrite <- fold_left_rev_right, rev_involutive.
    rewrite digits_fixed_rev_value by lia.
    apply Z.mod_small. change (16 ^ Z.of_nat 16) with (2 ^ 64). exact Hr. }
  split; [apply Hval |].
  intros bytes' Heq. rewrite <- (Hval bytes), <- (Hval bytes'), Heq.
  reflexivity.
Qed.

Lemma spec_lane_middle (p x q : list byte) (j : nat) :
  List.length p = (8 * j)%nat ->
  List.length x = 8%nat ->
  spec_lane j (p ++ x ++ q) = spec_le_word x.
Proof.
  intros Hp Hx. unfold spec_lane. rewrite <- Hp, <- Hx.
  rewrite skipn_app, skipn_all, Nat.sub_diag, skipn_O. cbn [app].
  rewrite firstn_app, firstn_all, Nat.sub_diag, firstn_O, app_nil_r.
  reflexivity.
Qed.

Lemma lanes_of_32 (b0 b1 b2 b3 : list byte) :
  List.length b0 = 8%nat -> List.length b1 = 8%nat ->
  List.length b2 = 8%nat -> List.length b3 = 8%nat ->
  spec_accumulate (b0 ++ b1 ++ b2 ++ b3)
  = (spec_le_word b0, spec_le_word b1, spec_le_word b2, spec_le_word b3) /\
  spec_remainder (b0 ++ b1 ++ b2 ++ b3) = [].
Proof.
  intros H0 H1 H2 H3.
  assert (Hlen : List.length (b0 ++ b1 ++ b2 ++ b3) = 32%nat)
    by (rewrite !length_app; lia).
  destruct (spec_chunks_concat [b0 ++ b1 ++ b2 ++ b3] [])
    as [Hc Hr].
  { constructor; [exact Hlen | constructor]. }
  { cbn. lia. }
  cbn [concat] in Hc, Hr. rewrite !app_nil_r in Hc, Hr.
  split; [| exact Hr].
  unfold spec_accumulate. rewrite Hc. cbn [fold_left spec_add_chunk].
  assert (Hw : forall bs, List.length bs = 8%nat ->
                          spec_le_word bs mod 2 ^ 64 = spec_le_word bs).
  { intros bs Hbs. apply Z.mod_small.
    pose proof (spec_le_word_range bs) as Hr'. rewrite Hbs in Hr'. exact Hr'. }
  pose proof (spec_lane_middle [] b0 (b1 ++ b2 ++ b3) 0 eq_refl H0) as L0.
  pose proof (spec_lane_middle b0 b1 (b2 ++ b3) 1 H0 H1) as L1.
  assert (L2 : spec_lane 2 ((b0 ++ b1) ++ b2 ++ b3) = spec_le_word b2).
  { apply spec_lane_middle; [rewrite length_app; lia | exact H2]. }
  assert (L3 : spec_lane 3 ((b0 ++ b1 ++ b2) ++ b3 ++ []) = spec_le_word b3).
  { apply spec_lane_middle; [rewrite !length_app; lia | exact H3]. }
  cbn [app] in L0. rewrite <- app_assoc in L2.
  rewrite app_nil_r, <- !app_assoc in L3.
  rewrite L0, L1, L2, L3.
  rewrite !Z.add_0_l, !Hw by assumption. reflexivity.
Qed.

(** X7. With vector support a 32-byte buffer made of two 8-byte words,
    each written twice, has the fingerprint of the empty buffer: the
    exclusive-or of the lanes cancels. *)
Theorem checksum_doubled_words_cancel (u v : list byte) :
  List.length u = 8%nat ->
  List.length v = 8%nat ->
  checksum_hash true (u ++ u ++ v ++ v) = 0 /\
  checksum_hex true (u ++ u ++ v ++ v) = checksum_hex true [].
Proof.
  intros Hu Hv.
  destruct (lanes_of_32 u u v v Hu Hu Hv Hv) as [Hacc Hrem].
  assert (Hhash : checksum_hash true (u ++ u ++ v ++ v) = 0).
  { rewrite checksum_hash_spec. unfold spec_hash. rewrite Hacc, Hrem.
    cbn [spec_xor_fold spec_scalar_fold fold_left].
    rewrite Z.lxor_nilpotent, Z.lxor_0_l. apply Z.lxor_nilpotent. }
  split; [exact Hhash |].
  unfold checksum_hex. rewrite Hhash. reflexivity.
Qed.

(** * Further properties of FastReadFile *)

(** Symbolic execution: every definition of the run is unfolded and every
    test it meets is split. *)
Ltac unfold_run :=
  unfold FastReadFile, map_win32, map_posix, GetFileStats, bind, lift, ret,
    napi_throw_error, napi_create_buffer, napi_create_external_buffer,
    call_finalizer, UnmapCallback,
    napi_create_object, napi_create_int64, napi_set_named_property, NAPI_CALL,
    sys_open, sys_close, sys_stat, sys_mmap, sys_munmap, sys_get_osfhandle,
    sys_CreateFileMapping, sys_MapViewOfFile, sys_CloseHandle,
    sys_UnmapViewOfFile, sys_malloc, store_info, sys_free,
    GetAllocationGranularity, option_map.

Ltac world_cbn :=
  cbn [trace maps heap fds fs napi_pending next_ptr mapping_objects
       log set_fds set_maps set_heap set_mapping_objects set_napi_pending
       mapped_addr mapped_len fst snd] in *.

Ltac split_run :=
  repeat first
    [ progress world_cbn
    | rewrite lookup_insert_eq
    | match goal with
      | |- context [match ?x with _ => _ end] =>
          lazymatch x with
          | context [match _ with _ => _ end] => fail
          | _ => destruct x eqn:?
          end
      end ].

(** Tests on constants that the split cannot have taken. *)
Ltac absurd_split :=
  match goal with
  | H : (-1 <? 0) = false |- _ => discriminate H
  | H : (Z.pos _ =? 0) = true |- _ => discriminate H
  end.

(** X8. When the open fails (the file does not exist, or the host
    refuses it) the call throws "Failed to open file" whatever the offset
    and the length are; the open is the only call made, nothing is
    closed, mapped or allocated, and the tables of the process are as
    before. *)
Theorem open_failure_only_opens (h : Host) (w : World) (path : string)
    (offset length : Z) :
  fs w !! path = None \/ host_open h path < 0 ->
  FastReadFile h path offset length w
  = (Thrown "Failed to open file", log (EvOpen path (-1)) w) /\
  error_kind "Failed to open file" = Some FileOpenError.
Proof.
  intros Hfail. split; [| reflexivity].
  assert (Hfd : fst (sys_open h path w) < 0).
  { unfold sys_open. cbn [fst].
    destruct (fs w !! path) as [f|]; [| lia].
    destruct Hfail as [Hc | Hneg]; [discriminate |].
    destruct (Z.ltb_spec (host_open h path) 0); lia. }
  unfold FastReadFile. rewrite bind_lift.
  rewrite sys_open_failed by exact Hfd. reflexivity.
Qed.

(** After any run the descriptor is gone from the table of open
    descriptors, and so is the mapping object from the table of handles:
    the tables are those of before, less the numbers the host handed
    out. *)
Lemma FastReadFile_tables (h : Host) (w : World) (path : string)
    (offset length : Z) :
  let fd := fst (sys_open h path w) in
  let w' := snd (FastReadFile h path offset length w) in
  fs w' = fs w /\
  fds w' = (if fd <? 0 then fds w else delete fd (fds w)) /\
  (mapping_objects w' = mapping_objects w \/
   exists mh, host_create_mapping h path = Some mh /\
              mapping_objects w' = delete mh (mapping_objects w)).
Proof.
  cbv zeta. unfold_run. split_run; try absurd_split.
  all: rewrite ?delete_insert_eq.
  all: split; [reflexivity |]; split; [reflexivity |].
  all: first [ left; reflexivity
             | right; eexists; split; reflexivity ].
Qed.

(** X9. No descriptor and no mapping handle outlives the call: when the
    host hands out numbers that are not in use, the table of open
    descriptors, the table of mapping objects and the file system are
    after the call what they were before it, whether the call returned a
    view, threw a mapping error or failed in an N-API constructor. *)
Theorem no_descriptor_outlives_call (h : Host) (w : World) (path : string)
    (offset length : Z) :
  fds w !! host_open h path = None ->
  (forall mh, host_create_mapping h path = Some mh ->
              mapping_objects w !! mh = None) ->
  let w' := snd (FastReadFile h path offset length w) in
  fds w' = fds w /\ mapping_objects w' = mapping_objects w /\ fs w' = fs w.
Proof.
  intros Hfd Hmh w'.
  destruct (FastReadFile_tables h w path offset length) as (Hfs & Hfds & Hmo).
  fold w' in Hfs, Hfds, Hmo.
  split; [| split; [| exact Hfs]].
  - rewrite Hfds.
    destruct (Z.ltb_spec (fst (sys_open h path w)) 0) as [_ | Hge];
      [reflexivity |].
    rewrite sys_open_ok by exact Hge. cbn [fst].
    apply delete_id. exact Hfd.
  - destruct Hmo as [Hmo | (mh & Hcm & Hmo)]; [exact Hmo |].
    rewrite Hmo. apply delete_id. apply Hmh. exact Hcm.
Qed.

(** Once the region is mapped, the outcome is that of the buffer
    constructor. *)
Lemma FastReadFile_mapped_outcome (h : Host) (w : World) (path : string)
    (offset length a : Z) :
  let g := to_uint64 (host_granularity h) in
  0 <= fst (sys_open h path w) ->
  length <> 0 ->
  mapping_granted h path (aligned_offset_of g offset)
                  (map_length_of g offset length) = Some a ->
  fst (FastReadFile h path offset length w)
  = match napi_pending w with
    | Some msg :: _ => Thrown msg
    | _ => Returned (JsExternalBuffer (a + padding_of g offset)
                                      (to_uint64 length) UnmapCallback_fn
                                      (Z.pos (next_ptr w)))
    end.
Proof.
  cbv zeta. intros Hfd Hlen Hgr. revert Hfd Hgr.
  unfold mapping_granted, win32_offset.
  destruct (Z.eqb_spec length 0) as [Hz | _]; [contradiction |].
  unfold_run. split_run; try absurd_split; intros Hfd Hgr;
    try discriminate; try lia.
  all: try (injection Hgr as <-); reflexivity.
Qed.

(** X10. When the region has been mapped but the runtime does not make
    the external buffer, the call throws the failure of the constructor
    and returns no view, and nothing stays behind: the runtime has run
    the finalizer inside the failing call, so after the close and the
    allocation of the record the region is unmapped with its true base
    and length and the record is freed; no mapping of the call is left
    and the heap is what it was. *)
Theorem refused_buffer_releases_mapping (h : Host) (w : World) (path : string)
    (offset length a : Z) (msg : string) (rest : list (option string)) :
  let g := to_uint64 (host_granularity h) in
  let map_length := map_length_of g offset length in
  0 <= fst (sys_open h path w) ->
  length <> 0 ->
  mapping_granted h path (aligned_offset_of g offset) map_length = Some a ->
  napi_pending w = Some msg :: rest ->
  heap w !! Z.pos (next_ptr w) = None ->
  let fd := fst (sys_open h path w) in
  let hint := Z.pos (next_ptr w) in
  let r := fst (FastReadFile h path offset length w) in
  let w' := snd (FastReadFile h path offset length w) in
  r = Thrown msg /\
  (exists evs : list Event,
     new_events w w' = EvOpen path fd :: EvQueryGranularity
                         :: evs ++ [EvClose fd; EvMalloc hint;
                                    unmap_event h a map_length; EvFree hint]) /\
  maps w' = List.filter (survives_unmap h a map_length) (maps w) /\
  heap w' = heap w /\
  fds w' !! fd = None.
Proof.
  intros g map_length Hfd Hlen Hgr Hnapi Hfresh fd hint r w'.
  assert (Hr : r = Thrown msg).
  { unfold r. rewrite (FastReadFile_mapped_outcome h w path offset length a)
      by assumption.
    rewrite Hnapi. reflexivity. }
  split; [exact Hr |].
  destruct (FastReadFile_runs h w path offset length)
    as [(Hc & _) | [(_ & Hz & _) | [(_ & _ & Hno & _)
       | (_ & _ & a' & evs & Hgr' & _ & _ & _ & Hfds & _ & Hcases)]]];
    try (fold fd in Hc; lia); try contradiction.
  - fold g in Hno. fold map_length in Hno. congruence.
  - cbv zeta in Hgr', Hcases.
    fold g in Hgr', Hcases. fold map_length in Hgr', Hcases.
    fold r in Hcases. fold w' in Hcases, Hfds. fold fd in Hcases, Hfds.
    fold hint in Hcases.
    assert (a' = a) by congruence. subst a'.
    destruct Hcases as [(Hret & _) | (msg' & _ & _ & Hev & Hmaps & Hheap)];
      [rewrite Hr in Hret; discriminate Hret |].
    split; [exists evs; exact Hev |].
    split; [exact Hmaps |].
    split; [rewrite Hheap; apply delete_id; exact Hfresh | exact Hfds].
Qed.

Lemma filter_survivors (h : Host) (a len : Z) (l : list Mapping) :
  forallb (survives_unmap h a len) l = true ->
  List.filter (survives_unmap h a len) l = l.
Proof.
  induction l as [|m l IH]; [reflexivity |].
  cbn [forallb List.filter]. intros Hall.
  apply andb_prop in Hall. destruct Hall as [Hm Hl].
  rewrite Hm, IH by exact Hl. reflexivity.
Qed.

(** X11. Reading and releasing leaves nothing behind: after
    [FastReadFile] has returned a value and its finalizer has run, the
    address space, the heap, the table of descriptors and the file system
    are what they were before the read. The host is supposed to hand out
    a descriptor and a pointer that are not in use and to place the
    region where no live mapping would be taken along by the unmap. *)
Theorem read_release_restores_resources (h : Host) (w w' : World)
    (path : string) (offset length : Z) (v : napi_value) :
  let g := to_uint64 (host_granularity h) in
  let map_length := map_length_of g offset length in
  FastReadFile h path offset length w = (Returned v, w') ->
  fds w !! host_open h path = None ->
  heap w !! Z.pos (next_ptr w) = None ->
  (forall a, mapping_granted h path (aligned_offset_of g offset) map_length
             = Some a ->
             forallb (survives_unmap h a map_length) (maps w) = true) ->
  exists w'' : World,
    run_finalizer h v w' = Some w'' /\
    maps w'' = maps w /\ heap w'' = heap w /\ fds w'' = fds w /\ fs w'' = fs w.
Proof.
  intros g map_length Hrun Hfd Hheap0 Hfree.
  destruct (FastReadFile_tables h w path offset length) as (Hfs & Hfds & _).
  assert (Hfds' : fds w' = fds w).
  { rewrite Hrun in Hfds. cbn [snd] in Hfds. rewrite Hfds.
    destruct (Z.ltb_spec (fst (sys_open h path w)) 0) as [_ | Hge];
      [reflexivity |].
    rewrite sys_open_ok by exact Hge. cbn [fst]. apply delete_id. exact Hfd. }
  rewrite Hrun in Hfs. cbn [snd] in Hfs.
  destruct (FastReadFile_runs h w path offset length)
    as [(_ & Hr & _) | [(_ & _ & _ & Hm & Hh & _ & _ & Hinv)
       | [(_ & _ & _ & msg & evs & Hr & _)
       | (_ & _ & a & evs & Hgr & _ & _ & _ & _ & _
          & [(Hret & _ & Hmaps & Hheap) | (msg & Hthrown & _)])]]];
    rewrite Hrun in *; cbn [fst snd] in *; try discriminate.
  - rewrite (Hinv v eq_refl). exists w'. cbn [run_finalizer].
    repeat split; assumption.
  - injection Hret as ->. fold g in Hgr, Hmaps, Hheap.
    fold map_length in Hgr, Hmaps, Hheap.
    specialize (Hfree a Hgr).
    cbn [run_finalizer]. unfold UnmapCallback. cbn [Z.eqb].
    rewrite Hheap, lookup_insert_eq. cbn [mapped_addr mapped_len].
    eexists. split; [reflexivity |].
    assert (Hregion : survives_unmap h a map_length
                        (Build_Mapping a map_length path
                           (requested_offset h (aligned_offset_of g offset)))
                      = false).
    { unfold survives_unmap. cbn [m_addr m_len].
      destruct (host_win32 h);
        rewrite ?Z.eqb_refl, ?Z.leb_refl; reflexivity. }
    pose proof (filter_survivors h a map_length (maps w) Hfree) as Hkeep.
    unfold survives_unmap in Hkeep, Hregion. cbn [m_addr m_len] in Hregion.
    destruct (host_win32 h).
    + unfold sys_UnmapViewOfFile. wsimpl. rewrite Hmaps, Hheap.
      cbn [List.filter m_addr]. rewrite Hregion, Hkeep.
      repeat split; try assumption.
      apply delete_insert_id. exact Hheap0.
    + unfold sys_munmap. wsimpl. rewrite Hmaps, Hheap.
      cbn [List.filter m_addr m_len]. rewrite Hregion, Hkeep.
      repeat split; try assumption.
      apply delete_insert_id. exact Hheap0.
Qed.

(** X12. The release callback must run once only: after the finalizer
    of a returned view has run, its bookkeeping record is freed, and a
    second run on the same view reads the freed record. *)
Theorem release_not_idempotent (h : Host) (w w' w'' : World) (path : string)
    (offset length data len hint : Z) (fin : napi_finalize) :
  FastReadFile h path offset length w
    = (Returned (JsExternalBuffer data len fin hint), w') ->
  run_finalizer h (JsExternalBuffer data len fin hint) w' = Some w'' ->
  heap w'' !! hint = None /\
  run_finalizer h (JsExternalBuffer data len fin hint) w'' = None.
Proof.
  intros Hrun Hfin.
  destruct (FastReadFile_runs h w path offset length)
    as [(_ & Hr & _) | [(_ & _ & _ & _ & _ & _ & _ & Hinv)
       | [(_ & _ & _ & msg & evs & Hr & _)
       | (_ & _ & a & evs & _ & _ & _ & _ & _ & _
          & [(Hret & _ & _ & Hheap) | (msg & Hthrown & _)])]]];
    rewrite Hrun in *; cbn [fst snd] in *; try discriminate.
  - specialize (Hinv _ eq_refl). discriminate.
  - injection Hret as -> -> -> ->.
    cbn [run_finalizer] in *. unfold UnmapCallback in *. cbn [Z.eqb] in *.
    rewrite Hheap, lookup_insert_eq in Hfin.
    injection Hfin as <-.
    match goal with
    | |- ?m !! _ = None /\ _ =>
        assert (Hgone : m !! Z.pos (next_ptr w) = None)
          by (destruct (host_win32 h); cbn [sys_free snd heap log set_heap];
              apply lookup_delete_eq)
    end.
    split; [exact Hgone |]. rewrite Hgone. reflexivity.
Qed.

Lemma aligned_offset_negative (g offset : Z) :
  0 < g ->
  INT64_MIN + g <= offset < 0 ->
  aligned_offset_of g offset < 0.
Proof.
  unfold INT64_MIN. intros Hg Hoff.
  unfold aligned_offset_of, uint64_mul, to_uint64, to_int64, UINT64_MOD.
  assert (Hu : offset mod 2 ^ 64 = 2 ^ 64 + offset).
  { rewrite <- (Z.mod_add offset 1 (2 ^ 64)) by lia.
    rewrite Z.mod_small by lia. lia. }
  rewrite Hu.
  pose proof (Z.mul_div_le (2 ^ 64 + offset) g Hg) as Hle.
  pose proof (Z.mul_succ_div_gt (2 ^ 64 + offset) g Hg) as Hgt.
  rewrite (Z.mod_small ((2 ^ 64 + offset) / g * g)) by nia.
  rewrite <- (Z.mod_add _ (-1) (2 ^ 64)) by lia.
  rewrite Z.mod_small by nia. lia.
Qed.

(** X13. On POSIX a negative offset (with a length other than 0) always
    ends in a mapping error: the aligned offset handed to [mmap] is
    negative and is refused, the descriptor is closed and nothing is
    mapped. *)
Theorem negative_offset_fails_on_posix (h : Host) (w : World) (path : string)
    (offset length : Z) :
  host_win32 h = false ->
  0 < host_granularity h < 2 ^ 64 ->
  INT64_MIN + host_granularity h <= offset < 0 ->
  length <> 0 ->
  0 <= fst (sys_open h path w) ->
  let fd := fst (sys_open h path w) in
  let r := fst (FastReadFile h path offset length w) in
  let w' := snd (FastReadFile h path offset length w) in
  aligned_offset_of (to_uint64 (host_granularity h)) offset < 0 /\
  (exists msg, r = Thrown msg /\ error_kind msg = Some MappingError) /\
  fds w' !! fd = None /\
  maps w' = maps w /\
  heap w' = heap w.
Proof.
  intros Hposix Hg Hoff Hlen Hfd fd r w'.
  assert (Hgg : to_uint64 (host_granularity h) = host_granularity h)
    by (apply to_uint64_small; lia).
  assert (Hneg : aligned_offset_of (to_uint64 (host_granularity h)) offset < 0).
  { rewrite Hgg. apply aligned_offset_negative; lia. }
  split; [exact Hneg |].
  assert (Hno : mapping_granted h path
                  (aligned_offset_of (to_uint64 (host_granularity h)) offset)
                  (map_length_of (to_uint64 (host_granularity h)) offset length)
                = None).
  { unfold mapping_granted. rewrite Hposix.
    destruct (Z.ltb_spec
                (aligned_offset_of (to_uint64 (host_granularity h)) offset) 0)
      as [_ | Hc]; [| lia].
    rewrite orb_true_r. reflexivity. }
  destruct (FastReadFile_runs h w path offset length)
    as [(Hc & _) | [(_ & Hz & _)
       | [(_ & _ & _ & msg & evs & Hr & Hk & _ & _ & _ & Hm & Hh & Hc)
       | (_ & _ & a & evs & Hgr & _)]]]; try lia.
  - split; [exists msg; split; assumption |].
    repeat split; assumption.
  - cbv zeta in Hgr. congruence.
Qed.

(** X14. A negative length is not refused by the addon, and when it is
    smaller in size than the padding the mapping is shorter than the
    padding: for [-padding < length < 0] only [length + padding] bytes
    are mapped, while the runtime is asked for an external buffer of
    [2^64 + length] bytes, more than [INT64_MAX], that starts [padding]
    bytes into the mapping, past its end. So the one value the call can
    return is a buffer of that length; and when the runtime refuses it,
    the short region is unmapped and the record freed inside the call. *)
Theorem negative_length_maps_short_region (h : Host) (w : World)
    (path : string) (offset length a : Z) :
  let g := to_uint64 (host_granularity h) in
  let padding := padding_of g offset in
  let map_length := map_length_of g offset length in
  0 < host_granularity h < 2 ^ 64 ->
  0 <= offset <= INT64_MAX ->
  - padding < length < 0 ->
  0 <= fst (sys_open h path w) ->
  mapping_granted h path (aligned_offset_of g offset) map_length = Some a ->
  let fd := fst (sys_open h path w) in
  let hint := Z.pos (next_ptr w) in
  let r := fst (FastReadFile h path offset length w) in
  let w' := snd (FastReadFile h path offset length w) in
  map_length = length + padding /\
  0 < map_length < padding /\
  INT64_MAX < 2 ^ 64 + length /\
  a + map_length < a + padding /\
  (forall v : napi_value,
     r = Returned v ->
     v = JsExternalBuffer (a + padding) (2 ^ 64 + length) UnmapCallback_fn hint) /\
  (forall msg : string,
     r = Thrown msg ->
     (exists evs : list Event,
        new_events w w'
        = EvOpen path fd :: EvQueryGranularity
            :: evs ++ [EvClose fd; EvMalloc hint;
                       unmap_event h a (length + padding); EvFree hint]) /\
     maps w' = List.filter (survives_unmap h a (length + padding)) (maps w) /\
     heap w' = delete hint (heap w)).
Proof.
  intros g padding map_length Hg Hoff Hlen Hfd Hgr fd hint r w'.
  assert (Hgg : g = host_granularity h) by (apply to_uint64_small; lia).
  destruct (alignment_arith g offset 0) as (_ & Hp & Hpr & _);
    try (unfold INT64_MAX in *; lia).
  fold padding in Hp, Hpr.
  assert (Hpo : padding <= INT64_MAX).
  { pose proof (Z.div_pos offset g ltac:(lia) ltac:(lia)). nia. }
  unfold INT64_MAX in Hpo.
  assert (Hu : to_uint64 length = 2 ^ 64 + length).
  { unfold to_uint64, UINT64_MOD.
    rewrite <- (Z.mod_add length 1 (2 ^ 64)) by lia.
    rewrite Z.mod_small by lia. lia. }
  assert (Hml : map_length = length + padding).
  { unfold map_length, map_length_of, uint64_add. fold padding.
    rewrite Hu. unfold to_uint64, UINT64_MOD.
    rewrite <- (Z.mod_add _ (-1) (2 ^ 64)) by lia.
    rewrite Z.mod_small by lia. lia. }
  split; [exact Hml |].
  split; [lia |].
  split; [unfold INT64_MAX; lia |].
  split; [lia |].
  destruct (FastReadFile_runs h w path offset length)
    as [(Hc & _) | [(_ & Hz & _) | [(_ & _ & Hno & _)
       | (_ & _ & a' & evs & Hgr' & _ & _ & _ & _ & _ & Hcases)]]];
    try (fold fd in Hc; lia); try lia.
  - fold g in Hno. fold map_length in Hno. congruence.
  - cbv zeta in Hgr', Hcases.
    fold g in Hgr', Hcases. fold map_length in Hgr', Hcases.
    fold padding in Hcases. fold r in Hcases. fold w' in Hcases.
    fold fd in Hcases. fold hint in Hcases.
    assert (a' = a) by congruence. subst a'.
    rewrite Hu in Hcases. rewrite Hml in Hcases.
    destruct Hcases as [(Hret & _) | (msg' & Hthrown & _ & Hev & Hmaps & Hheap)].
    + split.
      * intros v Hv. rewrite Hret in Hv. injection Hv as <-. reflexivity.
      * intros msg Hm. rewrite Hret in Hm. discriminate Hm.
    + split.
      * intros v Hv. rewrite Hthrown in Hv. discriminate Hv.
      * intros msg _. split; [exists evs; exact Hev |].
        split; assumption.
Qed.

(** X15. For a non-negative offset and a positive length a returned
    view lies inside its mapping: it starts less than one granule after
    the base of the mapping, has the requested length, and ends exactly
    where the mapping ends. *)
Theorem valid_view_inside_mapping (h : Host) (w w' : World) (path : string)
    (offset length data len hint : Z) (fin : napi_finalize) :
  0 < host_granularity h < 2 ^ 64 ->
  0 <= offset <= INT64_MAX ->
  0 < length <= INT64_MAX ->
  FastReadFile h path offset length w
    = (Returned (JsExternalBuffer data len fin hint), w') ->
  exists region,
    maps w' = region :: maps w /\
    len = length /\
    m_addr region <= data < m_addr region + host_granularity h /\
    data + len = m_addr region + m_len region.
Proof.
  intros Hg Hoff Hlen Hrun.
  set (g := to_uint64 (host_granularity h)).
  assert (Hgg : g = host_granularity h) by (apply to_uint64_small; lia).
  destruct (alignment_arith g offset length) as (_ & _ & Hpr & Hml); try lia.
  destruct (FastReadFile_runs h w path offset length)
    as [(_ & Hr & _) | [(_ & _ & _ & _ & _ & _ & _ & Hinv)
       | [(_ & _ & _ & msg & evs & Hr & _)
       | (_ & _ & a & evs & _ & _ & _ & _ & _ & _
          & [(Hret & _ & Hmaps & _) | (msg & Hthrown & _)])]]];
    rewrite Hrun in *; cbn [fst snd] in *; try discriminate.
  - specialize (Hinv _ eq_refl). discriminate.
  - injection Hret as -> -> -> ->.
    fold g in Hmaps |- *.
    eexists. split; [exact Hmaps |]. cbn [m_addr m_len].
    unfold INT64_MAX in *.
    rewrite to_uint64_small by lia. rewrite Hml.
    repeat split; lia.
Qed.


(** ** Further properties of GetFileStats and of the entry points together *)

(** X16. [GetFileStats] touches nothing: whatever its outcome (a
    record, a failed [stat], a failed N-API constructor), the [stat]
    call is the only call it makes, and descriptors, mapping objects,
    mappings, heap and files are as before. *)
Theorem GetFileStats_only_stats (h : Host) (w : World) (path : string) :
  let w' := snd (GetFileStats h path w) in
  (exists ok : bool, new_events w w' = [EvStat path ok]) /\
  fds w' = fds w /\ mapping_objects w' = mapping_objects w /\
  maps w' = maps w /\ heap w' = heap w /\ fs w' = fs w.
Proof.
  cbv zeta. unfold_run. split_run.
  all: split; [eexists; apply new_events_app; reflexivity |].
  all: repeat split; reflexivity.
Qed.

(** Whatever the host did to grant it, a view returned for a range
    inside the file shows the bytes of that range. *)
Lemma returned_view_bytes (h : Host) (w w' : World) (path : string) (f : File)
    (offset length data len hint : Z) (fin : napi_finalize) :
  fs w !! path = Some f ->
  Z.of_nat (List.length (f_bytes f)) <= INT64_MAX ->
  0 < host_granularity h < 2 ^ 64 ->
  0 <= offset ->
  0 < length ->
  offset + length <= Z.of_nat (List.length (f_bytes f)) ->
  FastReadFile h path offset length w
    = (Returned (JsExternalBuffer data len fin hint), w') ->
  len = length /\
  load_bytes w' data (Z.to_nat length)
    = Some (firstn (Z.to_nat length) (skipn (Z.to_nat offset) (f_bytes f))).
Proof.
  intros Hfs Hsize Hg Hoff Hlen Hin Hrun.
  set (g := to_uint64 (host_granularity h)).
  assert (Hgg : g = host_granularity h) by (apply to_uint64_small; lia).
  unfold INT64_MAX in Hsize.
  destruct (alignment_arith g offset length) as (Ha & Hp & Hpr & Hml);
    try (unfold INT64_MAX; lia).
  pose proof (Z.mul_div_le offset g ltac:(lia)) as Hle.
  pose proof (Z.div_pos offset g ltac:(lia) ltac:(lia)) as Hq.
  assert (Hao : 0 <= aligned_offset_of g offset < 2 ^ 63) by (rewrite Ha; nia).
  assert (Hro : requested_offset h (aligned_offset_of g offset)
                = aligned_offset_of g offset).
  { unfold requested_offset. destruct (host_win32 h); [| reflexivity].
    apply win32_offset_id. exact Hao. }
  destruct (FastReadFile_runs h w path offset length)
    as [(_ & Hr & _) | [(_ & Hz & _) | [(_ & _ & _ & msg & evs & Hr & _)
       | (_ & _ & a & evs & _ & _ & _ & Hfs' & _ & _ & Hcases)]]].
  - rewrite Hrun in Hr. discriminate Hr.
  - lia.
  - rewrite Hrun in Hr. discriminate Hr.
  - cbv zeta in Hcases. fold g in Hcases.
    rewrite Hrun in Hcases, Hfs'. cbn [fst snd] in Hcases, Hfs'.
    destruct Hcases as [(Hret & _ & Hmaps & _) | (msg & Hthrown & _)];
      [| discriminate Hthrown].
    injection Hret as Hdata Hlen' _ _.
    rewrite to_uint64_small in Hlen' by lia.
    rewrite Hro in Hmaps.
    split; [exact Hlen' |].
    rewrite Hdata.
    rewrite (load_bytes_mapping w' a (map_length_of g offset length)
               (aligned_offset_of g offset) path (maps w) f Hmaps); try lia.
    + replace (aligned_offset_of g offset + padding_of g offset) with offset
        by lia.
      reflexivity.
    + rewrite Hfs'. exact Hfs.
Qed.

(** X17. The size [GetFileStats] reports is the length of a read of
    the whole file: a [FastReadFile] at offset 0 with that length, made
    after the [stat], returns the empty buffer for an empty file and
    otherwise a view of [size] bytes that shows every byte of the file. *)
Theorem stat_then_read_whole_file (h : Host) (w w1 w2 : World) (path : string)
    (f : File) (size mtime : Z) (v : napi_value) :
  fs w !! path = Some f ->
  Z.of_nat (List.length (f_bytes f)) <= INT64_MAX ->
  0 < host_granularity h < 2 ^ 64 ->
  GetFileStats h path w
    = (Returned (JsObject [("size"%string, JsInt64 size);
                           ("mtime"%string, JsInt64 mtime)]), w1) ->
  FastReadFile h path 0 size w1 = (Returned v, w2) ->
  size = Z.of_nat (List.length (f_bytes f)) /\
  match v with
  | JsBuffer n => n = 0 /\ f_bytes f = []
  | JsExternalBuffer data len _ _ =>
      len = size /\ load_bytes w2 data (Z.to_nat len) = Some (f_bytes f)
  | _ => False
  end.
Proof.
  intros Hfs Hsize Hg Hstat Hread.
  assert (Hs : size = to_int64 (Z.of_nat (List.length (f_bytes f)))
               /\ fs w1 = fs w).
  { revert Hstat. unfold_run. rewrite Hfs. split_run.
    all: intros Hstat; try discriminate Hstat.
    all: injection Hstat; intros; subst size w1.
    all: split; reflexivity. }
  destruct Hs as [Hs Hfs1].
  unfold INT64_MAX in Hsize.
  rewrite to_int64_small in Hs by lia.
  split; [exact Hs |].
  assert (Hfs1' : fs w1 !! path = Some f) by (rewrite Hfs1; exact Hfs).
  destruct (FastReadFile_runs h w1 path 0 size)
    as [(_ & Hr & _) | [(_ & Hz & _ & _ & _ & _ & _ & Hret)
       | [(_ & _ & _ & msg & evs & Hr & _)
       | (_ & Hnz & a & evs & _ & _ & _ & _ & _ & _ & Hcases)]]].
  - rewrite Hread in Hr. discriminate Hr.
  - rewrite Hread in Hret. cbn [fst] in Hret.
    rewrite (Hret _ eq_refl). split; [reflexivity |].
    destruct (f_bytes f); [reflexivity |]. cbn [List.length] in Hs. lia.
  - rewrite Hread in Hr. discriminate Hr.
  - cbv zeta in Hcases. rewrite Hread in Hcases. cbn [fst] in Hcases.
    destruct Hcases as [(Hret & _) | (msg & Hthrown & _)];
      [| discriminate Hthrown].
    injection Hret as Hv. subst v.
    destruct (returned_view_bytes h w1 w2 path f 0 size _ _ _ _ Hfs1'
                ltac:(unfold INT64_MAX; lia) Hg ltac:(lia) ltac:(lia)
                ltac:(lia) Hread) as [Hlen Hload].
    split; [exact Hlen |].
    rewrite Hlen, Hload.
    change (Z.to_nat 0) with 0%nat. rewrite skipn_O.
    rewrite firstn_all2 by lia. reflexivity.
Qed.

(** X18. Reads agree with each other: the bytes shown by a view of
    [l1] bytes at [offset] followed by those of a view of [l2] bytes at
    [offset + l1] are the bytes shown by one view of [l1 + l2] bytes at
    [offset], whatever the padding of each mapping is. *)
Theorem adjacent_reads_concatenate (h : Host) (path : string) (f : File)
    (wa wa' wb wb' wc wc' : World) (offset l1 l2 : Z)
    (va vb vc : Z * Z * napi_finalize * Z) :
  let view (x : Z * Z * napi_finalize * Z) :=
    let '(data, len, fin, hint) := x in JsExternalBuffer data len fin hint in
  let shown (w : World) (x : Z * Z * napi_finalize * Z) :=
    let '(data, len, _, _) := x in load_bytes w data (Z.to_nat len) in
  fs wa !! path = Some f ->
  fs wb !! path = Some f ->
  fs wc !! path = Some f ->
  Z.of_nat (List.length (f_bytes f)) <= INT64_MAX ->
  0 < host_granularity h < 2 ^ 64 ->
  0 <= offset -> 0 < l1 -> 0 < l2 ->
  offset + l1 + l2 <= Z.of_nat (List.length (f_bytes f)) ->
  FastReadFile h path offset l1 wa = (Returned (view va), wa') ->
  FastReadFile h path (offset + l1) l2 wb = (Returned (view vb), wb') ->
  FastReadFile h path offset (l1 + l2) wc = (Returned (view vc), wc') ->
  exists c1 c2 : list byte,
    shown wa' va = Some c1 /\ shown wb' vb = Some c2 /\
    shown wc' vc = Some (c1 ++ c2).
Proof.
  destruct va as [[[d1 n1] fin1] hint1], vb as [[[d2 n2] fin2] hint2],
           vc as [[[d3 n3] fin3] hint3].
  cbv zeta. intros Hfa Hfb Hfc Hsize Hg Hoff Hl1 Hl2 Hin Ha Hb Hc.
  destruct (returned_view_bytes h wa wa' path f offset l1 _ _ _ _ Hfa Hsize Hg
              ltac:(lia) ltac:(lia) ltac:(lia) Ha) as [Hn1 Hc1].
  destruct (returned_view_bytes h wb wb' path f (offset + l1) l2 _ _ _ _ Hfb
              Hsize Hg ltac:(lia) ltac:(lia) ltac:(lia) Hb) as [Hn2 Hc2].
  destruct (returned_view_bytes h wc wc' path f offset (l1 + l2) _ _ _ _ Hfc
              Hsize Hg ltac:(lia) ltac:(lia) ltac:(lia) Hc) as [Hn3 Hc3].
  subst n1 n2 n3. eexists _, _.
  split; [exact Hc1 |]. split; [exact Hc2 |].
  rewrite Hc3. f_equal.
  set (bs := skipn (Z.to_nat offset) (f_bytes f)).
  replace (skipn (Z.to_nat (offset + l1)) (f_bytes f))
    with (skipn (Z.to_nat l1) bs).
  - replace (Z.to_nat (l1 + l2)) with (Z.to_nat l1 + Z.to_nat l2)%nat by lia.
    rewrite <- (firstn_skipn (Z.to_nat l1) bs) at 1.
    rewrite firstn_app.
    assert (Hlen : List.length (firstn (Z.to_nat l1) bs) = Z.to_nat l1).
    { apply firstn_length_le. unfold bs. rewrite length_skipn. lia. }
    rewrite Hlen.
    rewrite firstn_all2 by (rewrite Hlen; lia).
    replace (Z.to_nat l1 + Z.to_nat l2 - Z.to_nat l1)%nat with (Z.to_nat l2)
      by lia.
    reflexivity.
  - unfold bs. rewrite skipn_skipn. f_equal. lia.
Qed.

(** X19. The two entry points together: the checksum of the bytes a
    returned view shows is the fingerprint of the file's bytes in the
    range that was asked for. *)
Theorem checksum_of_view_is_of_file_range (h : Host) (w w' : World)
    (path : string) (f : File) (offset length data len hint : Z)
    (fin : napi_finalize) (shown : list byte) :
  fs w !! path = Some f ->
  Z.of_nat (List.length (f_bytes f)) <= INT64_MAX ->
  0 < host_granularity h < 2 ^ 64 ->
  0 <= offset ->
  0 < length ->
  offset + length <= Z.of_nat (List.length (f_bytes f)) ->
  FastReadFile h path offset length w
    = (Returned (JsExternalBuffer data len fin hint), w') ->
  load_bytes w' data (Z.to_nat len) = Some shown ->
  napi_next_ok w' ->
  fst (SimdChecksum h shown w')
  = Returned (JsString (checksum_hex (host_x86_64 h)
                (firstn (Z.to_nat length)
                        (skipn (Z.to_nat offset) (f_bytes f))))).
Proof.
  intros Hfs Hsize Hg Hoff Hlen Hin Hrun Hshown Hok.
  destruct (returned_view_bytes h w w' path f offset length _ _ _ _ Hfs Hsize Hg
              Hoff Hlen Hin Hrun) as [Hn Hload].
  subst len. rewrite Hload in Hshown. injection Hshown as <-.
  apply SimdChecksum_run. exact Hok.
Qed.

(** ** Further properties: the entry points as registered *)

Ltac unfold_callback :=
  unfold FastReadFile_callback, GetFileStats_callback, FastReadFile_opened,
    napi_get_cb_info, arg, napi_get_value_string_utf8_length,
    napi_get_value_string_utf8, napi_get_value_int64, arguments_decoded;
  unfold_run.

Lemma substring_full (s : string) : substring 0 (String.length s) s = s.
Proof.
  induction s as [|c s IH]; [reflexivity |].
  cbn [String.length substring]. rewrite IH. reflexivity.
Qed.

(** The two embeddings of the body of [FastReadFile] are the same. *)
Lemma FastReadFile_opened_eq (h : Host) (path : string) (offset length : Z) :
  FastReadFile h path offset length
  = (let* fd := lift (sys_open h path) in
     FastReadFile_opened h fd offset length).
Proof. reflexivity. Qed.

(** The statuses of [n] N-API calls that all report [napi_ok]. *)
Lemma all_ok_shape (n : nat) :
  forall p : list (option string),
    forallb (fun s => match s with None => true | Some _ => false end)
            (firstn n p) = true ->
    (exists l, p = repeat None n ++ l) \/
    (exists k, (k < n)%nat /\ p = repeat None k).
Proof.
  induction n as [|n IH]; intros p Hok.
  - left. exists p. reflexivity.
  - destruct p as [|[msg|] p].
    + right. exists 0%nat. split; [lia | reflexivity].
    + discriminate Hok.
    + cbn [firstn forallb andb] in Hok.
      destruct (IH p Hok) as [(l & ->) | (k & Hk & ->)].
      * left. exists l. reflexivity.
      * right. exists (S k). split; [lia | reflexivity].
Qed.

(** A record is its fields. *)
Lemma world_eta (w : World) :
  w = Build_World (fs w) (fds w) (mapping_objects w) (maps w) (heap w)
                  (next_ptr w) (napi_pending w) (trace w).
Proof. destruct w. reflexivity. Qed.

(** An N-API call that reports [napi_ok] uses up one status. *)
Lemma NAPI_CALL_ok {A : Type} (n : nat) (v : A) (w : World) :
  napi_all_ok (S n) w ->
  NAPI_CALL v w = (Returned v, set_napi_pending (skipn 1 (napi_pending w)) w) /\
  napi_all_ok n (set_napi_pending (skipn 1 (napi_pending w)) w).
Proof.
  unfold napi_all_ok, NAPI_CALL, set_napi_pending.
  destruct (napi_pending w) as [|[msg|] rest] eqn:E;
    cbn [firstn forallb andb skipn napi_pending]; intros Hok.
  - split; [| destruct n; reflexivity].
    rewrite <- E. rewrite <- world_eta. reflexivity.
  - discriminate Hok.
  - split; [reflexivity | exact Hok].
Qed.

Lemma all_ok_skipn (n m : nat) :
  forall p : list (option string),
    forallb (fun s => match s with None => true | Some _ => false end)
            (firstn (n + m) p) = true ->
    forallb (fun s => match s with None => true | Some _ => false end)
            (firstn m (skipn n p)) = true.
Proof.
  induction n as [|n IH]; intros p Hok; [exact Hok |].
  destruct p as [|[msg|] p].
  - rewrite firstn_nil. reflexivity.
  - discriminate Hok.
  - cbn [skipn]. apply IH. exact Hok.
Qed.

Lemma napi_all_ok_decoded (n m : nat) (w : World) :
  napi_all_ok (n + m) w -> napi_all_ok m (arguments_decoded n w).
Proof. intros Hok. apply all_ok_skipn. exact Hok. Qed.

Lemma napi_all_ok_fewer (n m : nat) (w : World) :
  napi_all_ok (n + m) w -> napi_all_ok n w.
Proof.
  unfold napi_all_ok. generalize (napi_pending w). clear w.
  induction n as [|n IH]; intros p Hok; [reflexivity |].
  destruct p as [|[msg|] p]; [reflexivity | discriminate Hok |].
  cbn [firstn forallb andb] in *. apply IH. exact Hok.
Qed.

(** The common head of the two callbacks, lines 111-120 and 273-282:
    for a first argument that is a string and three N-API calls that
    succeed, the continuation gets the arguments, the fresh buffer and
    the bytes of the string. *)
Lemma decode_path {B : Type} (argc : nat) (info : list napi_value) (s : string)
    (k : list (option napi_value) -> Z -> string -> M B) (w : World) :
  nth_error info 0 = Some (JsString s) ->
  (0 < argc)%nat ->
  napi_all_ok 3 w ->
  (let* args := napi_get_cb_info argc info in
   let* path_length := napi_get_value_string_utf8_length (arg args 0) in
   let* path := lift sys_malloc in
   let* path_chars :=
     napi_get_value_string_utf8 (arg args 0) (path_length + 1) in
   k args path path_chars) w
  = k (map (nth_error info) (seq 0 argc)) (Z.pos (next_ptr w)) s
      (arguments_decoded 3 w).
Proof.
  intros Hs Hargc Hok3.
  unfold napi_get_cb_info.
  rewrite bind_unfold.
  destruct (NAPI_CALL_ok 2 (map (nth_error info) (seq 0 argc)) w Hok3)
    as [E1 Hok2].
  rewrite E1.
  assert (Harg : arg (map (nth_error info) (seq 0 argc)) 0 = Some (JsString s)).
  { destruct argc as [|argc]; [lia |]. exact Hs. }
  rewrite Harg.
  unfold napi_get_value_string_utf8_length, napi_get_value_string_utf8.
  rewrite bind_unfold.
  destruct (NAPI_CALL_ok 1 (String.length s) _ Hok2) as [E2 Hok1].
  rewrite E2.
  rewrite bind_lift.
  rewrite Nat.add_sub, substring_full.
  match goal with |- context [sys_malloc ?x] => set (w2 := x) in * end.
  assert (Hok1' : napi_all_ok 1 (snd (sys_malloc w2))) by exact Hok1.
  rewrite bind_unfold.
  destruct (NAPI_CALL_ok 0 s _ Hok1') as [E3 _].
  rewrite E3.
  match goal with
  | |- ?f ?wa = ?g ?wb => assert (Hw : wa = wb); [| rewrite Hw]
  end.
  - subst w2. unfold arguments_decoded, sys_malloc, set_napi_pending, set_heap,
      log. cbn [snd fs fds mapping_objects maps heap next_ptr napi_pending trace].
    rewrite !List.skipn_skipn. reflexivity.
  - unfold sys_malloc. cbn [fst].
    subst w2. cbn [next_ptr set_napi_pending]. reflexivity.
Qed.

(** With three arguments of the right types and N-API calls that
    succeed, the callback comes to: open the decoded path, free the
    buffer of the path, go on with the descriptor. *)
Lemma FastReadFile_callback_decode (h : Host) (w : World) (s : string)
    (o l : Z) (rest : list napi_value) :
  napi_all_ok 5 w ->
  FastReadFile_callback h (JsString s :: JsInt64 o :: JsInt64 l :: rest) w
  = (let* fd := lift (sys_open h (c_str s)) in
     let* _ := lift (sys_free (Z.pos (next_ptr w))) in
     FastReadFile_opened h fd o l) (arguments_decoded 5 w).
Proof.
  intros Hok5.
  pose proof (napi_all_ok_fewer 3 2 w Hok5) as Hok3.
  pose proof (napi_all_ok_decoded 3 2 w Hok5) as Hok2.
  unfold FastReadFile_callback.
  rewrite (decode_path 3 (JsString s :: JsInt64 o :: JsInt64 l :: rest) s
             (fun args path path_chars =>
                let* offset := napi_get_value_int64 (arg args 1) in
                let* length := napi_get_value_int64 (arg args 2) in
                let* fd := lift (sys_open h (c_str path_chars)) in
                let* _ := lift (sys_free path) in
                FastReadFile_opened h fd offset length)
             w eq_refl ltac:(lia) Hok3).
  cbn [map seq nth nth_error arg napi_get_value_int64].
  rewrite bind_unfold.
  destruct (NAPI_CALL_ok 1 o _ Hok2) as [E4 Hok1].
  rewrite E4.
  rewrite bind_unfold.
  destruct (NAPI_CALL_ok 0 l _ Hok1) as [E5 _].
  rewrite E5.
  match goal with
  | |- ?f ?wa = ?g ?wb => assert (Hw : wa = wb); [| rewrite Hw; reflexivity]
  end.
  unfold arguments_decoded, sys_malloc, set_napi_pending, set_heap, log.
  cbn [snd fs fds mapping_objects maps heap next_ptr napi_pending trace].
  rewrite !List.skipn_skipn. reflexivity.
Qed.

(** Freeing the buffer of the path between the open and the rest of
    the work changes nothing but the heap cell of the buffer and the
    trace. *)
Lemma free_after_open (h : Host) (path : string) (o l p : Z) (w0 : World) :
  p <> Z.pos (next_ptr w0) ->
  let cb := (let* fd := lift (sys_open h path) in
             let* _ := lift (sys_free p) in
             FastReadFile_opened h fd o l) w0 in
  let core := FastReadFile h path o l w0 in
  fst cb = fst core /\
  maps (snd cb) = maps (snd core) /\
  fds (snd cb) = fds (snd core) /\
  mapping_objects (snd cb) = mapping_objects (snd core) /\
  fs (snd cb) = fs (snd core) /\
  heap (snd cb) = delete p (heap (snd core)) /\
  exists (fd : Z) (evs : list Event),
    trace (snd core) = trace w0 ++ EvOpen path fd :: evs /\
    trace (snd cb) = trace w0 ++ EvOpen path fd :: EvFree p :: evs.
Proof.
  intros Hne. cbv zeta. unfold FastReadFile_opened. unfold_run. split_run.
  all: try absurd_split.
  all: rewrite ?(delete_insert_ne _ _ _ _ Hne), ?delete_insert_eq.
  all: repeat (split; [first [reflexivity | apply delete_delete] |]).
  all: eexists _, _; split; rewrite <- ?app_assoc; reflexivity.
Qed.

(** X20. Called with a string and two numbers (further arguments are
    ignored) while the five decoding calls of N-API succeed, the
    registered callback returns what [FastReadFile] returns for the
    decoded path, offset and length, with the same mappings, descriptors
    and files afterwards; the path, cut at its first NUL byte, is what
    is opened, and the buffer that held it is freed right after the
    open, whatever follows. *)
Theorem FastReadFile_callback_decoded (h : Host) (w : World) (s : string)
    (o l : Z) (rest : list napi_value) :
  napi_all_ok 5 w ->
  let p := Z.pos (next_ptr w) in
  let wd := arguments_decoded 5 w in
  let cb := FastReadFile_callback h (JsString s :: JsInt64 o :: JsInt64 l :: rest)
                                  w in
  let core := FastReadFile h (c_str s) o l wd in
  fst cb = fst core /\
  maps (snd cb) = maps (snd core) /\
  fds (snd cb) = fds (snd core) /\
  mapping_objects (snd cb) = mapping_objects (snd core) /\
  fs (snd cb) = fs (snd core) /\
  heap (snd cb) = delete p (heap (snd core)) /\
  exists (fd : Z) (evs : list Event),
    new_events wd (snd core) = EvOpen (c_str s) fd :: evs /\
    new_events w (snd cb)
    = EvMalloc p :: EvOpen (c_str s) fd :: EvFree p :: evs.
Proof.
  intros Hok. cbv zeta.
  rewrite (FastReadFile_callback_decode h w s o l rest Hok).
  destruct (free_after_open h (c_str s) o l (Z.pos (next_ptr w))
              (arguments_decoded 5 w))
    as (Hr & Hmaps & Hfds & Hobj & Hfs & Hheap & fd & evs & Htc & Htcb).
  { unfold arguments_decoded, sys_malloc.
    cbn [snd next_ptr log set_heap set_napi_pending]. lia. }
  repeat (split; [assumption |]).
  exists fd, evs. split.
  - apply new_events_app. exact Htc.
  - apply new_events_app. rewrite Htcb.
    unfold arguments_decoded, sys_malloc.
    cbn [snd trace log set_heap set_napi_pending next_ptr].
    rewrite <- app_assoc. reflexivity.
Qed.

Ltac split_args :=
  repeat first
    [ progress world_cbn
    | progress cbn [nth]
    | match goal with
      | |- context [match ?x with _ => _ end] =>
          lazymatch x with
          | context [match _ with _ => _ end] => fail
          | _ => destruct x eqn:?
          end
      end ].

(** X21. Arguments that do not decode reach no file: when the first
    argument is not a string or one of the next two is not a number (or
    is missing), the callback throws, and the only call it may have made
    by then is the allocation of the path buffer; no file is opened,
    nothing is mapped, and the heap records are as before. *)
Theorem undecodable_arguments_open_nothing (h : Host) (w : World)
    (info : list napi_value) :
  is_string (nth_error info 0) && is_number (nth_error info 1)
    && is_number (nth_error info 2) = false ->
  let cb := FastReadFile_callback h info w in
  (exists msg : string, fst cb = Thrown msg) /\
  (new_events w (snd cb) = [] \/
   new_events w (snd cb) = [EvMalloc (Z.pos (next_ptr w))]) /\
  fds (snd cb) = fds w /\ maps (snd cb) = maps w /\
  heap (snd cb) = heap w /\ fs (snd cb) = fs w.
Proof.
  intros H. cbv zeta. revert H.
  unfold FastReadFile_callback, napi_get_cb_info, arg,
    napi_get_value_string_utf8_length, napi_get_value_string_utf8,
    napi_get_value_int64, NAPI_CALL, bind, lift, napi_throw_error, sys_malloc.
  cbn [map seq]. split_args.
  all: cbn [is_string is_number andb]; intros H; try discriminate H.
  all: split; [eexists; reflexivity |].
  all: split; [| repeat split; reflexivity].
  all: first [ left; apply new_events_app; symmetry; apply app_nil_r
             | right; apply new_events_app; reflexivity ].
Qed.

(** X22. The path buffer is lost when a number does not decode: with a
    string as first argument and a second or third argument that is not
    a number, the callback has allocated the buffer of the path when it
    throws "A number was expected", and it returns without freeing it. *)
Theorem path_buffer_lost_on_bad_number (h : Host) (w : World)
    (info : list napi_value) (s : string) :
  nth_error info 0 = Some (JsString s) ->
  is_number (nth_error info 1) && is_number (nth_error info 2) = false ->
  napi_all_ok 4 w ->
  let cb := FastReadFile_callback h info w in
  fst cb = Thrown "A number was expected" /\
  new_events w (snd cb) = [EvMalloc (Z.pos (next_ptr w))] /\
  existsb (fun e => match e with EvFree _ => true | _ => false end)
          (new_events w (snd cb)) = false.
Proof.
  intros Hs Hnum Hok4. cbv zeta.
  pose proof (napi_all_ok_fewer 3 1 w Hok4) as Hok3.
  pose proof (napi_all_ok_decoded 3 1 w Hok4) as Hok1.
  unfold FastReadFile_callback.
  rewrite (decode_path 3 info s
             (fun args path path_chars =>
                let* offset := napi_get_value_int64 (arg args 1) in
                let* length := napi_get_value_int64 (arg args 2) in
                let* fd := lift (sys_open h (c_str path_chars)) in
                let* _ := lift (sys_free path) in
                FastReadFile_opened h fd offset length)
             w Hs ltac:(lia) Hok3).
  cbn [map seq nth arg].
  assert (Htr : trace (arguments_decoded 3 w)
                = trace w ++ [EvMalloc (Z.pos (next_ptr w))]) by reflexivity.
  assert (Hev : forall w',
             trace w' = trace (arguments_decoded 3 w) ->
             new_events w w' = [EvMalloc (Z.pos (next_ptr w))] /\
             existsb (fun e => match e with EvFree _ => true | _ => false end)
                     (new_events w w') = false).
  { intros w' Hw'.
    assert (Hn : new_events w w' = [EvMalloc (Z.pos (next_ptr w))])
      by (apply new_events_app; rewrite Hw'; exact Htr).
    rewrite Hn. split; reflexivity. }
  rewrite bind_unfold.
  destruct (nth_error info 1) as [[n1 | d1 n1 f1 h1 | s1 | v1 | ps1] |];
    cbn [napi_get_value_int64 napi_throw_error fst snd];
    try (split; [reflexivity | apply Hev; reflexivity]).
  destruct (NAPI_CALL_ok 0 v1 _ Hok1) as [E4 _]. rewrite E4.
  rewrite bind_unfold.
  destruct (nth_error info 2) as [[n2 | d2 n2 f2 h2 | s2 | v2 | ps2] |];
    cbn [napi_get_value_int64 napi_throw_error fst snd];
    try (split; [reflexivity | apply Hev; reflexivity]).
  discriminate Hnum.
Qed.

(** X23. The path ends at its first NUL byte: two strings that agree
    up to their first NUL are the same path to the callback, whatever
    follows the NUL. *)
Theorem path_ends_at_first_nul (h : Host) (w : World) (s1 s2 : string)
    (rest : list napi_value) :
  c_str s1 = c_str s2 ->
  napi_all_ok 3 w ->
  FastReadFile_callback h (JsString s1 :: rest) w
  = FastReadFile_callback h (JsString s2 :: rest) w.
Proof.
  intros Hc Hok3. unfold FastReadFile_callback.
  rewrite (decode_path 3 (JsString s1 :: rest) s1
             (fun args path path_chars =>
                let* offset := napi_get_value_int64 (arg args 1) in
                let* length := napi_get_value_int64 (arg args 2) in
                let* fd := lift (sys_open h (c_str path_chars)) in
                let* _ := lift (sys_free path) in
                FastReadFile_opened h fd offset length)
             w eq_refl ltac:(lia) Hok3).
  rewrite (decode_path 3 (JsString s2 :: rest) s2
             (fun args path path_chars =>
                let* offset := napi_get_value_int64 (arg args 1) in
                let* length := napi_get_value_int64 (arg args 2) in
                let* fd := lift (sys_open h (c_str path_chars)) in
                let* _ := lift (sys_free path) in
                FastReadFile_opened h fd offset length)
             w eq_refl ltac:(lia) Hok3).
  cbn [map seq nth nth_error arg]. rewrite Hc. reflexivity.
Qed.

(** X24. [GetFileStats] as registered: called with a string (further
    arguments are ignored) while the three decoding calls of N-API
    succeed, it returns what [GetFileStats] returns for the decoded
    path, and the buffer of the path is freed right after the [stat]
    call on both branches, whether the [stat] succeeded or not. *)
Theorem GetFileStats_callback_decoded (h : Host) (w : World) (s : string)
    (rest : list napi_value) :
  napi_all_ok 3 w ->
  let p := Z.pos (next_ptr w) in
  let cb := GetFileStats_callback h (JsString s :: rest) w in
  let core := GetFileStats h (c_str s) (arguments_decoded 3 w) in
  fst cb = fst core /\
  (exists ok : bool,
     new_events w (snd cb) = [EvMalloc p; EvStat (c_str s) ok; EvFree p]) /\
  heap (snd cb) = delete p (heap w) /\
  fds (snd cb) = fds w /\ maps (snd cb) = maps w /\ fs (snd cb) = fs w.
Proof.
  intros Hok3. cbv zeta. unfold GetFileStats_callback.
  rewrite (decode_path 1 (JsString s :: rest) s
             (fun args path path_chars =>
                let* st := lift (sys_stat h (c_str path_chars)) in
                match st with
                | None =>
                    let* _ := lift (sys_free path) in
                    napi_throw_error "Failed to stat file"
                | Some st =>
                    let* _ := lift (sys_free path) in
                    let* result := napi_create_object in
                    let* size := napi_create_int64 (st_size st) in
                    let* result := napi_set_named_property result "size" size in
                    let* mtime := napi_create_int64 (to_int64 (st_mtime st)) in
                    let* result :=
                      napi_set_named_property result "mtime" mtime in
                    ret result
                end)
             w eq_refl ltac:(lia) Hok3).
  unfold arguments_decoded. unfold_run. split_run.
  all: split; [reflexivity |].
  all: split; [eexists; apply new_events_app; world_cbn;
               rewrite <- ?app_assoc; reflexivity |].
  all: repeat split; reflexivity.
Qed.

(** ** Instances of the further properties *)

Lemma scalar_checksum_polynomial_witness :
  (true = false \/ (List.length [x61; x62] < 32)%nat) /\
  checksum_hash true [x61; x62] = poly31 [x61; x62] mod 2 ^ 64.
Proof.
  assert (H : true = false \/ (List.length [x61; x62] < 32)%nat)
    by (right; simpl; lia).
  split; [exact H | exact (scalar_checksum_polynomial true [x61; x62] H)].
Defined.

Lemma checksum_ignores_leading_zeros_witness :
  (true = false \/ (2 + List.length [x61] < 32)%nat) /\
  checksum_hex true (repeat x00 2 ++ [x61]) = checksum_hex true [x61].
Proof.
  assert (H : true = false \/ (2 + List.length [x61] < 32)%nat)
    by (right; simpl; lia).
  split; [exact H | exact (checksum_ignores_leading_zeros true 2 [x61] H)].
Defined.

Lemma checksum_blind_to_chunk_order_witness :
  checksum_hex true (concat [repeat x01 32; repeat x02 32] ++ [x03])
  = checksum_hex true (concat [repeat x02 32; repeat x01 32] ++ [x03]).
Proof.
  apply (checksum_blind_to_chunk_order
           [repeat x01 32; repeat x02 32] [repeat x02 32; repeat x01 32] [x03]).
  - apply perm_swap.
  - repeat constructor.
  - simpl; lia.
Defined.

Lemma checksum_doubled_words_cancel_witness :
  checksum_hex true (repeat x01 8 ++ repeat x01 8 ++ repeat x02 8 ++ repeat x02 8)
  = checksum_hex true [].
Proof.
  apply (checksum_doubled_words_cancel (repeat x01 8) (repeat x02 8));
    reflexivity.
Defined.

Lemma open_failure_only_opens_witness :
  fst (FastReadFile posix_host "absent.bin" 0 16 sample_world)
  = Thrown "Failed to open file".
Proof.
  assert (H : fs sample_world !! "absent.bin"%string = None
              \/ host_open posix_host "absent.bin" < 0)
    by (left; reflexivity).
  rewrite (proj1 (open_failure_only_opens posix_host sample_world "absent.bin"
                    0 16 H)).
  reflexivity.
Defined.

Lemma no_descriptor_outlives_call_witness :
  fds (snd (FastReadFile win32_host "data.bin" 4999 3 sample_world))
  = fds sample_world.
Proof.
  apply (no_descriptor_outlives_call win32_host sample_world "data.bin" 4999 3).
  - reflexivity.
  - intros mh _. exact (lookup_empty mh).
Defined.

Lemma refused_buffer_releases_mapping_witness :
  fst (FastReadFile posix_host "data.bin" 4999 (-1) refusing_world)
  = Thrown "ERR_BUFFER_TOO_LARGE" /\
  maps (snd (FastReadFile posix_host "data.bin" 4999 (-1) refusing_world))
  = List.filter (survives_unmap posix_host 1048576 902) (maps refusing_world) /\
  heap (snd (FastReadFile posix_host "data.bin" 4999 (-1) refusing_world))
  = heap refusing_world.
Proof.
  destruct (refused_buffer_releases_mapping posix_host refusing_world
              "data.bin" 4999 (-1) 1048576 "ERR_BUFFER_TOO_LARGE" [])
    as (Hr & _ & Hmaps & Hheap & _).
  - by_eval.
  - lia.
  - reflexivity.
  - reflexivity.
  - reflexivity.
  - split; [exact Hr |]. split; [exact Hmaps | exact Hheap].
Defined.

Lemma read_release_restores_resources_witness :
  exists w'' : World,
    run_finalizer posix_host (JsExternalBuffer 1049479 3 UnmapCallback_fn 1)
      (snd (FastReadFile posix_host "data.bin" 4999 3 sample_world))
    = Some w'' /\
    maps w'' = maps sample_world /\ heap w'' = heap sample_world.
Proof.
  destruct (read_release_restores_resources posix_host sample_world
              (snd (FastReadFile posix_host "data.bin" 4999 3 sample_world))
              "data.bin" 4999 3
              (JsExternalBuffer 1049479 3 UnmapCallback_fn 1))
    as (w'' & Hfin & Hmaps & Hheap & _).
  - vm_compute; reflexivity.
  - reflexivity.
  - reflexivity.
  - intros a _. reflexivity.
  - exists w''. split; [exact Hfin | split; [exact Hmaps | exact Hheap]].
Defined.

Lemma release_not_idempotent_witness :
  run_finalizer posix_host (JsExternalBuffer 1049479 3 UnmapCallback_fn 1)
    (snd (sys_free 1
            (snd (sys_munmap 1048576 906
                    (snd (FastReadFile posix_host "data.bin" 4999 3
                            sample_world))))))
  = None.
Proof.
  apply (release_not_idempotent posix_host sample_world
           (snd (FastReadFile posix_host "data.bin" 4999 3 sample_world))
           (snd (sys_free 1
                   (snd (sys_munmap 1048576 906
                           (snd (FastReadFile posix_host "data.bin" 4999 3
                                   sample_world))))))
           "data.bin" 4999 3 1049479 3 1 UnmapCallback_fn).
  - vm_compute; reflexivity.
  - vm_compute; reflexivity.
Defined.

Lemma negative_offset_fails_on_posix_witness :
  aligned_offset_of (to_uint64 (host_granularity posix_host)) (-1) < 0 /\
  maps (snd (FastReadFile posix_host "data.bin" (-1) 3 sample_world))
  = maps sample_world.
Proof.
  destruct (negative_offset_fails_on_posix posix_host sample_world "data.bin"
              (-1) 3) as (Hneg & _ & _ & Hmaps & _).
  - reflexivity.
  - by_eval.
  - by_eval.
  - lia.
  - by_eval.
  - split; [exact Hneg | exact Hmaps].
Defined.

Lemma negative_length_maps_short_region_witness :
  map_length_of (to_uint64 (host_granularity posix_host)) 4999 (-900) = 3 /\
  (exists evs : list Event,
     new_events refusing_world
       (snd (FastReadFile posix_host "data.bin" 4999 (-900) refusing_world))
     = EvOpen "data.bin" 3 :: EvQueryGranularity
         :: evs ++ [EvClose 3; EvMalloc 1; EvMunmap 1048576 3; EvFree 1]) /\
  maps (snd (FastReadFile posix_host "data.bin" 4999 (-900) refusing_world))
  = List.filter (survives_unmap posix_host 1048576 3) (maps refusing_world).
Proof.
  destruct (negative_length_maps_short_region posix_host refusing_world
              "data.bin" 4999 (-900) 1048576)
    as (Hlen & _ & _ & _ & _ & Hrefused).
  - by_eval.
  - by_eval.
  - by_eval.
  - by_eval.
  - reflexivity.
  - destruct (Hrefused "ERR_BUFFER_TOO_LARGE"%string) as (Hev & Hmaps & _).
    + vm_compute. reflexivity.
    + split; [exact Hlen |]. split; [exact Hev | exact Hmaps].
Defined.

Lemma valid_view_inside_mapping_witness :
  exists region : Mapping,
    maps (snd (FastReadFile posix_host "data.bin" 4999 3 sample_world))
    = region :: maps sample_world /\
    1049479 + 3 = m_addr region + m_len region.
Proof.
  destruct (valid_view_inside_mapping posix_host sample_world
              (snd (FastReadFile posix_host "data.bin" 4999 3 sample_world))
              "data.bin" 4999 3 1049479 3 1 UnmapCallback_fn)
    as (region & Hmaps & _ & _ & Hend).
  - by_eval.
  - by_eval.
  - by_eval.
  - vm_compute; reflexivity.
  - exists region. split; [exact Hmaps | exact Hend].
Defined.

Lemma stat_then_read_whole_file_witness :
  5003 = Z.of_nat (List.length (f_bytes sample_file)) /\
  load_bytes
    (snd (FastReadFile posix_host "data.bin" 0 5003
            (snd (GetFileStats posix_host "data.bin" sample_world))))
    1048576 (Z.to_nat 5003)
  = Some (f_bytes sample_file).
Proof.
  destruct (stat_then_read_whole_file posix_host sample_world
              (snd (GetFileStats posix_host "data.bin" sample_world))
              (snd (FastReadFile posix_host "data.bin" 0 5003
                      (snd (GetFileStats posix_host "data.bin" sample_world))))
              "data.bin" sample_file 5003 1700000000
              (JsExternalBuffer 1048576 5003 UnmapCallback_fn 1))
    as (Hsize & _ & Hload).
  - reflexivity.
  - by_eval.
  - by_eval.
  - vm_compute; reflexivity.
  - vm_compute; reflexivity.
  - split; [exact Hsize | exact Hload].
Defined.

Lemma adjacent_reads_concatenate_witness :
  exists c1 c2 : list byte,
    load_bytes (snd (FastReadFile posix_host "data.bin" 4990 5 sample_world))
               1049470 (Z.to_nat 5) = Some c1 /\
    load_bytes (snd (FastReadFile posix_host "data.bin" 4995 8 sample_world))
               1049475 (Z.to_nat 8) = Some c2 /\
    load_bytes (snd (FastReadFile posix_host "data.bin" 4990 13 sample_world))
               1049470 (Z.to_nat 13) = Some (c1 ++ c2).
Proof.
  apply (adjacent_reads_concatenate posix_host "data.bin" sample_file
           sample_world
           (snd (FastReadFile posix_host "data.bin" 4990 5 sample_world))
           sample_world
           (snd (FastReadFile posix_host "data.bin" 4995 8 sample_world))
           sample_world
           (snd (FastReadFile posix_host "data.bin" 4990 13 sample_world))
           4990 5 8
           (1049470, 5, UnmapCallback_fn, 1)
           (1049475, 8, UnmapCallback_fn, 1)
           (1049470, 13, UnmapCallback_fn, 1)).
  - reflexivity.
  - reflexivity.
  - reflexivity.
  - by_eval.
  - by_eval.
  - lia.
  - lia.
  - lia.
  - by_eval.
  - vm_compute; reflexivity.
  - vm_compute; reflexivity.
  - vm_compute; reflexivity.
Defined.

Lemma checksum_of_view_is_of_file_range_witness :
  fst (SimdChecksum posix_host [x41; x42; x43]
         (snd (FastReadFile posix_host "data.bin" 4999 3 sample_world)))
  = Returned (JsString (checksum_hex true
                (firstn (Z.to_nat 3)
                        (skipn (Z.to_nat 4999) (f_bytes sample_file))))).
Proof.
  apply (checksum_of_view_is_of_file_range posix_host sample_world
           (snd (FastReadFile posix_host "data.bin" 4999 3 sample_world))
           "data.bin" sample_file 4999 3 1049479 3 1 UnmapCallback_fn
           [x41; x42; x43]).
  - reflexivity.
  - by_eval.
  - by_eval.
  - lia.
  - lia.
  - by_eval.
  - vm_compute; reflexivity.
  - vm_compute; reflexivity.
  - reflexivity.
Defined.

Lemma FastReadFile_callback_decoded_witness :
  fst (FastReadFile_callback posix_host
         [JsString "data.bin"; JsInt64 4999; JsInt64 3] sample_world)
  = fst (FastReadFile posix_host (c_str "data.bin") 4999 3
           (arguments_decoded 5 sample_world)).
Proof.
  destruct (FastReadFile_callback_decoded posix_host sample_world "data.bin"
              4999 3 []) as (Hr & _).
  - reflexivity.
  - exact Hr.
Defined.

Lemma undecodable_arguments_open_nothing_witness :
  exists msg : string,
    fst (FastReadFile_callback posix_host [JsString "data.bin"; JsInt64 0]
           sample_world) = Thrown msg.
Proof.
  destruct (undecodable_arguments_open_nothing posix_host sample_world
              [JsString "data.bin"; JsInt64 0]) as (Hthrown & _).
  - reflexivity.
  - exact Hthrown.
Defined.

Lemma path_buffer_lost_on_bad_number_witness :
  fst (FastReadFile_callback posix_host
         [JsString "data.bin"; JsString "0"; JsInt64 3] sample_world)
  = Thrown "A number was expected" /\
  new_events sample_world
    (snd (FastReadFile_callback posix_host
            [JsString "data.bin"; JsString "0"; JsInt64 3] sample_world))
  = [EvMalloc 1].
Proof.
  destruct (path_buffer_lost_on_bad_number posix_host sample_world
              [JsString "data.bin"; JsString "0"; JsInt64 3] "data.bin")
    as (Hr & Hev & _).
  - reflexivity.
  - reflexivity.
  - reflexivity.
  - split; [exact Hr | exact Hev].
Defined.

Lemma path_ends_at_first_nul_witness :
  FastReadFile_callback posix_host
    [JsString ("data.bin" ++ String Ascii.zero ".txt"); JsInt64 4999; JsInt64 3]
    sample_world
  = FastReadFile_callback posix_host
      [JsString "data.bin"; JsInt64 4999; JsInt64 3] sample_world.
Proof.
  apply (path_ends_at_first_nul posix_host sample_world
           ("data.bin" ++ String Ascii.zero ".txt") "data.bin"
           [JsInt64 4999; JsInt64 3]).
  - reflexivity.
  - reflexivity.
Defined.

Lemma GetFileStats_callback_decoded_witness :
  fst (GetFileStats_callback posix_host [JsString "data.bin"] sample_world)
  = fst (GetFileStats posix_host (c_str "data.bin")
           (arguments_decoded 3 sample_world)) /\
  exists ok : bool,
    new_events sample_world
      (snd (GetFileStats_callback posix_host [JsString "data.bin"] sample_world))
    = [EvMalloc 1; EvStat (c_str "data.bin") ok; EvFree 1].
Proof.
  destruct (GetFileStats_callback_decoded posix_host sample_world "data.bin" [])
    as (Hr & Hev & _).
  - reflexivity.
  - split; [exact Hr | exact Hev].
Defined.
